(** * valve_test_vench: the DCON controller and the forward-test sequencer

    A shallow embedding of [src/main.py]: the [DCONController] class
    (serial transport, the 705X write frame, the 7019 analog read with its
    calibration) and the part of [MainFrame] that drives the forward test
    ([on_forward_test], [run_forward_test], [on_stop]).

    Conventions of the embedding.
    - Python [int] is [Z]; loop indices produced by [range] are [nat].
    - In the state of the controller a Python [float] is idealised as
      an exact rational ([Q]): there the calibration formula and
      [round(x, 2)] are computed without binary rounding error, and
      there is no infinity or NaN. What a read returns for a response
      line is also written with every number a double ([Binary64]),
      as Python computes it, and the value of the returned pressure is
      settled there.
    - The builtin [float()] on a token is a parameter [py_float] of the
      methods that read; [Example.decimal] is the instance the examples
      run with.
    - [str] is [string]; a character is its code point below 256.
    - An exception is a value of [exn]; a [try] body runs in a state and
      error monad and the [except] handler is written out.
    - The serial port and its device are an oracle ([Device]) that fixes
      the outcome of every open, write and readline in order.
    - [wx.CallAfter], [print] and the [log_message] calls of the test
      sequencer append to an event log; the widgets the handlers read
      and write are a record ([Widgets]), drawing is not modelled.
    - A method call is modelled as a whole, one call at a time; the
      threads are interleaved explicitly in [Interleaving]. *)

From Stdlib Require Import ZArith QArith Qround Qabs String Ascii Bool Lia Lqa.
From Stdlib Require Import Floats.
From stdpp Require Import base list.

Local Open Scope string_scope.
Local Open Scope Z_scope.

(** ** Python string helpers *)

Module PyStr.

(** Upper-case hexadecimal digit of a value in [0, 16). *)
Definition hex_digit (d : Z) : ascii :=
  match d with
  | 0 => "0" | 1 => "1" | 2 => "2" | 3 => "3" | 4 => "4" | 5 => "5"
  | 6 => "6" | 7 => "7" | 8 => "8" | 9 => "9" | 10 => "A" | 11 => "B"
  | 12 => "C" | 13 => "D" | 14 => "E" | _ => "F"
  end%char.

Definition is_hex_upper (c : ascii) : bool :=
  let n := Z.of_nat (nat_of_ascii c) in
  ((48 <=? n) && (n <=? 57)) || ((65 <=? n) && (n <=? 70)).

(** Digits of a non-negative [n] in base 16, most significant first,
    pushed in front of [acc]. [fuel] bounds the number of digits. *)
Fixpoint hex_digits (fuel : nat) (n : Z) (acc : string) : string :=
  match fuel with
  | O => acc
  | S fuel' =>
      let acc' := String (hex_digit (n mod 16)) acc in
      if n / 16 =? 0 then acc' else hex_digits fuel' (n / 16) acc'
  end.

(** [format(n, "X")] for [n >= 0]. *)
Definition to_hex (n : Z) : string :=
  hex_digits (S (Z.to_nat (Z.log2 n))) n EmptyString.

(** The number an upper-case hex numeral denotes, on top of [v]. *)
Definition hex_digit_value (c : ascii) : Z :=
  let n := Z.of_nat (nat_of_ascii c) in
  if n <=? 57 then n - 48 else n - 55.

Fixpoint hex_value_from (v : Z) (s : string) : Z :=
  match s with
  | EmptyString => v
  | String c s' => hex_value_from (16 * v + hex_digit_value c) s'
  end.

Definition hex_value (s : string) : Z := hex_value_from 0 s.

Fixpoint zeros (k : nat) : string :=
  match k with
  | O => EmptyString
  | S k' => String "0" (zeros k')
  end.

(** [format(n, "0wX")]: upper-case hex, sign first, then zeros up to a
    total of [w] characters. The width is a minimum, never a limit. *)
Definition format_0X (w : nat) (n : Z) : string :=
  let sign := if n <? 0 then "-" else EmptyString in
  let digits := to_hex (Z.abs n) in
  sign ++ zeros (w - String.length sign - String.length digits) ++ digits.

(** The carriage return that ends a frame. *)
Definition CR : string := String "013" EmptyString.

Fixpoint all_chars (p : ascii -> bool) (s : string) : bool :=
  match s with
  | EmptyString => true
  | String c s' => p c && all_chars p s'
  end.

(** [str.isspace] on code points below 256. *)
Definition is_space (c : ascii) : bool :=
  let n := nat_of_ascii c in
  ((9 <=? n) && (n <=? 13))%nat || ((28 <=? n) && (n <=? 32))%nat
  || (n =? 133)%nat || (n =? 160)%nat.

Fixpoint lstrip (s : string) : string :=
  match s with
  | String c s' => if is_space c then lstrip s' else s
  | EmptyString => EmptyString
  end.

(** Drop trailing whitespace: a character is kept when something
    non-blank follows it or it is itself non-blank. *)
Fixpoint rstrip (s : string) : string :=
  match s with
  | EmptyString => EmptyString
  | String c s' =>
      match rstrip s' with
      | EmptyString => if is_space c then EmptyString else String c EmptyString
      | r => String c r
      end
  end.

(** [s.strip()] *)
Definition strip (s : string) : string := rstrip (lstrip s).

(** [s.split()] with no separator: maximal runs of non-blank characters.
    [cur] is the run being read, reversed. *)
Fixpoint split_aux (s : string) (cur : list ascii) : list string :=
  let flush (rest : list string) :=
    match cur with
    | [] => rest
    | _ => string_of_list_ascii (rev cur) :: rest
    end in
  match s with
  | EmptyString => flush []
  | String c s' =>
      if is_space c then flush (split_aux s' []) else split_aux s' (c :: cur)
  end.

Definition split (s : string) : list string := split_aux s [].

End PyStr.

(** ** Exceptions and Python builtins on numbers and lists *)

Inductive exn : Set :=
| SerialException      (* pyserial: open, write or read failed *)
| UnicodeDecodeError   (* bytes.decode() *)
| ValueError           (* float(), max() of an empty sequence *)
| IndexError           (* list index out of range *)
| ZeroDivisionError.   (* float division by zero *)

Inductive result (A : Type) : Type :=
| Ok (a : A)
| Raise (e : exn).
Arguments Ok {A} a.
Arguments Raise {A} e.

Module PyNum.

(** Nearest integer, ties to the even neighbour. *)
Definition round_half_even (x : Q) : Z :=
  let f := Qfloor x in
  match Qcompare (x - inject_Z f) (1 # 2) with
  | Lt => f
  | Gt => f + 1
  | Eq => if Z.even f then f else f + 1
  end.

(** [round(x, 2)], kept in lowest terms. *)
Definition round2 (x : Q) : Q :=
  Qred (Qmake (round_half_even (x * 100)) 100).

(** [a > b] on floats. *)
Definition gtb (a b : Q) : bool := negb (Qle_bool a b).

(** [max(l)]: the first greatest item; [ValueError] on an empty list. *)
Definition py_max (l : list Q) : result Q :=
  match l with
  | [] => Raise ValueError
  | x :: rest => Ok (fold_left (fun m y => if gtb y m then y else m) rest x)
  end.

(** [l[:k]] for an integer [k]: a negative [k] counts from the end. *)
Definition slice_to {A} (l : list A) (k : Z) : list A :=
  if k <? 0 then take (Z.to_nat (Z.of_nat (length l) + k)) l
  else take (Z.to_nat k) l.

(** [l[i]] for an integer [i]: a negative [i] counts from the end. *)
Definition getitem {A} (l : list A) (i : Z) : result A :=
  let j := if i <? 0 then Z.of_nat (length l) + i else i in
  if j <? 0 then Raise IndexError
  else match l !! Z.to_nat j with
       | Some x => Ok x
       | None => Raise IndexError
       end.

(** [l[i] = x] for an index [i >= 0], as produced by [range]. *)
Definition setitem {A} (l : list A) (i : nat) (x : A) : result (list A) :=
  if (i <? length l)%nat then Ok (<[i := x]> l) else Raise IndexError.

End PyNum.

(** ** The serial port and the device behind it *)

(** A [serial.Serial] object. [ser_id] stands for the identity of the
    object: two handles are the same object when their ids agree. *)
Record Serial : Type := mkSerial {
  ser_id : nat;
  ser_port : string;
  ser_baudrate : Z;
  ser_bytesize : Z;
  ser_stopbits : Z;
  ser_parity : string;
  ser_timeout : Q;
  is_open : bool
}.

(** What [ser.readline().decode()] yields: the decoded text, or the
    exception raised by the read or by the decoding. *)
Inductive rx : Type :=
| RxText (s : string)
| RxRaise (e : exn).

(** The environment of the controller. The [k]-th attempt to open the
    port succeeds iff [opens k]; the [k]-th write is accepted iff
    [writes k]; the [k]-th readline yields [lines k]. The counters say
    how many of each have happened, [wire] holds the frames the device
    has accepted, oldest first. *)
Record Device : Type := mkDevice {
  opens : nat -> bool;
  writes : nat -> bool;
  lines : nat -> rx;
  n_opens : nat;
  n_writes : nat;
  n_lines : nat;
  wire : list string
}.

(** ** DCONController *)

Record DCONController : Type := mkController {
  port : string;
  baudrate : Z;
  data_bits : Z;
  stop_bits : Z;
  parity : string;
  timeout : Q;
  ser : option Serial;
  (* device addresses and channels *)
  adrDO : Z;
  adrAO : Z;
  valve1 : Z;
  valve2 : Z;
  valve3 : Z;
  valve4 : Z;
  startPUMP : Z;
  plusPUMP : Z;
  minusPUMP : Z;
  pressureChanel : Z;
  (* calibration *)
  minMA : Q;
  maxMA : Q;
  minP : Q;
  maxP : Q;
  (* state *)
  pressurePOSLE : Q;
  stop_igra : bool;
  plus_counter : Z;
  minus_counter : Z;
  fixed_open : Q;
  fixed_close : Q;
  plus_dim_press : list Q;
  (* timings *)
  plus_minus_time : Z;
  plus_step_time : Z;
  minus_step_time : Z;
  plus_step : Z;
  minus_step : Z
}.

(** [DCONController.__init__]. The lock is not a field: calls are
    modelled one at a time, so it is free on entry and on exit. *)
Definition init_controller : DCONController := {|
  port := "COM3";
  baudrate := 57600;
  data_bits := 8;
  stop_bits := 1;
  parity := "N";
  timeout := 2 # 10;
  ser := None;
  adrDO := 1;
  adrAO := 2;
  valve1 := 1;
  valve2 := 4;
  valve3 := 3;
  valve4 := 2;
  startPUMP := 5;
  plusPUMP := 6;
  minusPUMP := 7;
  pressureChanel := 5;
  minMA := 386 # 100;
  maxMA := 19368 # 1000;
  minP := 0;
  maxP := 6;
  pressurePOSLE := 0;
  stop_igra := false;
  plus_counter := 0;
  minus_counter := 0;
  fixed_open := 0;
  fixed_close := 0;
  plus_dim_press := replicate 41 0%Q;
  plus_minus_time := 100;
  plus_step_time := 1000;
  minus_step_time := 1000;
  plus_step := 80;
  minus_step := 40
|}.

(** Attribute assignment [self.f = v], one function per assigned attribute
    (and per attribute the examples configure). *)
Definition set_ser (v : option Serial) (c : DCONController) : DCONController :=
  {| port := port c; baudrate := baudrate c; data_bits := data_bits c;
    stop_bits := stop_bits c; parity := parity c; timeout := timeout c;
    ser := v; adrDO := adrDO c; adrAO := adrAO c; valve1 := valve1 c;
    valve2 := valve2 c; valve3 := valve3 c; valve4 := valve4 c;
    startPUMP := startPUMP c; plusPUMP := plusPUMP c;
    minusPUMP := minusPUMP c; pressureChanel := pressureChanel c;
    minMA := minMA c; maxMA := maxMA c; minP := minP c; maxP := maxP c;
    pressurePOSLE := pressurePOSLE c; stop_igra := stop_igra c;
    plus_counter := plus_counter c; minus_counter := minus_counter c;
    fixed_open := fixed_open c; fixed_close := fixed_close c;
    plus_dim_press := plus_dim_press c;
    plus_minus_time := plus_minus_time c;
    plus_step_time := plus_step_time c;
    minus_step_time := minus_step_time c; plus_step := plus_step c;
    minus_step := minus_step c |}.

Definition set_pressurePOSLE (v : Q) (c : DCONController) : DCONController :=
  {| port := port c; baudrate := baudrate c; data_bits := data_bits c;
    stop_bits := stop_bits c; parity := parity c; timeout := timeout c;
    ser := ser c; adrDO := adrDO c; adrAO := adrAO c; valve1 := valve1 c;
    valve2 := valve2 c; valve3 := valve3 c; valve4 := valve4 c;
    startPUMP := startPUMP c; plusPUMP := plusPUMP c;
    minusPUMP := minusPUMP c; pressureChanel := pressureChanel c;
    minMA := minMA c; maxMA := maxMA c; minP := minP c; maxP := maxP c;
    pressurePOSLE := v; stop_igra := stop_igra c;
    plus_counter := plus_counter c; minus_counter := minus_counter c;
    fixed_open := fixed_open c; fixed_close := fixed_close c;
    plus_dim_press := plus_dim_press c;
    plus_minus_time := plus_minus_time c;
    plus_step_time := plus_step_time c;
    minus_step_time := minus_step_time c; plus_step := plus_step c;
    minus_step := minus_step c |}.

Definition set_stop_igra (v : bool) (c : DCONController) : DCONController :=
  {| port := port c; baudrate := baudrate c; data_bits := data_bits c;
    stop_bits := stop_bits c; parity := parity c; timeout := timeout c;
    ser := ser c; adrDO := adrDO c; adrAO := adrAO c; valve1 := valve1 c;
    valve2 := valve2 c; valve3 := valve3 c; valve4 := valve4 c;
    startPUMP := startPUMP c; plusPUMP := plusPUMP c;
    minusPUMP := minusPUMP c; pressureChanel := pressureChanel c;
    minMA := minMA c; maxMA := maxMA c; minP := minP c; maxP := maxP c;
    pressurePOSLE := pressurePOSLE c; stop_igra := v;
    plus_counter := plus_counter c; minus_counter := minus_counter c;
    fixed_open := fixed_open c; fixed_close := fixed_close c;
    plus_dim_press := plus_dim_press c;
    plus_minus_time := plus_minus_time c;
    plus_step_time := plus_step_time c;
    minus_step_time := minus_step_time c; plus_step := plus_step c;
    minus_step := minus_step c |}.

Definition set_plus_counter (v : Z) (c : DCONController) : DCONController :=
  {| port := port c; baudrate := baudrate c; data_bits := data_bits c;
    stop_bits := stop_bits c; parity := parity c; timeout := timeout c;
    ser := ser c; adrDO := adrDO c; adrAO := adrAO c; valve1 := valve1 c;
    valve2 := valve2 c; valve3 := valve3 c; valve4 := valve4 c;
    startPUMP := startPUMP c; plusPUMP := plusPUMP c;
    minusPUMP := minusPUMP c; pressureChanel := pressureChanel c;
    minMA := minMA c; maxMA := maxMA c; minP := minP c; maxP := maxP c;
    pressurePOSLE := pressurePOSLE c; stop_igra := stop_igra c;
    plus_counter := v; minus_counter := minus_counter c;
    fixed_open := fixed_open c; fixed_close := fixed_close c;
    plus_dim_press := plus_dim_press c;
    plus_minus_time := plus_minus_time c;
    plus_step_time := plus_step_time c;
    minus_step_time := minus_step_time c; plus_step := plus_step c;
    minus_step := minus_step c |}.

Definition set_minus_counter (v : Z) (c : DCONController) : DCONController :=
  {| port := port c; baudrate := baudrate c; data_bits := data_bits c;
    stop_bits := stop_bits c; parity := parity c; timeout := timeout c;
    ser := ser c; adrDO := adrDO c; adrAO := adrAO c; valve1 := valve1 c;
    valve2 := valve2 c; valve3 := valve3 c; valve4 := valve4 c;
    startPUMP := startPUMP c; plusPUMP := plusPUMP c;
    minusPUMP := minusPUMP c; pressureChanel := pressureChanel c;
    minMA := minMA c; maxMA := maxMA c; minP := minP c; maxP := maxP c;
    pressurePOSLE := pressurePOSLE c; stop_igra := stop_igra c;
    plus_counter := plus_counter c; minus_counter := v;
    fixed_open := fixed_open c; fixed_close := fixed_close c;
    plus_dim_press := plus_dim_press c;
    plus_minus_time := plus_minus_time c;
    plus_step_time := plus_step_time c;
    minus_step_time := minus_step_time c; plus_step := plus_step c;
    minus_step := minus_step c |}.

Definition set_fixed_open (v : Q) (c : DCONController) : DCONController :=
  {| port := port c; baudrate := baudrate c; data_bits := data_bits c;
    stop_bits := stop_bits c; parity := parity c; timeout := timeout c;
    ser := ser c; adrDO := adrDO c; adrAO := adrAO c; valve1 := valve1 c;
    valve2 := valve2 c; valve3 := valve3 c; valve4 := valve4 c;
    startPUMP := startPUMP c; plusPUMP := plusPUMP c;
    minusPUMP := minusPUMP c; pressureChanel := pressureChanel c;
    minMA := minMA c; maxMA := maxMA c; minP := minP c; maxP := maxP c;
    pressurePOSLE := pressurePOSLE c; stop_igra := stop_igra c;
    plus_counter := plus_counter c; minus_counter := minus_counter c;
    fixed_open := v; fixed_close := fixed_close c;
    plus_dim_press := plus_dim_press c;
    plus_minus_time := plus_minus_time c;
    plus_step_time := plus_step_time c;
    minus_step_time := minus_step_time c; plus_step := plus_step c;
    minus_step := minus_step c |}.

Definition set_plus_dim_press (v : list Q) (c : DCONController) : DCONController :=
  {| port := port c; baudrate := baudrate c; data_bits := data_bits c;
    stop_bits := stop_bits c; parity := parity c; timeout := timeout c;
    ser := ser c; adrDO := adrDO c; adrAO := adrAO c; valve1 := valve1 c;
    valve2 := valve2 c; valve3 := valve3 c; valve4 := valve4 c;
    startPUMP := startPUMP c; plusPUMP := plusPUMP c;
    minusPUMP := minusPUMP c; pressureChanel := pressureChanel c;
    minMA := minMA c; maxMA := maxMA c; minP := minP c; maxP := maxP c;
    pressurePOSLE := pressurePOSLE c; stop_igra := stop_igra c;
    plus_counter := plus_counter c; minus_counter := minus_counter c;
    fixed_open := fixed_open c; fixed_close := fixed_close c;
    plus_dim_press := v; plus_minus_time := plus_minus_time c;
    plus_step_time := plus_step_time c;
    minus_step_time := minus_step_time c; plus_step := plus_step c;
    minus_step := minus_step c |}.

Definition set_plus_step (v : Z) (c : DCONController) : DCONController :=
  {| port := port c; baudrate := baudrate c; data_bits := data_bits c;
    stop_bits := stop_bits c; parity := parity c; timeout := timeout c;
    ser := ser c; adrDO := adrDO c; adrAO := adrAO c; valve1 := valve1 c;
    valve2 := valve2 c; valve3 := valve3 c; valve4 := valve4 c;
    startPUMP := startPUMP c; plusPUMP := plusPUMP c;
    minusPUMP := minusPUMP c; pressureChanel := pressureChanel c;
    minMA := minMA c; maxMA := maxMA c; minP := minP c; maxP := maxP c;
    pressurePOSLE := pressurePOSLE c; stop_igra := stop_igra c;
    plus_counter := plus_counter c; minus_counter := minus_counter c;
    fixed_open := fixed_open c; fixed_close := fixed_close c;
    plus_dim_press := plus_dim_press c;
    plus_minus_time := plus_minus_time c;
    plus_step_time := plus_step_time c;
    minus_step_time := minus_step_time c; plus_step := v;
    minus_step := minus_step c |}.





(** ** Program state, events and the monad of method bodies *)

(** Text handed to [log_message]; the numbers are what the f-string
    formats. *)
Inductive message : Type :=
| MsgTestStart
| MsgStep (step : nat) (pressure : Q)
| MsgSummary (max_pressure fixed_close_pressure : Q)
| MsgTestError (e : exn)
| MsgAllStopped.

(** A call queued for the GUI thread with [wx.CallAfter]. *)
Inductive gui_call : Type :=
| CallOnPumpToggle
| CallOnToForward
| CallOnFromForward
| CallUpdateGraph (step : nat) (pressure : Q)
| CallLogMessage (m : message)
| CallOnStop
| CallResetButtons.

(** Which handler printed an error. *)
Inductive site : Set := InConnect | InSendCommand | InRead.

Inductive event : Type :=
| Printed (handler : site) (e : exn)
| CallAfter (c : gui_call)
| LogMessage (m : message).

Record State : Type := mkState {
  controller : DCONController;
  dev : Device;
  is_test_running : bool;
  events : list event          (* oldest first *)
}.

Definition M (A : Type) : Type := State -> result A * State.

#[global] Instance M_ret : MRet M := fun _ a s => (Ok a, s).

#[global] Instance M_bind : MBind M := fun _ _ k m s =>
  match m s with
  | (Ok a, s') => k a s'
  | (Raise e, s') => (Raise e, s')
  end.

#[global] Instance M_throw : MThrow exn M := fun _ e s => (Raise e, s).

(** [try: body except Exception as e: handler e] *)
Definition try_except {A} (body : M A) (handler : exn -> M A) : M A :=
  fun s =>
    match body s with
    | (Ok a, s') => (Ok a, s')
    | (Raise e, s') => handler e s'
    end.

Definition lift {A} (r : result A) : M A := fun s => (r, s).

Definition get_ctl : M DCONController := fun s => (Ok (controller s), s).

Definition modify_ctl (f : DCONController -> DCONController) : M unit :=
  fun s => (Ok tt, mkState (f (controller s)) (dev s) (is_test_running s)
                           (events s)).

Definition set_running (b : bool) : M unit :=
  fun s => (Ok tt, mkState (controller s) (dev s) b (events s)).

Definition emit (e : event) : M unit :=
  fun s => (Ok tt, mkState (controller s) (dev s) (is_test_running s)
                           (events s ++ [e])).

(** [time.sleep] for a length that is not negative: time is not part of
    the state. A negative length raises; [Timed.sleep] has that case. *)
Definition sleep (seconds : Q) : M unit := mret tt.

(** *** Port primitives *)

(** [serial.Serial(port=..., ...)]: a fresh open handle, or an exception. *)
Definition serial_Serial (c : DCONController) : M Serial :=
  fun s =>
    let d := dev s in
    let k := n_opens d in
    let d' := mkDevice (opens d) (writes d) (lines d) (S k) (n_writes d)
                       (n_lines d) (wire d) in
    let s' := mkState (controller s) d' (is_test_running s) (events s) in
    if opens d k
    then (Ok (mkSerial k (port c) (baudrate c) (data_bits c) (stop_bits c)
                       (parity c) (timeout c) true), s')
    else (Raise SerialException, s').

(** [ser.write(data)] *)
Definition ser_write (data : string) : M unit :=
  fun s =>
    let d := dev s in
    let k := n_writes d in
    if writes d k
    then (Ok tt, mkState (controller s)
                   (mkDevice (opens d) (writes d) (lines d) (n_opens d) (S k)
                             (n_lines d) (wire d ++ [data]))
                   (is_test_running s) (events s))
    else (Raise SerialException,
          mkState (controller s)
                  (mkDevice (opens d) (writes d) (lines d) (n_opens d) (S k)
                            (n_lines d) (wire d))
                  (is_test_running s) (events s)).

(** [ser.readline().decode()] *)
Definition ser_readline_decode : M string :=
  fun s =>
    let d := dev s in
    let k := n_lines d in
    let s' := mkState (controller s)
                (mkDevice (opens d) (writes d) (lines d) (n_opens d)
                          (n_writes d) (S k) (wire d))
                (is_test_running s) (events s) in
    match lines d k with
    | RxText t => (Ok t, s')
    | RxRaise e => (Raise e, s')
    end.

(** [self.ser and self.ser.is_open] *)
Definition ser_ready (c : DCONController) : bool :=
  match ser c with
  | Some h => is_open h
  | None => false
  end.

(** The calibration of [read_7019_2]:
    [abs(pressure_raw - minMA) * (maxP - minP) / (maxMA - minMA)]. *)
Definition pressure_norm (c : DCONController) (pressure_raw : Q) : result Q :=
  if Qeq_bool (maxMA c - minMA c) 0 then Raise ZeroDivisionError
  else Ok (Qabs (pressure_raw - minMA c) * (maxP c - minP c)
           / (maxMA c - minMA c))%Q.

(** The pressure [read_7019_2] makes of a raw current: the calibration,
    then [round(..., 2)]. *)
Definition calibrated (c : DCONController) (pressure_raw : Q) : result Q :=
  match pressure_norm c pressure_raw with
  | Ok x => Ok (PyNum.round2 x)
  | Raise e => Raise e
  end.

(** The same formula in IEEE binary64, the arithmetic of Python's
    [float], for checking concrete values against the exact model; and
    the part of [read_7019_2] that makes the pressure of a response
    line, with every number a double. *)
Module Binary64.

Definition pressure_norm (minMA maxMA minP maxP pressure_raw : PrimFloat.float)
  : PrimFloat.float :=
  (abs (pressure_raw - minMA) * (maxP - minP) / (maxMA - minMA))%float.

(** [lo < x < hi] *)
Definition between (lo hi x : PrimFloat.float) : bool :=
  (lo <? x)%float && (x <? hi)%float.

(** The value of a finite double, as a rational; an infinity or a NaN
    has none. *)
Definition exact (x : PrimFloat.float) : option Q :=
  match Prim2SF x with
  | S754_zero _ => Some 0%Q
  | S754_finite s m e =>
      let v := if 0 <=? e then inject_Z (Z.pos m * 2 ^ e)
               else Qmake (Z.pos m) (Z.to_pos (2 ^ (- e))) in
      Some (if s then Qopp v else v)
  | S754_infinity _ => None
  | S754_nan => None
  end.

(** An integer as a double; exact for a size below 2^53. *)
Definition of_Z (k : Z) : PrimFloat.float :=
  if k <? 0 then (- of_uint63 (Uint63.of_Z (- k)))%float
  else of_uint63 (Uint63.of_Z k).

(** [round(x, 2)] on a double. Python rounds the exact value of [x] to
    two decimal places, ties to the even digit, and returns the double
    nearest to that decimal; an infinity or a NaN is returned as it is.
    Below 2^46 in size the decimal is [k/100] for an integer [k] below
    2^53 in size, and the double nearest to it is the quotient of [k]
    by 100, which the division rounds correctly; a zero keeps the sign
    of [x]. From 2^46 on the doubles are more than 0.01 apart and [x]
    is itself the double nearest to its rounding. *)
Definition round2 (x : PrimFloat.float) : PrimFloat.float :=
  match exact x with
  | Some q =>
      if Qle_bool (inject_Z (2 ^ 46)) (Qabs q) then x
      else
        let k := PyNum.round_half_even (q * 100) in
        if k =? 0 then (if get_sign x then (-0)%float else 0%float)
        else (of_Z k / 100)%float
  | None => x
  end.

(** The calibration of [read_7019_2] and its [round(..., 2)]; a float
    division by zero raises. *)
Definition calibrated (minMA maxMA minP maxP pressure_raw : PrimFloat.float)
  : result PrimFloat.float :=
  if (maxMA - minMA =? 0)%float then Raise ZeroDivisionError
  else Ok (round2 (pressure_norm minMA maxMA minP maxP pressure_raw)).

(** What [read_7019_2] makes of the line it has read, inside its [try]:
    the value it returns, or the exception its [except] clause turns
    into [None]. [py_float] is Python's builtin [float] on a token,
    [None] being its [ValueError]. *)
Definition read_value (py_float : string -> option PrimFloat.float)
    (pressureChanel : Z) (minMA maxMA minP maxP : PrimFloat.float)
    (line : string) : result (option PrimFloat.float) :=
  let response := PyStr.strip line in
  if negb (String.eqb response EmptyString) then
    let values := PyStr.split response in
    if Z.of_nat (length values) >? pressureChanel then
      match PyNum.getitem values pressureChanel with
      | Ok tok =>
          match py_float tok with
          | Some pressure_raw =>
              match calibrated minMA maxMA minP maxP pressure_raw with
              | Ok pressure => Ok (Some pressure)
              | Raise e => Raise e
              end
          | None => Raise ValueError
          end
      | Raise e => Raise e
      end
    else Ok None
  else Ok None.

(** The pressure by the formula of the specification: the formula in
    exact arithmetic on the values the doubles have, rounded to two
    decimal places. *)
Definition spec_pressure (minMA maxMA minP maxP pressure_raw : PrimFloat.float)
  : option Q :=
  match exact minMA, exact maxMA, exact minP, exact maxP, exact pressure_raw with
  | Some a, Some b, Some c, Some d, Some r =>
      Some (PyNum.round2 (Qabs (r - a) * (d - c) / (b - a)))
  | _, _, _, _, _ => None
  end.

End Binary64.

(** ** Methods of DCONController *)

Section Methods.

(** Python's builtin [float] on a token: [None] is its [ValueError]. *)
Variable py_float : string -> option Q.

Definition float (tok : string) : M Q :=
  match py_float tok with
  | Some x => mret x
  | None => mthrow ValueError
  end.

Definition connect : M bool :=
  try_except
    (c ← get_ctl;
     h ← serial_Serial c;
     modify_ctl (set_ser (Some h));;
     mret true)
    (fun e => emit (Printed InConnect e);; mret false).

Definition disconnect : M unit :=
  c ← get_ctl;
  match ser c with
  | Some h =>
      if is_open h
      then modify_ctl (set_ser (Some (mkSerial (ser_id h) (ser_port h)
             (ser_baudrate h) (ser_bytesize h) (ser_stopbits h)
             (ser_parity h) (ser_timeout h) false)))
      else mret tt
  | None => mret tt
  end.

Definition send_command (command : string) : M bool :=
  try_except
    (c ← get_ctl;
     ok ← (if ser_ready c then mret true else connect);
     if negb ok then mret false
     else
       ser_write command;;
       sleep (1 # 10);;
       mret true)
    (fun e => emit (Printed InSendCommand e);; mret false).

(** The frame of [send_705X_XX]:
    [f"{module_id:04X}{address:02X}{channel:02X}{value:02X}\r"]. *)
Definition cmd_705X_XX (module_id address channel value : Z) : string :=
  PyStr.format_0X 4 module_id ++ PyStr.format_0X 2 address
  ++ PyStr.format_0X 2 channel ++ PyStr.format_0X 2 value
  ++ PyStr.CR.

Definition send_705X_XX (module_id address channel value : Z) : M bool :=
  send_command (cmd_705X_XX module_id address channel value).

(** The body of the [try] in [read_7019_2]. *)
Definition read_7019_2_try : M (option Q) :=
  c ← get_ctl;
  ok ← (if ser_ready c then mret true else connect);
  if negb ok then mret None
  else
    ser_write ("7017" ++ PyStr.format_0X 2 (adrAO c) ++ "00"
               ++ PyStr.CR);;
    sleep (1 # 10);;
    line ← ser_readline_decode;
    let response := PyStr.strip line in
    if negb (String.eqb response EmptyString) then
      let values := PyStr.split response in
      if Z.of_nat (length values) >? pressureChanel c then
        tok ← lift (PyNum.getitem values (pressureChanel c));
        pressure_raw ← float tok;
        pressure_n ← lift (pressure_norm c pressure_raw);
        modify_ctl (set_pressurePOSLE (PyNum.round2 pressure_n));;
        c' ← get_ctl;
        mret (Some (pressurePOSLE c'))
      else mret None
    else mret None.

Definition read_7019_2 : M (option Q) :=
  try_except read_7019_2_try
    (fun e => emit (Printed InRead e);; mret None).

End Methods.

(** ** MainFrame: the forward test *)

Section Sequencer.

Variable py_float : string -> option Q.

Definition get_running : M bool := fun s => (Ok (is_test_running s), s).

(** [MainFrame.on_stop] *)
Definition on_stop : M unit :=
  modify_ctl (set_stop_igra true);;
  c ← get_ctl;
  send_705X_XX 7050 (adrDO c) (valve1 c) 0;;
  send_705X_XX 7050 (adrDO c) (valve2 c) 0;;
  send_705X_XX 7050 (adrDO c) (valve3 c) 0;;
  send_705X_XX 7050 (adrDO c) (valve4 c) 0;;
  send_705X_XX 7050 (adrDO c) (startPUMP c) 0;;
  send_705X_XX 7050 (adrDO c) (minusPUMP c) 1;;
  emit (CallAfter CallResetButtons);;
  emit (LogMessage MsgAllStopped).

(** [MainFrame.on_forward_test] up to the start of the worker thread;
    the result tells whether the thread is started. *)
Definition on_forward_test : M bool :=
  running ← get_running;
  if (running : bool) then mret false
  else
    set_running true;;
    emit (LogMessage MsgTestStart);;
    modify_ctl (set_stop_igra false);;
    modify_ctl (set_plus_counter 0);;
    modify_ctl (set_minus_counter 0);;
    mret true.

(** The six baseline writes, the three queued GUI calls and the settle
    delay that precede the loop of [run_forward_test]. *)
Definition setup : M unit :=
  c ← get_ctl;
  send_705X_XX 7050 (adrDO c) (minusPUMP c) 0;;
  send_705X_XX 7050 (adrDO c) (valve1 c) 0;;
  send_705X_XX 7050 (adrDO c) (valve2 c) 0;;
  send_705X_XX 7050 (adrDO c) (valve3 c) 0;;
  send_705X_XX 7050 (adrDO c) (valve4 c) 0;;
  send_705X_XX 7050 (adrDO c) (startPUMP c) 0;;
  emit (CallAfter CallOnPumpToggle);;
  emit (CallAfter CallOnToForward);;
  emit (CallAfter CallOnFromForward);;
  sleep 1.

(** [if pressure is not None: plus_dim_press[step] = pressure; ...] *)
Definition store_sample (step : nat) (pressure : option Q) : M unit :=
  match pressure with
  | Some p =>
      c ← get_ctl;
      l ← lift (PyNum.setitem (plus_dim_press c) step p);
      modify_ctl (set_plus_dim_press l);;
      emit (CallAfter (CallUpdateGraph step p));;
      emit (CallAfter (CallLogMessage (MsgStep step p)))
  | None => mret tt
  end.

(** First half of the frequency pulse: write 1 and hold. *)
Definition pulse_on : M unit :=
  c ← get_ctl;
  send_705X_XX 7050 (adrDO c) (plusPUMP c) 1;;
  sleep (inject_Z (plus_minus_time c) / 1000).

(** Second half: write 0, then the step delay. *)
Definition pulse_off : M unit :=
  c ← get_ctl;
  send_705X_XX 7050 (adrDO c) (plusPUMP c) 0;;
  sleep (inject_Z (plus_step_time c) / 1000).

(** [for step in range(...)] over the indices still to come. *)
Fixpoint for_steps (steps : list nat) : M unit :=
  match steps with
  | [] => mret tt
  | step :: rest =>
      c ← get_ctl;
      if stop_igra c then mret tt
      else
        pressure ← read_7019_2 py_float;
        store_sample step pressure;;
        pulse_on;;
        pulse_off;;
        for_steps rest
  end.

(** [range(n)] *)
Definition range (n : Z) : list nat := seq 0 (Z.to_nat n).

(** What follows the loop inside the [try]. *)
Definition analysis : M unit :=
  c ← get_ctl;
  max_pressure ← lift (PyNum.py_max
                         (PyNum.slice_to (plus_dim_press c) (plus_counter c)));
  modify_ctl (set_fixed_open max_pressure);;
  emit (CallAfter (CallLogMessage (MsgSummary max_pressure (fixed_close c)))).

Definition run_forward_test_try : M unit :=
  setup;;
  c ← get_ctl;
  for_steps (range (plus_step c));;
  analysis.

(** The [finally] clause. *)
Definition finally : M unit :=
  set_running false;;
  emit (CallAfter CallOnStop).

(** [MainFrame.run_forward_test]. The result is the exception the
    [except] clause caught, [None] when the [try] body ran to its end. *)
Definition run_forward_test : M (option exn) :=
  r ← try_except (run_forward_test_try;; mret None)
        (fun e =>
           emit (CallAfter (CallLogMessage (MsgTestError e)));;
           mret (Some e));
  finally;;
  mret r.

End Sequencer.

(** ** The worker thread step by step, and the GUI thread beside it

    [run_forward_test] runs on its own thread while the GUI thread may
    press STOP, send commands or poll the pressure. The lock makes every
    [send_command] and [read_7019_2] atomic, so the interleavings are
    those of whole calls and of the plain statements between them. *)

Section Interleaving.

Variable py_float : string -> option Q.

(** Where the worker stands inside one iteration of the loop. *)
Inductive phase : Type :=
| Head                                   (* [for step in ...] and the stop check *)
| Reading (step : nat)                   (* before [read_7019_2()] *)
| Storing (step : nat) (pressure : option Q)
| PulseOn (step : nat)                   (* before the write of 1 *)
| PulseOff (step : nat).                 (* before the write of 0 *)

Inductive worker : Type :=
| Starting                               (* thread created, nothing run *)
| Looping (ph : phase) (rest : list nat) (* [rest]: indices still in the iterator *)
| AfterLoop                              (* before the analysis *)
| Finished (caught : option exn).

Record Config : Type := mkConfig {
  thread : worker;
  st : State
}.

(** The [except] and [finally] clauses after [e] was raised in the [try]. *)
Definition abort (e : exn) (s : State) : Config :=
  mkConfig (Finished (Some e))
    (snd ((emit (CallAfter (CallLogMessage (MsgTestError e)));; finally) s)).

(** One action of the worker, then where it goes next. *)
Definition advance {A} (m : M A) (next : A -> worker) (s : State) : Config :=
  match m s with
  | (Ok a, s') => mkConfig (next a) s'
  | (Raise e, s') => abort e s'
  end.

Definition worker_step (cf : Config) : Config :=
  let s := st cf in
  match thread cf with
  | Starting =>
      match setup s with
      | (Ok _, s') =>
          mkConfig (Looping Head (range (plus_step (controller s')))) s'
      | (Raise e, s') => abort e s'
      end
  | Looping Head [] => mkConfig AfterLoop s
  | Looping Head (step :: rest) =>
      if stop_igra (controller s) then mkConfig AfterLoop s
      else mkConfig (Looping (Reading step) rest) s
  | Looping (Reading step) rest =>
      advance (read_7019_2 py_float)
        (fun pressure => Looping (Storing step pressure) rest) s
  | Looping (Storing step pressure) rest =>
      advance (store_sample step pressure)
        (fun _ => Looping (PulseOn step) rest) s
  | Looping (PulseOn step) rest =>
      advance pulse_on (fun _ => Looping (PulseOff step) rest) s
  | Looping (PulseOff step) rest =>
      advance pulse_off (fun _ => Looping Head rest) s
  | AfterLoop =>
      advance (analysis;; finally) (fun _ => Finished None) s
  | Finished _ => cf
  end.

(** What the GUI thread may do meanwhile. [RequestStop] is the first
    statement of [on_stop]; its six writes are [GuiSend]s. *)
Inductive gui_action : Type :=
| RequestStop
| GuiSend (module_id address channel value : Z)
| Poll.                                  (* [on_timer]: a pressure read *)

Definition gui_step (g : gui_action) (s : State) : State :=
  match g with
  | RequestStop => snd (modify_ctl (set_stop_igra true) s)
  | GuiSend m a c v => snd (send_705X_XX m a c v s)
  | Poll => snd (read_7019_2 py_float s)
  end.

Inductive action : Type :=
| Worker
| Gui (g : gui_action).

Definition step (a : action) (cf : Config) : Config :=
  match a with
  | Worker => worker_step cf
  | Gui g => mkConfig (thread cf) (gui_step g (st cf))
  end.

(** Run a schedule, first action first. *)
Definition exec (sched : list action) (cf : Config) : Config :=
  fold_left (fun cf a => step a cf) sched cf.

(** The iteration the worker is in the middle of, if any. *)
Definition iteration (w : worker) : option nat :=
  match w with
  | Looping (Reading k) _ | Looping (Storing k _) _
  | Looping (PulseOn k) _ | Looping (PulseOff k) _ => Some k
  | _ => None
  end.

(** Whether the store of the current iteration is already behind. *)
Definition past_store (w : worker) : bool :=
  match w with
  | Looping (Reading _) _ | Looping (Storing _ (Some _)) _ => false
  | _ => true
  end.

Definition is_worker (a : action) : bool :=
  match a with Worker => true | Gui _ => false end.

(** How many steps of a schedule are the worker's. *)
Definition worker_actions (sched : list action) : nat :=
  length (List.filter is_worker sched).

(** An upper bound on the worker steps still to run once the stop flag
    is set. *)
Definition steps_left (w : worker) : nat :=
  match w with
  | Starting => 3
  | Looping (Reading _) _ => 6
  | Looping (Storing _ _) _ => 5
  | Looping (PulseOn _) _ => 4
  | Looping (PulseOff _) _ => 3
  | Looping Head _ => 2
  | AfterLoop => 1
  | Finished _ => 0
  end%nat.

(** The values [read_7019_2] returns in the successive iterations of
    [for_steps steps] started in [s]. *)
Fixpoint loop_reads (steps : list nat) (s : State) : list (option Q) :=
  match steps with
  | [] => []
  | step :: rest =>
      if stop_igra (controller s) then []
      else
        match read_7019_2 py_float s with
        | (Ok pressure, s1) =>
            pressure ::
              match (store_sample step pressure;; pulse_on;; pulse_off) s1 with
              | (Ok _, s2) => loop_reads rest s2
              | (Raise _, _) => []
              end
        | (Raise _, _) => []
        end
  end.

(** The same for a whole [run_forward_test] started in [s]. *)
Definition run_reads (s : State) : list (option Q) :=
  let s0 := snd (setup s) in
  loop_reads (range (plus_step (controller s0))) s0.

End Interleaving.

(** ** A concrete device and token parser for the examples *)

Module Example.

Definition digit_val (c : ascii) : option Z :=
  let n := Z.of_nat (nat_of_ascii c) in
  if (48 <=? n) && (n <=? 57) then Some (n - 48) else None.

(** Digits of an unsigned decimal numeral: [acc] is the value of the
    digits read so far, [frac] counts those after the point once it has
    been passed, [seen] tells whether a digit has been read. *)
Fixpoint decimal_aux (s : string) (acc : Z) (frac : option nat)
                     (seen : bool) : option Q :=
  match s with
  | EmptyString =>
      if seen
      then Some (Qred (Qmake acc (Z.to_pos (10 ^ Z.of_nat (default 0%nat frac)))))
      else None
  | String c s' =>
      if Ascii.eqb c "."
      then match frac with
           | None => decimal_aux s' acc (Some 0%nat) seen
           | Some _ => None
           end
      else match digit_val c with
           | Some d => decimal_aux s' (10 * acc + d) (S <$> frac) true
           | None => None
           end
  end.

(** The plain decimal fragment of [float]: an optional sign, digits and
    at most one point. Every other token is rejected here. *)
Definition decimal (s : string) : option Q :=
  match s with
  | String "-" s' => Qopp <$> decimal_aux s' 0 None false
  | String "+" s' => decimal_aux s' 0 None false
  | _ => decimal_aux s 0 None false
  end.

(** The same tokens as doubles: the quotient of numerator by
    denominator is the double nearest to the decimal, as [float] returns
    it, when both are below 2^53. *)
Definition decimal64 (s : string) : option PrimFloat.float :=
  match decimal s with
  | Some q => Some (Binary64.of_Z (Qnum q) / Binary64.of_Z (Z.pos (Qden q)))%float
  | None => None
  end.

(** A response line: six channels, the pressure current in the sixth. *)
Definition response (current : string) : string :=
  "+0.000 +0.000 +0.000 +0.000 +0.000 " ++ current ++ PyStr.CR.

(** A device on which every open and write succeeds and the [k]-th
    readline yields [answers k]. *)
Definition device (answers : nat -> rx) : Device :=
  mkDevice (fun _ => true) (fun _ => true) answers 0 0 0 [].

(** A port that cannot be opened. *)
Definition dead_device : Device :=
  mkDevice (fun _ => false) (fun _ => false) (fun _ => RxRaise SerialException)
           0 0 0 [].

Definition start (c : DCONController) (d : Device) : State :=
  mkState c d false [].

(** Six channels per line, the pressure current in the sixth. *)
Definition line_of (current : string) : rx :=
  RxText ("+0.000 +0.000 +0.000 +0.000 +0.000 " ++ current ++ PyStr.CR).

(** The calibration scenario: default controller, raw current 11.614. *)
Definition calibration_scenario : State :=
  start init_controller (device (fun _ => line_of "11.614")).

(** A device that answers once with 11.614 and then with a token that
    is no number; the state after the first, successful read. *)
Definition garbled_after_one : Device :=
  device (fun k => match k with
                   | O => line_of "11.614"
                   | _ => line_of "n/a"
                   end).

Definition after_first_read : State :=
  snd (read_7019_2 decimal (start init_controller garbled_after_one)).

(** The controller once [connect] has opened the port. *)
Definition connected : State :=
  snd (connect (start init_controller
                  (device (fun _ => RxText EmptyString)))).

(** The state in which the worker thread starts: [on_forward_test] has
    run on a fresh frame. *)
Definition started (c : DCONController) (d : Device) : State :=
  snd (on_forward_test (start c d)).

(** A device that answers every read with a current of 11.614 mA. *)
Definition answering : Device := device (fun _ => line_of "11.614").

(** Three reads: 7.737 mA (1.5 atm), a timeout, 14.1987 mA (4.0 atm). *)
Definition two_of_three : Device :=
  device (fun k => match k with
                   | 0%nat => line_of "7.737"
                   | 2%nat => line_of "14.1987"
                   | _ => RxText EmptyString
                   end).

(** The three-step run of [two_of_three] once the worker has done the
    setup and passed the stop check of step 0: it is about to read. *)
Definition reading_step_0 : Config :=
  exec decimal [Worker; Worker]
    (mkConfig Starting (started (set_plus_step 3 init_controller) two_of_three)).



End Example.

(** ** The exchange on the wire *)

(** The command [read_7019_2] writes: [f"7017{self.adrAO:02X}00\r"]. *)
Definition cmd_7017 (c : DCONController) : string :=
  "7017" ++ PyStr.format_0X 2 (adrAO c) ++ "00" ++ PyStr.CR.

(** The port can be written to in this call: there is an open handle,
    or the next attempt to open the port succeeds. *)
Definition usable (s : State) : bool :=
  ser_ready (controller s) || opens (dev s) (n_opens (dev s)).

(** The call gets its command onto the wire. *)
Definition gets_through (s : State) : bool :=
  usable s && writes (dev s) (n_writes (dev s)).

(** A port that is open and accepts every write from now on. *)
Definition healthy (s : State) : Prop :=
  ser_ready (controller s) = true
  /\ forall k, (n_writes (dev s) <= k)%nat -> writes (dev s) k = true.

(** What a device reads off a write frame: the four hex fields at
    their fixed places. *)
Definition frame_fields (frame : string) : Z * Z * Z * Z :=
  (PyStr.hex_value (substring 0 4 frame),
   PyStr.hex_value (substring 4 2 frame),
   PyStr.hex_value (substring 6 2 frame),
   PyStr.hex_value (substring 8 2 frame)).

(** The frames [on_stop] writes, in its order. *)
Definition on_stop_frames (c : DCONController) : list string :=
  [cmd_705X_XX 7050 (adrDO c) (valve1 c) 0;
   cmd_705X_XX 7050 (adrDO c) (valve2 c) 0;
   cmd_705X_XX 7050 (adrDO c) (valve3 c) 0;
   cmd_705X_XX 7050 (adrDO c) (valve4 c) 0;
   cmd_705X_XX 7050 (adrDO c) (startPUMP c) 0;
   cmd_705X_XX 7050 (adrDO c) (minusPUMP c) 1].

(** The frames one iteration of the forward test writes. *)
Definition iteration_frames (c : DCONController) : list string :=
  [cmd_7017 c;
   cmd_705X_XX 7050 (adrDO c) (plusPUMP c) 1;
   cmd_705X_XX 7050 (adrDO c) (plusPUMP c) 0].

(** No line has been taken from the device between the two states. *)
Definition no_read (s s' : State) : Prop :=
  n_lines (dev s') = n_lines (dev s).

(** The state once [command] has gone out on an open port. *)
Definition sent (command : string) (s : State) : State :=
  mkState (controller s)
    (mkDevice (opens (dev s)) (writes (dev s)) (lines (dev s))
              (n_opens (dev s)) (S (n_writes (dev s))) (n_lines (dev s))
              (wire (dev s) ++ [command]))
    (is_test_running s) (events s).

(** [on_stop] after its first statement. *)
Definition on_stop_writes : M unit :=
  c ← get_ctl;
  send_705X_XX 7050 (adrDO c) (valve1 c) 0;;
  send_705X_XX 7050 (adrDO c) (valve2 c) 0;;
  send_705X_XX 7050 (adrDO c) (valve3 c) 0;;
  send_705X_XX 7050 (adrDO c) (valve4 c) 0;;
  send_705X_XX 7050 (adrDO c) (startPUMP c) 0;;
  send_705X_XX 7050 (adrDO c) (minusPUMP c) 1;;
  emit (CallAfter CallResetButtons);;
  emit (LogMessage MsgAllStopped).

(** The six baseline frames [run_forward_test] writes first. *)
Definition setup_frames (c : DCONController) : list string :=
  [cmd_705X_XX 7050 (adrDO c) (minusPUMP c) 0;
   cmd_705X_XX 7050 (adrDO c) (valve1 c) 0;
   cmd_705X_XX 7050 (adrDO c) (valve2 c) 0;
   cmd_705X_XX 7050 (adrDO c) (valve3 c) 0;
   cmd_705X_XX 7050 (adrDO c) (valve4 c) 0;
   cmd_705X_XX 7050 (adrDO c) (startPUMP c) 0].

(** The frames of a loop that entered [n] iterations: all of them in
    full when it ended without an exception, and the last one cut after
    its read command when the store raised. *)
Definition loop_frames (c : DCONController) (n : nat) (raised : bool)
  : list string :=
  if raised
  then concat (replicate (pred n) (iteration_frames c)) ++ [cmd_7017 c]
  else concat (replicate n (iteration_frames c)).

(** ** The forward test with [time.sleep] as Python has it

    [time.sleep] raises [ValueError] for a negative length, which [sleep]
    leaves out. The lengths [send_command] and the setup pass are the
    constants 0.1 and 1; the two of the pulse are computed from the
    controller. Here the pulse and what is built on it are written with
    the exception. *)

Module Timed.

Definition sleep (seconds : Q) : M unit :=
  if Qle_bool 0 seconds then mret tt else mthrow ValueError.

Definition pulse_on : M unit :=
  c ← get_ctl;
  send_705X_XX 7050 (adrDO c) (plusPUMP c) 1;;
  sleep (inject_Z (plus_minus_time c) / 1000).

Definition pulse_off : M unit :=
  c ← get_ctl;
  send_705X_XX 7050 (adrDO c) (plusPUMP c) 0;;
  sleep (inject_Z (plus_step_time c) / 1000).

Section Run.

Variable py_float : string -> option Q.

Fixpoint for_steps (steps : list nat) : M unit :=
  match steps with
  | [] => mret tt
  | step :: rest =>
      c ← get_ctl;
      if stop_igra c then mret tt
      else
        pressure ← read_7019_2 py_float;
        store_sample step pressure;;
        pulse_on;;
        pulse_off;;
        for_steps rest
  end.

Definition run_forward_test_try : M unit :=
  setup;;
  c ← get_ctl;
  for_steps (range (plus_step c));;
  analysis.

Definition run_forward_test : M (option exn) :=
  r ← try_except (run_forward_test_try;; mret None)
        (fun e =>
           emit (CallAfter (CallLogMessage (MsgTestError e)));;
           mret (Some e));
  finally;;
  mret r.

End Run.

End Timed.

(** The two lengths the pulse computes from the controller are not
    negative. The constructor sets them to 100 and 1000 and nothing
    assigns them afterwards. *)
Definition timings_ok (c : DCONController) : Prop :=
  0 <= plus_minus_time c /\ 0 <= plus_step_time c.

(** ** The panel

    The widgets that the handlers of [MainFrame] read and write, and the
    handlers themselves. A handler takes the widgets and returns them;
    what it does to the controller and the port runs in [M]. The lines
    these handlers hand to [log_message] are kept in [text_memo]; drawing
    is not modelled, only the data given to the plot. *)

(** [wx.Colour(r, g, b)] *)
Inductive Colour : Set := mkColour (r g b : Z).

(** [==] on colours *)
Definition Colour_eqb (x y : Colour) : bool :=
  match x, y with
  | mkColour r1 g1 b1, mkColour r2 g2 b2 =>
      (r1 =? r2) && (g1 =? g2) && (b1 =? b2)
  end.

Definition green : Colour := mkColour 0 255 0.
Definition red : Colour := mkColour 255 0 0.

(** The two labels of the pump button: start the pump, stop the pump. *)
Inductive pump_label : Set := LabelStartPump | LabelStopPump.

(** The four valve buttons, and the names [toggle_valve] logs them by. *)
Inductive valve_button : Set :=
| BtnToForward | BtnToRevers | BtnFromForward | BtnFromRevers.

Inductive valve_name : Set :=
| NameToForward | NameToRevers | NameFromForward | NameFromRevers.

(** Text handed to [log_message] by the handlers of the panel. *)
Inductive memo_line : Type :=
| LineConnected
| LineConnectFailed
| LineCurrentPressure (pressure : Q)
| LinePumpStarted
| LinePumpStopped
| LineFrequencyUp
| LineFrequencyDown
| LineValveOpened (name : valve_name)
| LineValveClosed (name : valve_name)
| LineReverseTest
| LineOf (m : message).

(** The text of [txt_pressure]: its initial value, or a pressure
    formatted with two decimals. *)
Inductive pressure_text : Type :=
| TextInitial
| Text2f (pressure : Q).

(** What a [wx.CallLater] was given to run: the second write of
    [on_plus_frequency] or of [on_minus_frequency]. *)
Inductive later_call : Set := LaterPlusPumpOff | LaterMinusPumpOff.

Record Widgets : Type := mkWidgets {
  txt_pressure : pressure_text;
  btn_pump : Colour;
  btn_pump_label : pump_label;
  btn_to_forward : Colour;
  btn_to_revers : Colour;
  btn_from_forward : Colour;
  btn_from_revers : Colour;
  text_memo : list memo_line;              (* oldest first *)
  line_data : list nat * list Q;           (* x and y data of the plot *)
  later : list (Z * later_call);           (* delay in ms, call *)
  timer_running : bool;
  destroyed : bool
}.

Definition set_txt_pressure (v : pressure_text) (w : Widgets) : Widgets :=
  {| txt_pressure := v; btn_pump := btn_pump w;
     btn_pump_label := btn_pump_label w; btn_to_forward := btn_to_forward w;
     btn_to_revers := btn_to_revers w;
     btn_from_forward := btn_from_forward w;
     btn_from_revers := btn_from_revers w; text_memo := text_memo w;
     line_data := line_data w; later := later w;
     timer_running := timer_running w; destroyed := destroyed w |}.

Definition set_btn_pump (v : Colour) (l : pump_label) (w : Widgets) : Widgets :=
  {| txt_pressure := txt_pressure w; btn_pump := v; btn_pump_label := l;
     btn_to_forward := btn_to_forward w; btn_to_revers := btn_to_revers w;
     btn_from_forward := btn_from_forward w;
     btn_from_revers := btn_from_revers w; text_memo := text_memo w;
     line_data := line_data w; later := later w;
     timer_running := timer_running w; destroyed := destroyed w |}.

Definition set_btn_to_forward (v : Colour) (w : Widgets) : Widgets :=
  {| txt_pressure := txt_pressure w; btn_pump := btn_pump w;
     btn_pump_label := btn_pump_label w; btn_to_forward := v;
     btn_to_revers := btn_to_revers w;
     btn_from_forward := btn_from_forward w;
     btn_from_revers := btn_from_revers w; text_memo := text_memo w;
     line_data := line_data w; later := later w;
     timer_running := timer_running w; destroyed := destroyed w |}.

Definition set_btn_to_revers (v : Colour) (w : Widgets) : Widgets :=
  {| txt_pressure := txt_pressure w; btn_pump := btn_pump w;
     btn_pump_label := btn_pump_label w; btn_to_forward := btn_to_forward w;
     btn_to_revers := v; btn_from_forward := btn_from_forward w;
     btn_from_revers := btn_from_revers w; text_memo := text_memo w;
     line_data := line_data w; later := later w;
     timer_running := timer_running w; destroyed := destroyed w |}.

Definition set_btn_from_forward (v : Colour) (w : Widgets) : Widgets :=
  {| txt_pressure := txt_pressure w; btn_pump := btn_pump w;
     btn_pump_label := btn_pump_label w; btn_to_forward := btn_to_forward w;
     btn_to_revers := btn_to_revers w; btn_from_forward := v;
     btn_from_revers := btn_from_revers w; text_memo := text_memo w;
     line_data := line_data w; later := later w;
     timer_running := timer_running w; destroyed := destroyed w |}.

Definition set_btn_from_revers (v : Colour) (w : Widgets) : Widgets :=
  {| txt_pressure := txt_pressure w; btn_pump := btn_pump w;
     btn_pump_label := btn_pump_label w; btn_to_forward := btn_to_forward w;
     btn_to_revers := btn_to_revers w;
     btn_from_forward := btn_from_forward w; btn_from_revers := v;
     text_memo := text_memo w; line_data := line_data w; later := later w;
     timer_running := timer_running w; destroyed := destroyed w |}.

Definition set_line_data (v : list nat * list Q) (w : Widgets) : Widgets :=
  {| txt_pressure := txt_pressure w; btn_pump := btn_pump w;
     btn_pump_label := btn_pump_label w; btn_to_forward := btn_to_forward w;
     btn_to_revers := btn_to_revers w;
     btn_from_forward := btn_from_forward w;
     btn_from_revers := btn_from_revers w; text_memo := text_memo w;
     line_data := v; later := later w; timer_running := timer_running w;
     destroyed := destroyed w |}.

(** [self.log_message(l)] *)
Definition log_message (l : memo_line) (w : Widgets) : Widgets :=
  {| txt_pressure := txt_pressure w; btn_pump := btn_pump w;
     btn_pump_label := btn_pump_label w; btn_to_forward := btn_to_forward w;
     btn_to_revers := btn_to_revers w;
     btn_from_forward := btn_from_forward w;
     btn_from_revers := btn_from_revers w; text_memo := text_memo w ++ [l];
     line_data := line_data w; later := later w;
     timer_running := timer_running w; destroyed := destroyed w |}.

(** [wx.CallLater(ms, f)] *)
Definition CallLater (ms : Z) (f : later_call) (w : Widgets) : Widgets :=
  {| txt_pressure := txt_pressure w; btn_pump := btn_pump w;
     btn_pump_label := btn_pump_label w; btn_to_forward := btn_to_forward w;
     btn_to_revers := btn_to_revers w;
     btn_from_forward := btn_from_forward w;
     btn_from_revers := btn_from_revers w; text_memo := text_memo w;
     line_data := line_data w; later := later w ++ [(ms, f)];
     timer_running := timer_running w; destroyed := destroyed w |}.

Definition set_timer_running (v : bool) (w : Widgets) : Widgets :=
  {| txt_pressure := txt_pressure w; btn_pump := btn_pump w;
     btn_pump_label := btn_pump_label w; btn_to_forward := btn_to_forward w;
     btn_to_revers := btn_to_revers w;
     btn_from_forward := btn_from_forward w;
     btn_from_revers := btn_from_revers w; text_memo := text_memo w;
     line_data := line_data w; later := later w; timer_running := v;
     destroyed := destroyed w |}.

Definition Destroy (w : Widgets) : Widgets :=
  {| txt_pressure := txt_pressure w; btn_pump := btn_pump w;
     btn_pump_label := btn_pump_label w; btn_to_forward := btn_to_forward w;
     btn_to_revers := btn_to_revers w;
     btn_from_forward := btn_from_forward w;
     btn_from_revers := btn_from_revers w; text_memo := text_memo w;
     line_data := line_data w; later := later w;
     timer_running := timer_running w; destroyed := true |}.

(** [btn.GetBackgroundColour()] and [btn.SetBackgroundColour(v)] for a
    valve button. *)
Definition GetBackgroundColour (btn : valve_button) (w : Widgets) : Colour :=
  match btn with
  | BtnToForward => btn_to_forward w
  | BtnToRevers => btn_to_revers w
  | BtnFromForward => btn_from_forward w
  | BtnFromRevers => btn_from_revers w
  end.

Definition SetBackgroundColour (btn : valve_button) (v : Colour) (w : Widgets)
  : Widgets :=
  match btn with
  | BtnToForward => set_btn_to_forward v w
  | BtnToRevers => set_btn_to_revers v w
  | BtnFromForward => set_btn_from_forward v w
  | BtnFromRevers => set_btn_from_revers v w
  end.

(** The widgets as [init_ui] creates them. *)
Definition init_widgets : Widgets := {|
  txt_pressure := TextInitial;
  btn_pump := green;
  btn_pump_label := LabelStartPump;
  btn_to_forward := red;
  btn_to_revers := red;
  btn_from_forward := red;
  btn_from_revers := red;
  text_memo := [];
  line_data := ([], []);
  later := [];
  timer_running := false;
  destroyed := false
|}.

Section Panel.

Variable py_float : string -> option Q.

(** [MainFrame.init_ui]: the widgets, then the connection attempt. *)
Definition init_ui : M Widgets :=
  ok ← connect;
  if (ok : bool) then mret (log_message LineConnected init_widgets)
  else mret (log_message LineConnectFailed init_widgets).

(** [MainFrame.__init__] on a new controller: the interface, then the
    timer is started. *)
Definition init_frame : M Widgets :=
  w ← init_ui;
  mret (set_timer_running true w).

Definition on_timer (w : Widgets) : M Widgets :=
  pressure ← read_7019_2 py_float;
  match pressure with
  | Some p => mret (set_txt_pressure (Text2f p) w)
  | None => mret w
  end.

Definition on_read_pressure (w : Widgets) : M Widgets :=
  pressure ← read_7019_2 py_float;
  match pressure with
  | Some p =>
      mret (log_message (LineCurrentPressure p)
              (set_txt_pressure (Text2f p) w))
  | None => mret w
  end.

Definition on_pump_toggle (w : Widgets) : M Widgets :=
  c ← get_ctl;
  if Colour_eqb (btn_pump w) green then
    send_705X_XX 7050 (adrDO c) (startPUMP c) 1;;
    mret (log_message LinePumpStarted (set_btn_pump red LabelStopPump w))
  else
    send_705X_XX 7050 (adrDO c) (startPUMP c) 0;;
    mret (log_message LinePumpStopped (set_btn_pump green LabelStartPump w)).

Definition on_plus_frequency (w : Widgets) : M Widgets :=
  c ← get_ctl;
  send_705X_XX 7050 (adrDO c) (plusPUMP c) 1;;
  c' ← get_ctl;
  mret (log_message LineFrequencyUp
          (CallLater (plus_minus_time c') LaterPlusPumpOff w)).

Definition on_minus_frequency (w : Widgets) : M Widgets :=
  c ← get_ctl;
  send_705X_XX 7050 (adrDO c) (minusPUMP c) 1;;
  c' ← get_ctl;
  mret (log_message LineFrequencyDown
          (CallLater (plus_minus_time c') LaterMinusPumpOff w)).

(** The [lambda] of a [wx.CallLater], when its time has come: it reads
    the controller then, not when it was scheduled. *)
Definition run_later (f : later_call) : M bool :=
  c ← get_ctl;
  match f with
  | LaterPlusPumpOff => send_705X_XX 7050 (adrDO c) (plusPUMP c) 0
  | LaterMinusPumpOff => send_705X_XX 7050 (adrDO c) (minusPUMP c) 0
  end.

Definition toggle_valve (btn : valve_button) (valve_num : Z)
                        (name : valve_name) (w : Widgets) : M Widgets :=
  c ← get_ctl;
  if Colour_eqb (GetBackgroundColour btn w) red then
    send_705X_XX 7050 (adrDO c) valve_num 1;;
    mret (log_message (LineValveOpened name)
            (SetBackgroundColour btn green w))
  else
    send_705X_XX 7050 (adrDO c) valve_num 0;;
    mret (log_message (LineValveClosed name)
            (SetBackgroundColour btn red w)).

Definition on_to_forward (w : Widgets) : M Widgets :=
  c ← get_ctl; toggle_valve BtnToForward (valve1 c) NameToForward w.

Definition on_to_revers (w : Widgets) : M Widgets :=
  c ← get_ctl; toggle_valve BtnToRevers (valve2 c) NameToRevers w.

Definition on_from_forward (w : Widgets) : M Widgets :=
  c ← get_ctl; toggle_valve BtnFromForward (valve3 c) NameFromForward w.

Definition on_from_revers (w : Widgets) : M Widgets :=
  c ← get_ctl; toggle_valve BtnFromRevers (valve4 c) NameFromRevers w.

(** [MainFrame.update_graph]: [list(range(step + 1))] against
    [plus_dim_press[:step + 1]]. *)
Definition update_graph (step : nat) (pressure : Q) (w : Widgets)
  : M Widgets :=
  c ← get_ctl;
  let x_data := seq 0 (step + 1) in
  let y_data := PyNum.slice_to (plus_dim_press c) (Z.of_nat step + 1) in
  mret (set_line_data (x_data, y_data) w).

Definition on_revers_test (w : Widgets) : Widgets :=
  log_message LineReverseTest w.

Definition reset_buttons (w : Widgets) : Widgets :=
  SetBackgroundColour BtnFromRevers red
    (SetBackgroundColour BtnFromForward red
       (SetBackgroundColour BtnToRevers red
          (SetBackgroundColour BtnToForward red
             (set_btn_pump green LabelStartPump w)))).

Definition on_close (w : Widgets) : M Widgets :=
  let w1 := set_timer_running false w in
  disconnect;;
  mret (Destroy w1).

(** A call queued with [wx.CallAfter], when the GUI thread comes to it. *)
Definition run_call (call : gui_call) (w : Widgets) : M Widgets :=
  match call with
  | CallOnPumpToggle => on_pump_toggle w
  | CallOnToForward => on_to_forward w
  | CallOnFromForward => on_from_forward w
  | CallUpdateGraph step pressure => update_graph step pressure w
  | CallLogMessage m => mret (log_message (LineOf m) w)
  | CallOnStop => on_stop;; mret w
  | CallResetButtons => mret (reset_buttons w)
  end.

(** Several queued calls, in the order they were queued. *)
Fixpoint run_calls (calls : list gui_call) (w : Widgets) : M Widgets :=
  match calls with
  | [] => mret w
  | call :: rest => w' ← run_call call w; run_calls rest w'
  end.

End Panel.

(** The calls queued with [wx.CallAfter] among some events. *)
Fixpoint queued (evs : list event) : list gui_call :=
  match evs with
  | [] => []
  | CallAfter call :: rest => call :: queued rest
  | _ :: rest => queued rest
  end.

(** The value a toggle handler writes for a button in the off state. *)
Definition toggle_value (off : bool) : Z := if off then 1 else 0.

(** ** Vocabulary of the properties *)

(** [m] never raises. *)
Definition total {A} (m : M A) : Prop :=
  forall s, exists a s', m s = (Ok a, s').

(** Every run of [m], raising or not, relates its end state to its start
    state by [R]. *)
Definition keeps {A} (R : State -> State -> Prop) (m : M A) : Prop :=
  forall s r s', m s = (r, s') -> R s s'.

(** What sending a command or reading the pressure may change: the
    handle, the last pressure, the device counters (not what the device
    will answer) and the event log, which only grows. *)
Definition transport_only (s s' : State) : Prop :=
  (exists h p,
     controller s' = set_ser h (set_pressurePOSLE p (controller s)))
  /\ is_test_running s' = is_test_running s
  /\ opens (dev s') = opens (dev s)
  /\ writes (dev s') = writes (dev s)
  /\ lines (dev s') = lines (dev s)
  /\ exists evs, events s' = (events s ++ evs)%list.

(** What the loop of the forward test may change: what the transport
    changes, and the samples. *)
Definition loop_only (s s' : State) : Prop :=
  (exists h p l,
     controller s'
     = set_plus_dim_press l (set_ser h (set_pressurePOSLE p (controller s))))
  /\ is_test_running s' = is_test_running s
  /\ opens (dev s') = opens (dev s)
  /\ writes (dev s') = writes (dev s)
  /\ lines (dev s') = lines (dev s)
  /\ exists evs, events s' = (events s ++ evs)%list.

(** The stop flag and the samples are the same in both states. *)
Definition same_run_data (s s' : State) : Prop :=
  stop_igra (controller s') = stop_igra (controller s)
  /\ plus_dim_press (controller s') = plus_dim_press (controller s).

(** The events between the two states are [print]s only: nothing was
    queued for the GUI thread and nothing was logged. *)
Definition is_print (e : event) : Prop :=
  match e with
  | Printed _ _ => True
  | _ => False
  end.

Definition prints_only (s s' : State) : Prop :=
  exists evs, events s' = (events s ++ evs)%list /\ Forall is_print evs.

(** The ways a call of [read_7019_2] started in [s] fails. *)
Inductive read_failure (py_float : string -> option Q) (s : State) : Prop :=
| connection_unavailable :
    ser_ready (controller s) = false ->
    opens (dev s) (n_opens (dev s)) = false ->
    read_failure py_float s
| write_raises :
    writes (dev s) (n_writes (dev s)) = false ->
    read_failure py_float s
| read_raises e :
    lines (dev s) (n_lines (dev s)) = RxRaise e ->
    read_failure py_float s
| empty_line t :
    lines (dev s) (n_lines (dev s)) = RxText t ->
    PyStr.strip t = EmptyString ->
    read_failure py_float s
| too_few_tokens t :
    lines (dev s) (n_lines (dev s)) = RxText t ->
    Z.of_nat (length (PyStr.split (PyStr.strip t)))
      < pressureChanel (controller s) + 1 ->
    read_failure py_float s
| non_numeric_token t tok :
    lines (dev s) (n_lines (dev s)) = RxText t ->
    PyNum.getitem (PyStr.split (PyStr.strip t)) (pressureChanel (controller s))
      = Ok tok ->
    py_float tok = None ->
    read_failure py_float s.

(** The [except] and [finally] clauses of [run_forward_test] as state
    changes. *)
Definition logged_error (e : exn) (s : State) : State :=
  mkState (controller s) (dev s) (is_test_running s)
          (events s ++ [CallAfter (CallLogMessage (MsgTestError e))]).

Definition finished (s : State) : State :=
  mkState (controller s) (dev s) false (events s ++ [CallAfter CallOnStop]).

(** The state once the stop flag has been set, and the actions whose
    outcome is the same with the flag set before or after. *)
Definition stopped (s : State) : State :=
  snd (modify_ctl (set_stop_igra true) s).

Definition ignores_stop {A} (m : M A) : Prop :=
  forall s, m (stopped s) = (fst (m s), stopped (snd (m s))).

(** After the request made in iteration [k]: the flag is up, every slot
    but [k] holds what [l0] holds, and the worker is in iteration [k] or
    in none. *)
Definition settled (k : nat) (l0 : list Q) (cf : Config) : Prop :=
  stop_igra (controller (st cf)) = true
  /\ (forall j, j <> k -> plus_dim_press (controller (st cf)) !! j = l0 !! j)
  /\ (iteration (thread cf) = Some k \/ iteration (thread cf) = None)
  /\ thread cf <> Starting.

(** After a request made past the store of the current iteration: the
    flag is up, the samples are [l0], and the worker stays past the
    store. *)
Definition frozen (l0 : list Q) (cf : Config) : Prop :=
  stop_igra (controller (st cf)) = true
  /\ plus_dim_press (controller (st cf)) = l0
  /\ past_store (thread cf) = true.

(** * Properties *)

(** ** Running the monad *)

Lemma run_bind {A B} (m : M A) (k : A -> M B) (s : State) :
  (m ≫= k) s = match m s with
               | (Ok a, s') => k a s'
               | (Raise e, s') => (Raise e, s')
               end.
Proof. reflexivity. Qed.

Lemma run_ret {A} (a : A) (s : State) : (mret a : M A) s = (Ok a, s).
Proof. reflexivity. Qed.

Lemma run_get_ctl {A} (k : DCONController -> M A) s :
  (get_ctl ≫= k) s = k (controller s) s.
Proof. reflexivity. Qed.

Section Keeps.

Variable R : State -> State -> Prop.
Hypothesis R_refl : forall s, R s s.
Hypothesis R_trans : forall s1 s2 s3, R s1 s2 -> R s2 s3 -> R s1 s3.

Lemma keeps_ret {A} (a : A) : keeps R (mret a).
Proof. intros s r s' H. inversion H. apply R_refl. Qed.

Lemma keeps_throw {A} (e : exn) : keeps R (mthrow e : M A).
Proof. intros s r s' H. inversion H. apply R_refl. Qed.

Lemma keeps_lift {A} (x : result A) : keeps R (lift x).
Proof. intros s r s' H. inversion H. apply R_refl. Qed.

Lemma keeps_get_ctl : keeps R get_ctl.
Proof. intros s r s' H. inversion H. apply R_refl. Qed.

Lemma keeps_sleep (t : Q) : keeps R (sleep t).
Proof. apply keeps_ret. Qed.

Lemma keeps_bind {A B} (m : M A) (k : A -> M B) :
  keeps R m -> (forall a, keeps R (k a)) -> keeps R (m ≫= k).
Proof.
  intros Hm Hk s r s' H. rewrite run_bind in H.
  destruct (m s) as [[a|e] s1] eqn:Em.
  - eapply R_trans; [eapply Hm, Em | eapply Hk, H].
  - inversion H; subst. eapply Hm, Em.
Qed.

Lemma keeps_try_except {A} (body : M A) (handler : exn -> M A) :
  keeps R body -> (forall e, keeps R (handler e)) ->
  keeps R (try_except body handler).
Proof.
  intros Hb Hh s r s' H. unfold try_except in H.
  destruct (body s) as [[a|e] s1] eqn:Eb.
  - inversion H; subst. eapply Hb, Eb.
  - eapply R_trans; [eapply Hb, Eb | eapply Hh, H].
Qed.

Lemma keeps_if {A} (b : bool) (m1 m2 : M A) :
  keeps R m1 -> keeps R m2 -> keeps R (if b then m1 else m2).
Proof. destruct b; auto. Qed.

End Keeps.

Lemma total_ret {A} (a : A) : total (mret a).
Proof. intros s. eexists _, _. reflexivity. Qed.

Lemma total_bind {A B} (m : M A) (k : A -> M B) :
  total m -> (forall a, total (k a)) -> total (m ≫= k).
Proof.
  intros Hm Hk s. destruct (Hm s) as (a & s1 & E).
  destruct (Hk a s1) as (b & s2 & E2).
  exists b, s2. rewrite run_bind, E. exact E2.
Qed.

Lemma total_try_except {A} (body : M A) (handler : exn -> M A) :
  (forall e, total (handler e)) -> total (try_except body handler).
Proof.
  intros Hh s. unfold try_except.
  destruct (body s) as [[a|e] s1]; [eexists _, _; reflexivity | apply Hh].
Qed.

Lemma total_emit (e : event) : total (emit e).
Proof. intros s. eexists _, _. reflexivity. Qed.

Lemma total_modify_ctl f : total (modify_ctl f).
Proof. intros s. eexists _, _. reflexivity. Qed.

Lemma total_get_ctl : total get_ctl.
Proof. intros s. eexists _, _. reflexivity. Qed.

Lemma total_sleep t : total (sleep t).
Proof. apply total_ret. Qed.

Lemma total_set_running b : total (set_running b).
Proof. intros s. eexists _, _. reflexivity. Qed.

(** ** What the transport may change *)

Lemma controller_eta (c : DCONController) :
  c = set_ser (ser c) (set_pressurePOSLE (pressurePOSLE c) c).
Proof. destruct c; reflexivity. Qed.

Lemma transport_only_refl s : transport_only s s.
Proof.
  split; [eexists _, _; apply controller_eta|].
  repeat split. exists []. now rewrite app_nil_r.
Qed.

Lemma transport_only_trans s1 s2 s3 :
  transport_only s1 s2 -> transport_only s2 s3 -> transport_only s1 s3.
Proof.
  intros ((h1 & p1 & E1) & ? & ? & ? & ? & (ev1 & V1))
         ((h2 & p2 & E2) & ? & ? & ? & ? & (ev2 & V2)).
  split; [exists h2, p2; rewrite E2, E1; reflexivity|].
  repeat split; try congruence.
  exists (ev1 ++ ev2)%list. rewrite V2, V1. now rewrite app_assoc.
Qed.

Create HintDb frame.

Ltac frame_step :=
  first
    [ apply (keeps_bind _ transport_only_trans); [| intros ?]
    | apply (keeps_try_except _ transport_only_trans); [| intros ?]
    | apply keeps_if
    | apply (keeps_ret _ transport_only_refl)
    | apply (keeps_throw _ transport_only_refl)
    | apply (keeps_lift _ transport_only_refl)
    | apply (keeps_get_ctl _ transport_only_refl)
    | apply (keeps_sleep _ transport_only_refl) ];
  auto with frame.

(** A step that leaves the controller and the oracle alone and logs
    [evs] is within [transport_only]. *)
Lemma transport_only_same c d d' run ev evs :
  opens d' = opens d -> writes d' = writes d -> lines d' = lines d ->
  transport_only (mkState c d run ev) (mkState c d' run (ev ++ evs)%list).
Proof.
  intros. split; [eexists _, _; apply controller_eta|].
  repeat split; try assumption. now exists evs.
Qed.

Lemma transport_only_quiet c d d' run ev :
  opens d' = opens d -> writes d' = writes d -> lines d' = lines d ->
  transport_only (mkState c d run ev) (mkState c d' run ev).
Proof.
  intros. split; [eexists _, _; apply controller_eta|].
  repeat split; try assumption. exists []. simpl. now rewrite app_nil_r.
Qed.

Lemma keeps_emit (e : event) : keeps transport_only (emit e).
Proof.
  intros [c d run ev] r s' H. inversion H; subst.
  now apply transport_only_same.
Qed.

Lemma keeps_set_ser h : keeps transport_only (modify_ctl (set_ser h)).
Proof.
  intros s r s' H. inversion H; subst.
  split; [|repeat split; exists []; simpl; now rewrite app_nil_r].
  exists h, (pressurePOSLE (controller s)). destruct (controller s); reflexivity.
Qed.

Lemma keeps_set_pressurePOSLE p :
  keeps transport_only (modify_ctl (set_pressurePOSLE p)).
Proof.
  intros s r s' H. inversion H; subst.
  split; [|repeat split; exists []; simpl; now rewrite app_nil_r].
  exists (ser (controller s)), p. destruct (controller s); reflexivity.
Qed.

Lemma keeps_serial_Serial c : keeps transport_only (serial_Serial c).
Proof.
  intros [c0 d run ev] r s' H. unfold serial_Serial in H. cbn in H.
  destruct (opens d (n_opens d)); inversion H; subst;
    now apply transport_only_quiet.
Qed.

Lemma keeps_ser_write data : keeps transport_only (ser_write data).
Proof.
  intros [c0 d run ev] r s' H. unfold ser_write in H. cbn in H.
  destruct (writes d (n_writes d)); inversion H; subst;
    now apply transport_only_quiet.
Qed.

Lemma keeps_ser_readline_decode : keeps transport_only ser_readline_decode.
Proof.
  intros [c0 d run ev] r s' H. unfold ser_readline_decode in H. cbn in H.
  destruct (lines d (n_lines d)); inversion H; subst;
    now apply transport_only_quiet.
Qed.

#[local] Hint Resolve keeps_emit keeps_set_ser keeps_set_pressurePOSLE
  keeps_serial_Serial keeps_ser_write keeps_ser_readline_decode : frame.

Section TransportFrame.

Variable py_float : string -> option Q.

Lemma keeps_float tok : keeps transport_only (float py_float tok).
Proof. unfold float. destruct (py_float tok); frame_step. Qed.

Lemma keeps_connect : keeps transport_only connect.
Proof. unfold connect. repeat frame_step. Qed.

Lemma keeps_send_command cmd : keeps transport_only (send_command cmd).
Proof.
  unfold send_command. repeat frame_step; try apply keeps_connect.
Qed.

Lemma keeps_send_705X_XX m a c v : keeps transport_only (send_705X_XX m a c v).
Proof. apply keeps_send_command. Qed.

Lemma keeps_read_7019_2 : keeps transport_only (read_7019_2 py_float).
Proof.
  unfold read_7019_2, read_7019_2_try.
  repeat frame_step; try apply keeps_connect; try apply keeps_float.
Qed.

End TransportFrame.

(** ** The write frame *)

Section Frame.

Import PyStr.

(** The helpers on the values Python gives for the same calls. *)
Example format_0X_examples :
  format_0X 4 7050 = "1B8A" /\ format_0X 2 0 = "00" /\ format_0X 2 255 = "FF"
  /\ format_0X 2 256 = "100" /\ format_0X 2 (-1) = "-1"
  /\ format_0X 4 (-1) = "-001".
Proof. repeat split. Qed.

Example strip_split_examples :
  strip ("  +1.5 2  " ++ String "013" (String "010" EmptyString)) = "+1.5 2"
  /\ split ("a  b" ++ String "009" "c") = ["a"; "b"; "c"]
  /\ split "   " = []
  /\ strip EmptyString = EmptyString.
Proof. repeat split. Qed.

Lemma length_append (s t : string) :
  String.length (s ++ t) = (String.length s + String.length t)%nat.
Proof. induction s; simpl; auto. Qed.

Lemma append_assoc (s t u : string) : (s ++ t) ++ u = s ++ (t ++ u).
Proof. induction s as [|c s IH]; simpl; [reflexivity | now rewrite IH]. Qed.

Lemma length_zeros k : String.length (zeros k) = k.
Proof. induction k; simpl; auto. Qed.

Lemma all_chars_append p (s t : string) :
  all_chars p (s ++ t) = all_chars p s && all_chars p t.
Proof.
  induction s as [|c s IH]; simpl; [reflexivity|].
  rewrite IH. apply andb_assoc.
Qed.

Lemma hex_digit_upper d : is_hex_upper (hex_digit d) = true.
Proof.
  destruct d as [|p|p]; try reflexivity.
  do 4 (destruct p as [p|p|]; try reflexivity).
Qed.

Lemma all_chars_zeros k : all_chars is_hex_upper (zeros k) = true.
Proof. induction k; simpl; auto. Qed.

Lemma all_chars_hex_digits fuel n acc :
  all_chars is_hex_upper acc = true ->
  all_chars is_hex_upper (hex_digits fuel n acc) = true.
Proof.
  revert n acc. induction fuel as [|fuel IH]; intros n acc Hacc; simpl; auto.
  assert (all_chars is_hex_upper (String (hex_digit (n mod 16)) acc) = true)
    by (simpl; rewrite hex_digit_upper; exact Hacc).
  destruct (n / 16 =? 0); auto.
Qed.

Lemma hex_digit_value_digit d :
  0 <= d < 16 -> hex_digit_value (hex_digit d) = d.
Proof.
  intros H.
  assert (C : d = 0 \/ d = 1 \/ d = 2 \/ d = 3 \/ d = 4 \/ d = 5 \/ d = 6
              \/ d = 7 \/ d = 8 \/ d = 9 \/ d = 10 \/ d = 11 \/ d = 12
              \/ d = 13 \/ d = 14 \/ d = 15) by lia.
  repeat (destruct C as [->|C]; [reflexivity|]). now subst.
Qed.

(** The fuel of [to_hex] is never short: the digits denote the number. *)
Lemma hex_digits_value fuel :
  forall n acc,
    0 <= n < 16 ^ Z.of_nat fuel ->
    hex_value (hex_digits fuel n acc) = hex_value_from n acc.
Proof.
  induction fuel as [|fuel IH]; intros n acc Hn.
  - simpl in Hn. assert (n = 0) by lia. subst. reflexivity.
  - cbn [hex_digits].
    replace (Z.of_nat (S fuel)) with (Z.succ (Z.of_nat fuel)) in Hn by lia.
    rewrite Z.pow_succ_r in Hn by lia.
    assert (Hd : 0 <= n mod 16 < 16) by (apply Z.mod_pos_bound; lia).
    pose proof (Z.div_mod n 16 ltac:(lia)) as Hdm.
    destruct (n / 16 =? 0) eqn:E.
    + apply Z.eqb_eq in E. unfold hex_value. cbn [hex_value_from].
      rewrite hex_digit_value_digit by assumption. f_equal. lia.
    + rewrite IH.
      * cbn [hex_value_from]. rewrite hex_digit_value_digit by assumption.
        f_equal. lia.
      * split; [apply Z.div_pos; lia|].
        apply Z.div_lt_upper_bound; lia.
Qed.

Lemma to_hex_value n : 0 <= n -> hex_value (to_hex n) = n.
Proof.
  intros Hn. unfold to_hex. rewrite hex_digits_value; [reflexivity|].
  split; [assumption|].
  destruct (Z.eq_dec n 0) as [->|Hnz]; [reflexivity|].
  destruct (Z.log2_spec n ltac:(lia)) as [_ Hlt].
  eapply Z.lt_le_trans; [exact Hlt|].
  rewrite Nat2Z.inj_succ, Z2Nat.id by apply Z.log2_nonneg.
  apply Z.pow_le_mono_l. lia.
Qed.

(** With fuel to spare, a number below [16^w] has at most [w] digits. *)
Lemma hex_digits_upper_bound (w : nat) :
  forall fuel n acc,
    (1 <= w)%nat -> 0 <= n < 16 ^ Z.of_nat w ->
    (String.length (hex_digits fuel n acc) <= w + String.length acc)%nat.
Proof.
  induction w as [|w IH]; intros fuel n acc Hw Hn; [lia|].
  destruct fuel as [|fuel]; simpl; [lia|].
  destruct (n / 16 =? 0) eqn:E; simpl; [lia|].
  apply Z.eqb_neq in E.
  destruct w as [|w'].
  - exfalso. apply E. apply Z.div_small. simpl in Hn. lia.
  - etransitivity.
    + apply IH; [lia|].
      split; [apply Z.div_pos; lia|].
      apply Z.div_lt_upper_bound; [lia|].
      replace (Z.of_nat (S (S w'))) with (Z.succ (Z.of_nat (S w'))) in Hn by lia.
      rewrite Z.pow_succ_r in Hn by lia. lia.
    + simpl. lia.
Qed.

Lemma hex_digits_grows fuel n acc :
  (String.length acc <= String.length (hex_digits fuel n acc))%nat.
Proof.
  revert n acc. induction fuel as [|fuel IH]; intros n acc; simpl; [lia|].
  destruct (n / 16 =? 0); simpl; [lia|].
  etransitivity; [|apply IH]. simpl. lia.
Qed.

(** With enough fuel, a number from [16^w] on has more than [w] digits. *)
Lemma hex_digits_lower_bound (w : nat) :
  forall fuel n acc,
    (w < fuel)%nat -> 16 ^ Z.of_nat w <= n ->
    (w + 1 + String.length acc <= String.length (hex_digits fuel n acc))%nat.
Proof.
  induction w as [|w IH]; intros fuel n acc Hf Hn.
  - destruct fuel as [|fuel]; [lia|]. simpl.
    destruct (n / 16 =? 0); simpl; [lia|].
    etransitivity; [|apply hex_digits_grows]. simpl. lia.
  - destruct fuel as [|fuel]; [lia|]. simpl.
    replace (Z.of_nat (S w)) with (Z.succ (Z.of_nat w)) in Hn by lia.
    rewrite Z.pow_succ_r in Hn by lia.
    assert (H16 : 16 ^ Z.of_nat w <= n / 16)
      by (apply Z.div_le_lower_bound; lia).
    assert (0 < 16 ^ Z.of_nat w) by (apply Z.pow_pos_nonneg; lia).
    destruct (n / 16 =? 0) eqn:E; [apply Z.eqb_eq in E; lia|].
    etransitivity; [|apply IH; [lia|exact H16]]. simpl. lia.
Qed.

Lemma to_hex_length_le (w : nat) n :
  (1 <= w)%nat -> 0 <= n < 16 ^ Z.of_nat w ->
  (1 <= String.length (to_hex n) <= w)%nat.
Proof.
  intros Hw Hn. unfold to_hex. split.
  - simpl. destruct (n / 16 =? 0); simpl; [lia|].
    etransitivity; [|apply hex_digits_grows]. simpl. lia.
  - etransitivity; [apply (hex_digits_upper_bound w); assumption|]. simpl. lia.
Qed.

Lemma to_hex_length_gt (w : nat) n :
  16 ^ Z.of_nat w <= n -> (w < String.length (to_hex n))%nat.
Proof.
  intros Hn. unfold to_hex.
  assert (0 < 16 ^ Z.of_nat w) by (apply Z.pow_pos_nonneg; lia).
  assert (Z.of_nat w <= Z.log2 n).
  { apply Z.log2_le_pow2; [lia|].
    etransitivity; [|exact Hn].
    apply Z.pow_le_mono_l. lia. }
  pose proof (hex_digits_lower_bound w (S (Z.to_nat (Z.log2 n))) n
                EmptyString) as L.
  specialize (L ltac:(lia) Hn).
  change (String.length EmptyString) with 0%nat in L. lia.
Qed.

(** A non-negative field takes its minimum width exactly when the
    number fits, and more otherwise. *)
Lemma format_0X_length (w : nat) n :
  (1 <= w)%nat -> 0 <= n ->
  (w <= String.length (format_0X w n))%nat
  /\ (n < 16 ^ Z.of_nat w <-> String.length (format_0X w n) = w).
Proof.
  intros Hw Hn. unfold format_0X.
  destruct (n <? 0) eqn:E; [apply Z.ltb_lt in E; lia|].
  rewrite Z.abs_eq by lia. simpl.
  rewrite length_append, length_zeros.
  destruct (Z_lt_le_dec n (16 ^ Z.of_nat w)) as [Hlt|Hge].
  - pose proof (to_hex_length_le w n Hw (conj Hn Hlt)). split; [lia|].
    split; [lia|auto].
  - pose proof (to_hex_length_gt w n Hge). split; [lia|].
    split; lia.
Qed.

Lemma format_0X_hex (w : nat) n :
  0 <= n -> all_chars is_hex_upper (format_0X w n) = true.
Proof.
  intros Hn. unfold format_0X.
  destruct (n <? 0) eqn:E; [apply Z.ltb_lt in E; lia|]. simpl.
  rewrite all_chars_append, all_chars_zeros. simpl.
  apply all_chars_hex_digits. reflexivity.
Qed.

End Frame.

(** ** The transport never raises *)

Section TransportTotal.

Variable py_float : string -> option Q.

Lemma total_connect : total connect.
Proof.
  apply total_try_except. intros e.
  apply total_bind; [apply total_emit | intros; apply total_ret].
Qed.

Lemma total_send_command cmd : total (send_command cmd).
Proof.
  apply total_try_except. intros e.
  apply total_bind; [apply total_emit | intros; apply total_ret].
Qed.

Lemma total_send_705X_XX m a c v : total (send_705X_XX m a c v).
Proof. apply total_send_command. Qed.

Lemma total_read_7019_2 : total (read_7019_2 py_float).
Proof.
  apply total_try_except. intros e.
  apply total_bind; [apply total_emit | intros; apply total_ret].
Qed.

End TransportTotal.

(** C4, as the code has it. No input of [send_705X_XX] is rejected: the
    call never raises. For non-negative fields the frame has at least 11
    characters, exactly 11 (4+2+2+2 upper-case hex digits and a carriage
    return) precisely when the module id is below 65536 and address,
    channel and value are below 256; a larger field is written wider. *)
Theorem cmd_705X_XX_frame (module_id address channel value : Z) :
  total (send_705X_XX module_id address channel value)
  /\ (0 <= module_id -> 0 <= address -> 0 <= channel -> 0 <= value ->
      let frame := cmd_705X_XX module_id address channel value in
      (11 <= String.length frame)%nat
      /\ (module_id < 65536 /\ address < 256 /\ channel < 256 /\ value < 256
          <-> String.length frame = 11%nat)
      /\ exists body,
           frame = body ++ PyStr.CR
           /\ PyStr.all_chars PyStr.is_hex_upper body = true).
Proof.
  split; [apply total_send_705X_XX|].
  intros Hm Ha Hc Hv frame. subst frame. unfold cmd_705X_XX.
  rewrite !length_append. simpl String.length.
  destruct (format_0X_length 4 module_id ltac:(lia) Hm) as [Lm Em].
  destruct (format_0X_length 2 address ltac:(lia) Ha) as [La Ea].
  destruct (format_0X_length 2 channel ltac:(lia) Hc) as [Lc Ec].
  destruct (format_0X_length 2 value ltac:(lia) Hv) as [Lv Ev].
  change (16 ^ Z.of_nat 4) with 65536 in Em.
  change (16 ^ Z.of_nat 2) with 256 in Ea, Ec, Ev.
  split; [lia|]. split.
  - split.
    + intros (H1 & H2 & H3 & H4).
      apply Em in H1. apply Ea in H2. apply Ec in H3. apply Ev in H4. lia.
    + intros H. repeat split; [apply Em|apply Ea|apply Ec|apply Ev]; lia.
  - exists (PyStr.format_0X 4 module_id ++ PyStr.format_0X 2 address
            ++ PyStr.format_0X 2 channel ++ PyStr.format_0X 2 value).
    split.
    + rewrite !append_assoc. reflexivity.
    + rewrite !all_chars_append, !format_0X_hex by assumption. reflexivity.
Qed.

Lemma cmd_705X_XX_frame_witness :
  String.length (cmd_705X_XX 7050 1 6 1) = 11%nat.
Proof.
  destruct (cmd_705X_XX_frame 7050 1 6 1) as [_ H].
  destruct (H ltac:(lia) ltac:(lia) ltac:(lia) ltac:(lia)) as (_ & [H1 _] & _).
  apply H1. lia.
Defined.

(** C4 as stated fails: the frame of an in-range command has 11
    characters, not 13, and a value of 256 (or a negative one) is not
    rejected but written to the port in a wider field. *)
Lemma cmd_705X_XX_not_13_nor_rejected :
  cmd_705X_XX 7050 1 6 1 = "1B8A010601" ++ PyStr.CR
  /\ String.length (cmd_705X_XX 7050 1 6 1) <> 13%nat
  /\ (let r := send_705X_XX 7050 1 6 256
                 (Example.start init_controller
                    (Example.device (fun _ => RxText EmptyString))) in
      fst r = Ok true
      /\ wire (dev (snd r)) = ["1B8A0106100" ++ PyStr.CR])
  /\ cmd_705X_XX 7050 1 6 (-1) = "1B8A0106-1" ++ PyStr.CR.
Proof.
  repeat split; try reflexivity. vm_compute. discriminate.
Qed.

(** ** Reading the pressure *)

Ltac run_M :=
  unfold read_7019_2, read_7019_2_try, send_command, connect, try_except,
    float, lift, get_ctl, modify_ctl, emit, sleep, serial_Serial, ser_write,
    ser_readline_decode, mbind, M_bind, mret, M_ret, mthrow, M_throw;
  cbn.

Ltac split_match :=
  match goal with
  | |- context [match ?x with _ => _ end] =>
      lazymatch x with
      | context [match _ with _ => _ end] => fail
      | _ => destruct x eqn:?
      end
  | |- context [if ?x then _ else _] =>
      lazymatch x with
      | context [if _ then _ else _] => fail
      | context [match _ with _ => _ end] => fail
      | _ => destruct x eqn:?
      end
  end; cbn in *.

(** Every outcome of [read_7019_2], traced back to what the port did. *)
Lemma read_7019_2_inv py_float s :
  let c := controller s in
  let d := dev s in
  let s' := snd (read_7019_2 py_float s) in
  match fst (read_7019_2 py_float s) with
  | Ok (Some p) =>
      exists t tok raw x,
        (ser_ready c = true \/ opens d (n_opens d) = true)
        /\ writes d (n_writes d) = true
        /\ lines d (n_lines d) = RxText t
        /\ PyStr.strip t <> EmptyString
        /\ pressureChanel c < Z.of_nat (length (PyStr.split (PyStr.strip t)))
        /\ PyNum.getitem (PyStr.split (PyStr.strip t)) (pressureChanel c) = Ok tok
        /\ py_float tok = Some raw
        /\ pressure_norm c raw = Ok x
        /\ p = PyNum.round2 x
        /\ pressurePOSLE (controller s') = p
  | Ok None => pressurePOSLE (controller s') = pressurePOSLE c
  | Raise _ => False
  end.
Proof.
  destruct s as [c d run ev]. run_M.
  repeat split_match; try reflexivity.
  all: repeat match goal with
       | H : negb _ = true |- _ => apply negb_true_iff, String.eqb_neq in H
       | H : (_ >? _) = true |- _ => apply Z.gtb_lt in H
       end.
  all: eexists _, _, _, _; repeat split; eauto.
Qed.

Lemma read_failure_returns_None py_float s :
  read_failure py_float s -> fst (read_7019_2 py_float s) = Ok None.
Proof.
  intros F. pose proof (read_7019_2_inv py_float s) as I. cbv zeta in I.
  destruct (fst (read_7019_2 py_float s)) as [[p|]|e];
    [exfalso | reflexivity | contradiction].
  destruct I as (t & tok & raw & x & Hc & Hw & Hl & Hs & Hn & Hg & Hf & _).
  destruct F as [F1 F2|F|e F|t' F1 F2|t' F1 F2|t' tok' F1 F2 F3];
    try congruence.
  - destruct Hc; congruence.
  - assert (t' = t) by congruence. subst. lia.
Qed.

(** C6. A call of [read_7019_2] never lets an exception escape, and it
    returns [None] when the port cannot be opened, when the write or the
    read raises, on an empty line, on a line with fewer tokens than
    [pressureChanel + 1], and on a token [float] does not accept. *)
Theorem read_7019_2_soft_fail py_float s :
  (exists r, fst (read_7019_2 py_float s) = Ok r)
  /\ (read_failure py_float s -> fst (read_7019_2 py_float s) = Ok None).
Proof.
  split.
  - destruct (total_read_7019_2 py_float s) as (r & s' & E).
    exists r. now rewrite E.
  - apply read_failure_returns_None.
Qed.

Lemma read_7019_2_soft_fail_witness :
  fst (read_7019_2 Example.decimal
         (snd (read_7019_2 Example.decimal
                 (Example.start init_controller Example.garbled_after_one))))
  = Ok None.
Proof.
  apply (proj2 (read_7019_2_soft_fail Example.decimal _)).
  eapply non_numeric_token; reflexivity.
Defined.

(** One run of [read_7019_2] for each failure of C6. *)
Example read_on_dead_port :
  read_7019_2 Example.decimal (Example.start init_controller Example.dead_device)
  = (Ok None,
     mkState init_controller
       (mkDevice (fun _ => false) (fun _ => false)
                 (fun _ => RxRaise SerialException) 1 0 0 [])
       false [Printed InConnect SerialException]).
Proof. reflexivity. Qed.

Example read_on_empty_line :
  fst (read_7019_2 Example.decimal
         (Example.start init_controller
            (Example.device (fun _ => RxText PyStr.CR))))
  = Ok None.
Proof. reflexivity. Qed.

Example read_on_short_line :
  fst (read_7019_2 Example.decimal
         (Example.start init_controller
            (Example.device (fun _ => RxText "+1.0 +2.0 +3.0 +4.0 +5.0"))))
  = Ok None.
Proof. reflexivity. Qed.

Example read_on_undecodable_bytes :
  let r := read_7019_2 Example.decimal
             (Example.start init_controller
                (Example.device (fun _ => RxRaise UnicodeDecodeError))) in
  fst r = Ok None /\ events (snd r) = [Printed InRead UnicodeDecodeError].
Proof. split; reflexivity. Qed.

(** *** The pressure, computed as Python computes it *)

Section Rounding.

Import PyNum.

(** [round_half_even] yields a nearest integer, the even one at a tie. *)
Lemma round_half_even_nearest (y : Q) :
  (Qabs (y - inject_Z (round_half_even y)) <= 1 # 2)%Q
  /\ ((Qabs (y - inject_Z (round_half_even y)) == 1 # 2)%Q ->
      Z.even (round_half_even y) = true).
Proof.
  unfold round_half_even.
  pose proof (Qfloor_le y) as Lo. pose proof (Qlt_floor y) as Hi.
  rewrite inject_Z_plus in Hi. change (inject_Z 1) with 1%Q in Hi.
  set (f := Qfloor y) in *.
  destruct (Qcompare (y - inject_Z f) (1 # 2)) eqn:C.
  - apply Qeq_alt in C.
    assert (A : (Qabs (y - inject_Z f) == 1 # 2)%Q)
      by (rewrite C; reflexivity).
    destruct (Z.even f) eqn:Ev.
    + split; [rewrite A; discriminate | intros _; exact Ev].
    + assert (B : (Qabs (y - inject_Z (f + 1)) == 1 # 2)%Q).
      { rewrite inject_Z_plus. change (inject_Z 1) with 1%Q.
        assert (E : (y - (inject_Z f + 1) == - (1 # 2))%Q) by lra.
        rewrite E. reflexivity. }
      split; [rewrite B; discriminate|]. intros _.
      rewrite Z.add_1_r, Z.even_succ, <- Z.negb_even, Ev. reflexivity.
  - apply Qlt_alt in C.
    assert (A : (Qabs (y - inject_Z f) == y - inject_Z f)%Q)
      by (apply Qabs_pos; lra).
    split; [rewrite A; lra|]. intros T. rewrite A in T. lra.
  - apply Qgt_alt in C. rewrite inject_Z_plus.
    change (inject_Z 1) with 1%Q.
    assert (A : (Qabs (y - (inject_Z f + 1)) == - (y - (inject_Z f + 1)))%Q)
      by (apply Qabs_neg; lra).
    split; [rewrite A; lra|]. intros T. rewrite A in T. lra.
Qed.

(** [Binary64.round2] on a finite double below 2^46 in size: the
    correctly rounded quotient by 100 of an integer nearest to 100 times
    its value, the even one at a tie; a zero keeps the sign. *)
Lemma binary64_round2_nearest (x : PrimFloat.float) (q : Q) :
  Binary64.exact x = Some q ->
  (Qabs q < inject_Z (2 ^ 46))%Q ->
  exists k : Z,
    (Qabs (q * 100 - inject_Z k) <= 1 # 2)%Q
    /\ ((Qabs (q * 100 - inject_Z k) == 1 # 2)%Q -> Z.even k = true)
    /\ Binary64.round2 x
       = if k =? 0 then (if get_sign x then (-0)%float else 0%float)
         else (Binary64.of_Z k / 100)%float.
Proof.
  intros E L. exists (round_half_even (q * 100)).
  destruct (round_half_even_nearest (q * 100)) as [N T].
  split; [exact N|]. split; [exact T|].
  unfold Binary64.round2. rewrite E.
  destruct (Qle_bool (inject_Z (2 ^ 46)) (Qabs q)) eqn:B; [|reflexivity].
  apply Qle_bool_iff in B. exfalso. apply (Qlt_not_le _ _ L B).
Qed.

End Rounding.

#[local] Set Warnings "-inexact-float".

(** C7 as stated fails. On the default calibration the line read carries
    the token 5.13941. The code computes the pressure in binary64 and
    returns 0.49; the formula in exact arithmetic, on the very values
    the doubles have or on the decimals, is above 0.495 and rounds to
    0.50. *)
Lemma binary64_read_is_not_the_exact_rounding :
  Binary64.read_value Example.decimal64 5 3.86 19.368 0 6
    (Example.response "5.13941") = Ok (Some 0.49%float)
  /\ Example.decimal64 "5.13941" = Some 5.13941%float
  /\ Binary64.spec_pressure 3.86 19.368 0 6 5.13941 = Some (1 # 2)%Q
  /\ calibrated init_controller (513941 # 100000) = Ok (1 # 2)%Q
  /\ (0.49 <? 0.5)%float = true
  /\ Binary64.exact 0.49 <> Some (1 # 2)%Q.
Proof.
  repeat split; try (vm_compute; reflexivity).
  vm_compute. discriminate.
Qed.

(** C7, as the code has it. The pressure [read_7019_2] makes of a
    response line is [abs(raw - minMA) * (maxP - minP) / (maxMA - minMA)]
    evaluated in binary64, each operation rounded, and then rounded by
    [round(..., 2)]: for a finite value below 2^46 in size that is the
    double nearest to [k/100], where [k] is an integer nearest to 100
    times the value of the double that the formula gave, the even one
    at a tie. [raw] is the number at index [pressureChanel] of the
    line. With the default calibration and a raw current of 11.614 the
    pressure is 3.0. *)
Theorem binary64_read_is_calibrated :
  (forall py_float pressureChanel minMA maxMA minP maxP line p,
     Binary64.read_value py_float pressureChanel minMA maxMA minP maxP line
     = Ok (Some p) ->
     exists tok raw,
       PyNum.getitem (PyStr.split (PyStr.strip line)) pressureChanel = Ok tok
       /\ py_float tok = Some raw
       /\ (maxMA - minMA =? 0)%float = false
       /\ let x := (abs (raw - minMA) * (maxP - minP) / (maxMA - minMA))%float in
          p = Binary64.round2 x
          /\ forall q,
               Binary64.exact x = Some q ->
               (Qabs q < inject_Z (2 ^ 46))%Q ->
               exists k : Z,
                 (Qabs (q * 100 - inject_Z k) <= 1 # 2)%Q
                 /\ ((Qabs (q * 100 - inject_Z k) == 1 # 2)%Q ->
                     Z.even k = true)
                 /\ p = if k =? 0
                        then (if get_sign x then (-0)%float else 0%float)
                        else (Binary64.of_Z k / 100)%float)
  /\ Binary64.read_value Example.decimal64 5 3.86 19.368 0 6
       (Example.response "11.614") = Ok (Some 3%float).
Proof.
  split; [|vm_compute; reflexivity].
  intros py_float ch minMA maxMA minP maxP line p E.
  unfold Binary64.read_value in E.
  destruct (negb (String.eqb (PyStr.strip line) EmptyString));
    [|discriminate].
  destruct (Z.of_nat (length (PyStr.split (PyStr.strip line))) >? ch);
    [|discriminate].
  destruct (PyNum.getitem (PyStr.split (PyStr.strip line)) ch)
    as [tok|e] eqn:G; [|discriminate].
  destruct (py_float tok) as [raw|] eqn:F; [|discriminate].
  unfold Binary64.calibrated, Binary64.pressure_norm in E.
  destruct (maxMA - minMA =? 0)%float eqn:D; [discriminate|].
  inversion E as [P]. clear E.
  exists tok, raw. split; [reflexivity|]. split; [exact F|].
  split; [reflexivity|]. cbv zeta. split; [reflexivity|].
  intros q Eq L. exact (binary64_round2_nearest _ q Eq L).
Qed.

(** The two embeddings of the read take the same token of the same
    line: where [read_7019_2] returns a value, [Binary64.read_value] on
    the line it read gets to the calibration of the token at index
    [pressureChanel], whatever the doubles are. *)
Lemma binary64_reads_the_same_token py_float (s : State) (p : Q) :
  fst (read_7019_2 py_float s) = Ok (Some p) ->
  exists t tok,
    lines (dev s) (n_lines (dev s)) = RxText t
    /\ PyNum.getitem (PyStr.split (PyStr.strip t))
         (pressureChanel (controller s)) = Ok tok
    /\ forall py_float64 minMA maxMA minP maxP,
         Binary64.read_value py_float64 (pressureChanel (controller s))
           minMA maxMA minP maxP t
         = match py_float64 tok with
           | Some raw =>
               match Binary64.calibrated minMA maxMA minP maxP raw with
               | Ok pressure => Ok (Some pressure)
               | Raise e => Raise e
               end
           | None => Raise ValueError
           end.
Proof.
  intros E. pose proof (read_7019_2_inv py_float s) as I. cbv zeta in I.
  rewrite E in I.
  destruct I as (t & tok & raw & x & _ & _ & Hl & Hs & Hn & Hg & _).
  exists t, tok. split; [exact Hl|]. split; [exact Hg|].
  intros py_float64 a b c d. unfold Binary64.read_value.
  apply String.eqb_neq in Hs. rewrite Hs. cbn [negb].
  apply Z.gtb_lt in Hn. rewrite Hn, Hg. reflexivity.
Qed.

Lemma binary64_read_is_calibrated_witness :
  exists tok raw,
    PyNum.getitem (PyStr.split (PyStr.strip (Example.response "11.614"))) 5
    = Ok tok
    /\ Example.decimal64 tok = Some raw
    /\ (19.368 - 3.86 =? 0)%float = false
    /\ let x := (abs (raw - 3.86) * (6 - 0) / (19.368 - 3.86))%float in
       3%float = Binary64.round2 x
       /\ forall q,
            Binary64.exact x = Some q ->
            (Qabs q < inject_Z (2 ^ 46))%Q ->
            exists k : Z,
              (Qabs (q * 100 - inject_Z k) <= 1 # 2)%Q
              /\ ((Qabs (q * 100 - inject_Z k) == 1 # 2)%Q ->
                  Z.even k = true)
              /\ 3%float = if k =? 0
                           then (if get_sign x then (-0)%float else 0%float)
                           else (Binary64.of_Z k / 100)%float.
Proof.
  assert (E : Binary64.read_value Example.decimal64 5 3.86 19.368 0 6
                (Example.response "11.614") = Ok (Some 3%float))
    by (vm_compute; reflexivity).
  exact (proj1 binary64_read_is_calibrated Example.decimal64 5
           3.86%float 19.368%float 0%float 6%float
           (Example.response "11.614") 3%float E).
Defined.

#[local] Set Warnings "inexact-float".

(** C10. A call of [read_7019_2] that returns [None] leaves
    [pressurePOSLE] as it was. *)
Theorem read_7019_2_failure_keeps_pressure py_float s :
  fst (read_7019_2 py_float s) = Ok None ->
  pressurePOSLE (controller (snd (read_7019_2 py_float s)))
  = pressurePOSLE (controller s).
Proof.
  intros E. pose proof (read_7019_2_inv py_float s) as I. cbv zeta in I.
  now rewrite E in I.
Qed.

Lemma read_7019_2_failure_keeps_pressure_witness :
  pressurePOSLE (controller Example.after_first_read) = 3%Q
  /\ fst (read_7019_2 Example.decimal Example.after_first_read) = Ok None
  /\ pressurePOSLE (controller (snd (read_7019_2 Example.decimal
                                       Example.after_first_read))) = 3%Q.
Proof.
  split; [reflexivity|]. split; [reflexivity|].
  rewrite (read_7019_2_failure_keeps_pressure Example.decimal
             Example.after_first_read eq_refl).
  reflexivity.
Defined.

(** The failures C10 lists are among the calls that return [None]. *)
Corollary read_failure_keeps_pressure py_float s :
  read_failure py_float s ->
  pressurePOSLE (controller (snd (read_7019_2 py_float s)))
  = pressurePOSLE (controller s).
Proof.
  intros F. apply read_failure_returns_None in F.
  pose proof (read_7019_2_inv py_float s) as I. cbv zeta in I.
  now rewrite F in I.
Qed.

(** ** Connecting *)

(** C9 as stated fails: on an open connection [connect] opens the port
    again. When the port opens a second time the handle is replaced by
    the new one; when it does not, [connect] reports failure. *)
Lemma connect_reopens :
  ser_ready (controller Example.connected) = true
  /\ ser (controller (snd (connect Example.connected)))
     <> ser (controller Example.connected)
  /\ n_opens (dev (snd (connect Example.connected))) = 2%nat
  /\ (let busy := mkState (controller Example.connected)
                    (mkDevice (fun k => (k =? 0)%nat) (fun _ => true)
                              (fun _ => RxText EmptyString) 1 0 0 [])
                    false [] in
      fst (connect busy) = Ok false).
Proof.
  split; [reflexivity|]. split; [|split; reflexivity].
  vm_compute. intros H. discriminate H.
Qed.

(** C9, as the code has it. [connect] makes an attempt to open the port
    whenever it is called; the callers are what makes connecting lazy:
    on an open connection [send_command] and [read_7019_2] keep the
    handle they find and open nothing. *)
Theorem open_connection_is_reused py_float s :
  ser_ready (controller s) = true ->
  (forall command,
     ser (controller (snd (send_command command s))) = ser (controller s)
     /\ n_opens (dev (snd (send_command command s))) = n_opens (dev s))
  /\ ser (controller (snd (read_7019_2 py_float s))) = ser (controller s)
  /\ n_opens (dev (snd (read_7019_2 py_float s))) = n_opens (dev s)
  /\ n_opens (dev (snd (connect s))) = S (n_opens (dev s)).
Proof.
  intros R. destruct s as [c d run ev]. cbn in R.
  split; [intros command | split; [|split]].
  - run_M. rewrite R. cbn. repeat split_match; split; reflexivity.
  - run_M. rewrite R. cbn. repeat split_match; destruct c; reflexivity.
  - run_M. rewrite R. cbn. repeat split_match; reflexivity.
  - run_M. repeat split_match; reflexivity.
Qed.

Lemma open_connection_is_reused_witness :
  ser (controller (snd (send_command "1B8A010601" Example.connected)))
  = ser (controller Example.connected)
  /\ n_opens (dev (snd (send_command "1B8A010601" Example.connected))) = 1%nat.
Proof.
  exact (proj1 (open_connection_is_reused Example.decimal Example.connected
                  eq_refl) "1B8A010601").
Defined.

(** ** The calibration *)

Section Calibration.

Import PyNum.

Example round2_ties_to_even :
  round2 (1 # 8) = Qred (12 # 100) /\ round2 (3 # 8) = Qred (38 # 100)
  /\ round2 (- (1 # 8)) = Qred (- (12 # 100))
  /\ round2 (299 # 1000) = Qred (30 # 100).
Proof. repeat split. Qed.

Example list_builtin_examples :
  py_max [1; 3; 2]%Q = Ok 3%Q /\ py_max [] = Raise ValueError
  /\ slice_to [1; 2; 3] 0 = [] /\ slice_to [1; 2; 3] (-1) = [1; 2]
  /\ slice_to [1; 2; 3] 5 = [1; 2; 3]
  /\ getitem [1; 2; 3] (-1) = Ok 3 /\ getitem [1; 2; 3] 3 = Raise IndexError
  /\ getitem [1; 2; 3] (-4) = Raise IndexError
  /\ setitem [1; 2; 3] 3 0 = Raise IndexError
  /\ setitem [1; 2; 3] 1 0 = Ok [1; 0; 3].
Proof. repeat split. Qed.








End Calibration.

(** The values used in the examples, computed in binary64: each lies
    within a thousandth of the two-decimal value the exact model gives,
    so [round(..., 2)] yields that value; the values of the two gauges
    below are exact. *)
#[local] Set Warnings "-inexact-float".

Example binary64_agrees_on_the_examples :
  Binary64.between 2.999 3.001
    (Binary64.pressure_norm 3.86 19.368 0 6 11.614) = true
  /\ Binary64.between 1.499 1.501
       (Binary64.pressure_norm 3.86 19.368 0 6 7.737) = true
  /\ Binary64.between 3.999 4.001
       (Binary64.pressure_norm 3.86 19.368 0 6 14.1987) = true
  /\ (Binary64.pressure_norm 4 20 1 6 4 =? 0)%float = true
  /\ (Binary64.pressure_norm 4 20 6 0 12 =? -3)%float = true
  /\ (Binary64.pressure_norm 4 20 6 0 20 =? -6)%float = true.
Proof. repeat split; vm_compute; reflexivity. Qed.

#[local] Set Warnings "inexact-float".




(** ** The forward test *)

Lemma transport_in_loop s s' : transport_only s s' -> loop_only s s'.
Proof.
  intros ((h & p & E) & H). split; [|exact H].
  exists h, p, (plus_dim_press (controller s)). rewrite E.
  destruct (controller s); reflexivity.
Qed.

Lemma loop_only_refl s : loop_only s s.
Proof. apply transport_in_loop, transport_only_refl. Qed.

Lemma loop_only_trans s1 s2 s3 :
  loop_only s1 s2 -> loop_only s2 s3 -> loop_only s1 s3.
Proof.
  intros ((h1 & p1 & l1 & E1) & ? & ? & ? & ? & (ev1 & V1))
         ((h2 & p2 & l2 & E2) & ? & ? & ? & ? & (ev2 & V2)).
  split; [exists h2, p2, l2; rewrite E2, E1; reflexivity|].
  repeat split; try congruence.
  exists (ev1 ++ ev2)%list. rewrite V2, V1. now rewrite app_assoc.
Qed.

Lemma keeps_weaken {A} (R R' : State -> State -> Prop) (m : M A) :
  (forall s s', R s s' -> R' s s') -> keeps R m -> keeps R' m.
Proof. intros HR Hm s r s' E. eapply HR, Hm, E. Qed.

Section SequencerLemmas.

Variable py_float : string -> option Q.

Lemma keeps_setup : keeps transport_only setup.
Proof. unfold setup. repeat frame_step; apply keeps_send_705X_XX. Qed.

Lemma keeps_pulse_on : keeps transport_only pulse_on.
Proof. unfold pulse_on. repeat frame_step; apply keeps_send_705X_XX. Qed.

Lemma keeps_pulse_off : keeps transport_only pulse_off.
Proof. unfold pulse_off. repeat frame_step; apply keeps_send_705X_XX. Qed.

Ltac total_step :=
  first
    [ apply total_bind; [| intros ?]
    | apply total_send_705X_XX
    | apply total_emit
    | apply total_get_ctl
    | apply total_sleep
    | apply total_modify_ctl
    | apply total_set_running
    | apply total_ret ].

Lemma total_setup : total setup.
Proof. unfold setup. repeat total_step. Qed.

Lemma total_pulse_on : total pulse_on.
Proof. unfold pulse_on. repeat total_step. Qed.

Lemma total_pulse_off : total pulse_off.
Proof. unfold pulse_off. repeat total_step. Qed.

(** Storing a sample either writes slot [step] and queues the two GUI
    calls, or raises [IndexError] and changes nothing. *)
Lemma store_sample_run step p s :
  store_sample step (Some p) s
  = if (step <? length (plus_dim_press (controller s)))%nat
    then (Ok tt,
          mkState (set_plus_dim_press (<[step := p]> (plus_dim_press (controller s)))
                     (controller s))
                  (dev s) (is_test_running s)
                  (events s ++ [CallAfter (CallUpdateGraph step p);
                                CallAfter (CallLogMessage (MsgStep step p))]))
    else (Raise IndexError, s).
Proof.
  unfold store_sample, PyNum.setitem, lift, get_ctl, modify_ctl, emit,
    mbind, M_bind.
  cbv beta iota.
  destruct (step <? length (plus_dim_press (controller s)))%nat; cbn.
  - now rewrite <- app_assoc.
  - reflexivity.
Qed.

Lemma store_sample_None step s : store_sample step None s = (Ok tt, s).
Proof. reflexivity. Qed.

Lemma keeps_store_sample step pressure :
  keeps loop_only (store_sample step pressure).
Proof.
  intros s r s' E. destruct pressure as [p|].
  - rewrite store_sample_run in E.
    destruct (step <? length (plus_dim_press (controller s)))%nat;
      inversion E; subst; clear E; [|apply loop_only_refl].
    split; [|repeat split; eexists; reflexivity].
    exists (ser (controller s)), (pressurePOSLE (controller s)),
      (<[step := p]> (plus_dim_press (controller s))).
    cbn. destruct (controller s); reflexivity.
  - inversion E; subst. apply loop_only_refl.
Qed.

Lemma store_sample_raises step pressure s e s' :
  store_sample step pressure s = (Raise e, s') -> e = IndexError.
Proof.
  destruct pressure as [p|]; [|discriminate].
  rewrite store_sample_run.
  destruct (step <? length (plus_dim_press (controller s)))%nat; congruence.
Qed.

Lemma keeps_for_steps steps : keeps loop_only (for_steps py_float steps).
Proof.
  induction steps as [|step rest IH]; cbn [for_steps].
  - apply (keeps_ret _ loop_only_refl).
  - apply (keeps_bind _ loop_only_trans);
      [apply (keeps_get_ctl _ loop_only_refl) | intros c].
    apply keeps_if; [apply (keeps_ret _ loop_only_refl)|].
    apply (keeps_bind _ loop_only_trans);
      [eapply keeps_weaken; [apply transport_in_loop | apply keeps_read_7019_2]
      | intros pressure].
    apply (keeps_bind _ loop_only_trans);
      [apply keeps_store_sample | intros _].
    apply (keeps_bind _ loop_only_trans);
      [eapply keeps_weaken; [apply transport_in_loop | apply keeps_pulse_on]
      | intros _].
    apply (keeps_bind _ loop_only_trans);
      [eapply keeps_weaken; [apply transport_in_loop | apply keeps_pulse_off]
      | intros _].
    exact IH.
Qed.

(** The only exception the loop raises is the [IndexError] of a store. *)
Lemma for_steps_raises steps :
  forall s e s', for_steps py_float steps s = (Raise e, s') -> e = IndexError.
Proof.
  induction steps as [|step rest IH]; intros s e s' E; [discriminate|].
  cbn [for_steps] in E. unfold get_ctl in E. rewrite run_bind in E.
  destruct (stop_igra (controller s)); [discriminate|].
  rewrite run_bind in E.
  destruct (total_read_7019_2 py_float s) as (pr & s1 & E1). rewrite E1 in E.
  rewrite run_bind in E.
  destruct (store_sample step pr s1) as [[[]|e1] s2] eqn:E2.
  - rewrite run_bind in E.
    destruct (total_pulse_on s2) as ([] & s3 & E3). rewrite E3 in E.
    rewrite run_bind in E.
    destruct (total_pulse_off s3) as ([] & s4 & E4). rewrite E4 in E.
    eapply IH, E.
  - inversion E; subst. eapply store_sample_raises, E2.
Qed.

End SequencerLemmas.

Section RunLemmas.

Variable py_float : string -> option Q.

Lemma run_forward_test_run s :
  run_forward_test py_float s
  = match run_forward_test_try py_float s with
    | (Ok _, s1) => (Ok None, finished s1)
    | (Raise e, s1) => (Ok (Some e), finished (logged_error e s1))
    end.
Proof.
  unfold run_forward_test, try_except, finally, emit, set_running,
    mbind, M_bind, mret, M_ret.
  destruct (run_forward_test_try py_float s) as [[[]|e] s1]; reflexivity.
Qed.

Lemma run_forward_test_try_run s :
  run_forward_test_try py_float s
  = match setup s with
    | (Ok _, s0) =>
        match for_steps py_float (range (plus_step (controller s0))) s0 with
        | (Ok _, s1) => analysis s1
        | (Raise e, s1) => (Raise e, s1)
        end
    | (Raise e, s0) => (Raise e, s0)
    end.
Proof.
  unfold run_forward_test_try. rewrite run_bind.
  destruct (setup s) as [[[]|e] s0]; [|reflexivity].
  unfold get_ctl. rewrite !run_bind. reflexivity.
Qed.

(** With [plus_counter] at 0 the slice handed to [max] is empty. *)
Lemma analysis_on_empty_slice s :
  plus_counter (controller s) = 0 -> analysis s = (Raise ValueError, s).
Proof.
  intros H. unfold analysis, get_ctl, lift. rewrite !run_bind.
  rewrite H. reflexivity.
Qed.

(** [on_forward_test] leaves [plus_counter] at 0 when it starts a run. *)
Lemma on_forward_test_resets s :
  is_test_running s = false ->
  fst (on_forward_test s) = Ok true
  /\ plus_counter (controller (snd (on_forward_test s))) = 0
  /\ stop_igra (controller (snd (on_forward_test s))) = false
  /\ is_test_running (snd (on_forward_test s)) = true.
Proof.
  intros H. unfold on_forward_test, get_running. rewrite run_bind, H.
  repeat split.
Qed.

(** A run never gets to assign [fixed_open] when [plus_counter] is 0:
    it ends in the [except] clause, on the [IndexError] of a store or on
    the [ValueError] of [max] over the empty slice. *)
Lemma run_forward_test_never_completes s :
  plus_counter (controller s) = 0 ->
  let r := run_forward_test py_float s in
  (fst r = Ok (Some IndexError) \/ fst r = Ok (Some ValueError))
  /\ fixed_open (controller (snd r)) = fixed_open (controller s)
  /\ is_test_running (snd r) = false.
Proof.
  intros H r. subst r. rewrite run_forward_test_run, run_forward_test_try_run.
  destruct (total_setup s) as ([] & s0 & E0). rewrite E0.
  pose proof (keeps_setup s _ _ E0) as ((h0 & p0 & C0) & _).
  destruct (for_steps py_float (range (plus_step (controller s0))) s0)
    as [[[]|e] s1] eqn:E1.
  - pose proof (keeps_for_steps py_float _ _ _ _ E1) as ((h1 & p1 & l1 & C1) & _).
    rewrite analysis_on_empty_slice by (rewrite C1, C0; exact H).
    cbn. rewrite C1, C0. auto.
  - pose proof (keeps_for_steps py_float _ _ _ _ E1) as ((h1 & p1 & l1 & C1) & _).
    apply for_steps_raises in E1. subst e.
    cbn. rewrite C1, C0. auto.
Qed.

(** A loop in which no read returns a value ends normally and leaves
    the samples alone. *)
Lemma for_steps_without_sample steps :
  forall s,
    Forall (eq None) (loop_reads py_float steps s) ->
    exists s',
      for_steps py_float steps s = (Ok tt, s') /\ transport_only s s'.
Proof.
  induction steps as [|step rest IH]; intros s F.
  - exists s. split; [reflexivity | apply transport_only_refl].
  - cbn [for_steps loop_reads] in *. unfold get_ctl. rewrite run_bind.
    destruct (stop_igra (controller s)).
    { exists s. split; [reflexivity | apply transport_only_refl]. }
    rewrite run_bind.
    destruct (total_read_7019_2 py_float s) as (pr & s1 & E1).
    rewrite E1 in *.
    apply Forall_cons in F as [<- F].
    rewrite run_bind, store_sample_None in F.
    rewrite run_bind, store_sample_None.
    destruct (total_pulse_on s1) as ([] & s2 & E2).
    rewrite run_bind, E2 in F. rewrite run_bind, E2.
    destruct (total_pulse_off s2) as ([] & s3 & E3).
    rewrite E3 in F. rewrite run_bind, E3.
    destruct (IH s3 F) as (s' & E & T). exists s'. split; [exact E|].
    eapply transport_only_trans; [eapply keeps_read_7019_2, E1|].
    eapply transport_only_trans; [eapply keeps_pulse_on, E2|].
    eapply transport_only_trans; [eapply keeps_pulse_off, E3|exact T].
Qed.

End RunLemmas.

(** C3 as stated fails: with no sample at all [max] does raise, a
    [ValueError] for its empty argument, and that exception is what the
    run ends on. *)
Lemma no_samples_max_raises :
  let s := Example.started init_controller Example.dead_device in
  let r := run_forward_test Example.decimal s in
  Forall (eq None) (run_reads Example.decimal s)
  /\ length (run_reads Example.decimal s) = 80%nat
  /\ fst r = Ok (Some ValueError)
  /\ last (events (snd r)) = Some (CallAfter CallOnStop).
Proof.
  cbv zeta. split; [|repeat split; vm_compute; reflexivity].
  vm_compute. repeat constructor.
Qed.

(** C3, as the code has it. When no read of a run started by
    [on_forward_test] returns a value, [max] over the empty slice raises
    [ValueError] inside the [try]; the [except] clause queues the error
    message and nothing escapes. [fixed_open] is not assigned (it keeps
    its value, 0.0 from the constructor), the samples are untouched, and
    [finally] clears [is_test_running] and queues [on_stop]. *)
Theorem no_samples_run_ends_on_ValueError py_float s :
  plus_counter (controller s) = 0 ->
  Forall (eq None) (run_reads py_float s) ->
  let r := run_forward_test py_float s in
  fst r = Ok (Some ValueError)
  /\ fixed_open (controller (snd r)) = fixed_open (controller s)
  /\ plus_dim_press (controller (snd r)) = plus_dim_press (controller s)
  /\ is_test_running (snd r) = false
  /\ exists evs,
       events (snd r)
       = (events s ++ evs
          ++ [CallAfter (CallLogMessage (MsgTestError ValueError));
              CallAfter CallOnStop])%list.
Proof.
  intros H F r. subst r. unfold run_reads in F.
  rewrite run_forward_test_run, run_forward_test_try_run.
  destruct (total_setup s) as ([] & s0 & E0). rewrite E0 in *.
  pose proof (keeps_setup s _ _ E0) as ((h0 & p0 & C0) & _ & _ & _ & _ & (ev0 & V0)).
  cbn [snd] in F.
  destruct (for_steps_without_sample py_float _ _ F) as (s1 & E1 & T1).
  rewrite E1.
  destruct T1 as ((h1 & p1 & C1) & _ & _ & _ & _ & (ev1 & V1)).
  rewrite analysis_on_empty_slice by (rewrite C1, C0; exact H).
  cbn. rewrite C1, C0. repeat split.
  exists (ev0 ++ ev1)%list. rewrite V1, V0.
  rewrite <- !app_assoc. reflexivity.
Qed.

Lemma no_samples_run_ends_on_ValueError_witness :
  fst (run_forward_test Example.decimal
         (Example.started init_controller Example.dead_device))
  = Ok (Some ValueError).
Proof.
  refine (proj1 (no_samples_run_ends_on_ValueError Example.decimal
                   (Example.started init_controller Example.dead_device)
                   eq_refl _)).
  vm_compute. repeat constructor.
Defined.

(** A sample that is obtained goes to slot [step] when the buffer has
    one, and to no other slot. *)
Lemma store_sample_at_step step p s s' :
  store_sample step (Some p) s = (Ok tt, s') ->
  (step < length (plus_dim_press (controller s)))%nat
  /\ plus_dim_press (controller s') = <[step := p]> (plus_dim_press (controller s))
  /\ plus_dim_press (controller s') !! step = Some p.
Proof.
  rewrite store_sample_run.
  destruct (step <? length (plus_dim_press (controller s)))%nat eqn:E;
    [|discriminate].
  apply Nat.ltb_lt in E. intros H. inversion H; subst; clear H. cbn.
  repeat split; [exact E|].
  apply list_lookup_insert_eq, E.
Qed.

(** C1 on the default controller. The buffer has 41 slots for 80 steps:
    with a device that answers every read, steps 0 to 40 are stored and
    the store of step 41 raises [IndexError], which ends the run. *)
Theorem default_run_overruns_the_samples :
  let s := Example.started init_controller Example.answering in
  let r := run_forward_test Example.decimal s in
  plus_step init_controller = 80
  /\ length (plus_dim_press init_controller) = 41%nat
  /\ run_reads Example.decimal s = replicate 42 (Some 3%Q)
  /\ fst (store_sample 41 (Some 3%Q) s) = Raise IndexError
  /\ fst r = Ok (Some IndexError)
  /\ plus_dim_press (controller (snd r)) = replicate 41 3%Q
  /\ fixed_open (controller (snd r)) = 0%Q.
Proof. cbv zeta. repeat split; vm_compute; reflexivity. Qed.

(** C2 on its scenario: three steps, reads of 1.5, nothing and 4.0. The
    samples are stored, step 1 keeps its 0.0, but the slice handed to
    [max] stops at [plus_counter], which is still 0: [max] raises,
    [fixed_open] stays 0.0 where the maximum of the samples is 4.0, and
    the run ends in its [except] clause. *)
Theorem scenario_run_does_not_record_fixed_open :
  let s := Example.started (set_plus_step 3 init_controller)
             Example.two_of_three in
  let r := run_forward_test Example.decimal s in
  run_reads Example.decimal s = [Some (3 # 2)%Q; None; Some 4%Q]
  /\ take 3 (plus_dim_press (controller (snd r))) = [(3 # 2)%Q; 0%Q; 4%Q]
  /\ PyNum.py_max (take 3 (plus_dim_press (controller (snd r)))) = Ok 4%Q
  /\ plus_counter (controller (snd r)) = 0
  /\ PyNum.slice_to (plus_dim_press (controller (snd r)))
       (plus_counter (controller (snd r))) = []
  /\ fst r = Ok (Some ValueError)
  /\ fixed_open (controller (snd r)) = 0%Q.
Proof. cbv zeta. repeat split; vm_compute; reflexivity. Qed.

(** ** The worker and the GUI thread interleaved *)

Section MachineLemmas.

Variable py_float : string -> option Q.

Lemma exec_app l1 l2 cf :
  exec py_float (l1 ++ l2) cf = exec py_float l2 (exec py_float l1 cf).
Proof. unfold exec. apply fold_left_app. Qed.

Lemma exec_cons a l cf :
  exec py_float (a :: l) cf = exec py_float l (step py_float a cf).
Proof. reflexivity. Qed.

Lemma exec_nil cf : exec py_float [] cf = cf.
Proof. reflexivity. Qed.

Lemma abort_is_finished e s :
  abort e s = mkConfig (Finished (Some e)) (finished (logged_error e s)).
Proof. reflexivity. Qed.

(** The worker's step, case by case. *)
Lemma step_head_done s :
  worker_step py_float (mkConfig (Looping Head []) s) = mkConfig AfterLoop s.
Proof. reflexivity. Qed.

Lemma step_head_stop k rest s :
  stop_igra (controller s) = true ->
  worker_step py_float (mkConfig (Looping Head (k :: rest)) s)
  = mkConfig AfterLoop s.
Proof. intros H. unfold worker_step. cbn [thread st]. now rewrite H. Qed.

Lemma step_head_go k rest s :
  stop_igra (controller s) = false ->
  worker_step py_float (mkConfig (Looping Head (k :: rest)) s)
  = mkConfig (Looping (Reading k) rest) s.
Proof. intros H. unfold worker_step. cbn [thread st]. now rewrite H. Qed.

Lemma step_reading k rest s pr s1 :
  read_7019_2 py_float s = (Ok pr, s1) ->
  worker_step py_float (mkConfig (Looping (Reading k) rest) s)
  = mkConfig (Looping (Storing k pr) rest) s1.
Proof.
  intros H. unfold worker_step, advance. cbn [thread st]. now rewrite H.
Qed.

Lemma step_storing k pr rest s s1 :
  store_sample k pr s = (Ok tt, s1) ->
  worker_step py_float (mkConfig (Looping (Storing k pr) rest) s)
  = mkConfig (Looping (PulseOn k) rest) s1.
Proof.
  intros H. unfold worker_step, advance. cbn [thread st]. now rewrite H.
Qed.

Lemma step_storing_raises k pr rest s e s1 :
  store_sample k pr s = (Raise e, s1) ->
  worker_step py_float (mkConfig (Looping (Storing k pr) rest) s)
  = abort e s1.
Proof.
  intros H. unfold worker_step, advance. cbn [thread st]. now rewrite H.
Qed.

Lemma step_pulse_on k rest s s1 :
  pulse_on s = (Ok tt, s1) ->
  worker_step py_float (mkConfig (Looping (PulseOn k) rest) s)
  = mkConfig (Looping (PulseOff k) rest) s1.
Proof.
  intros H. unfold worker_step, advance. cbn [thread st]. now rewrite H.
Qed.

Lemma step_pulse_off k rest s s1 :
  pulse_off s = (Ok tt, s1) ->
  worker_step py_float (mkConfig (Looping (PulseOff k) rest) s)
  = mkConfig (Looping Head rest) s1.
Proof.
  intros H. unfold worker_step, advance. cbn [thread st]. now rewrite H.
Qed.

Lemma step_after_loop s :
  worker_step py_float (mkConfig AfterLoop s)
  = match analysis s with
    | (Ok _, s1) => mkConfig (Finished None) (finished s1)
    | (Raise e, s1) => abort e s1
    end.
Proof.
  unfold worker_step, advance. cbn [thread st]. rewrite run_bind.
  destruct (analysis s) as [[[]|e] s1]; reflexivity.
Qed.

Lemma step_starting s s0 :
  setup s = (Ok tt, s0) ->
  worker_step py_float (mkConfig Starting s)
  = mkConfig (Looping Head (range (plus_step (controller s0)))) s0.
Proof. intros H. unfold worker_step. cbn [thread st]. now rewrite H. Qed.

Lemma exec_worker n cf :
  exec py_float (replicate (S n) Worker) cf
  = exec py_float (replicate n Worker) (worker_step py_float cf).
Proof. reflexivity. Qed.

(** The worker alone, from the head of the loop, does what [for_steps]
    does. *)
Lemma worker_runs_for_steps rest :
  forall s, exists n,
    exec py_float (replicate n Worker) (mkConfig (Looping Head rest) s)
    = match for_steps py_float rest s with
      | (Ok _, s1) => mkConfig AfterLoop s1
      | (Raise e, s1) => abort e s1
      end.
Proof.
  induction rest as [|k rest IH]; intros s.
  - exists 1%nat. reflexivity.
  - cbn [for_steps]. unfold get_ctl. rewrite run_bind.
    destruct (stop_igra (controller s)) eqn:Hstop.
    { exists 1%nat. rewrite exec_worker, step_head_stop by assumption.
      reflexivity. }
    rewrite run_bind.
    destruct (total_read_7019_2 py_float s) as (pr & s1 & E1). rewrite E1.
    rewrite run_bind.
    destruct (store_sample k pr s1) as [[[]|e] s2] eqn:E2.
    + rewrite run_bind.
      destruct (total_pulse_on s2) as ([] & s3 & E3). rewrite E3.
      rewrite run_bind.
      destruct (total_pulse_off s3) as ([] & s4 & E4). rewrite E4.
      destruct (IH s4) as (n & En).
      exists (5 + n)%nat. rewrite <- En.
      cbn [Nat.add]. rewrite !exec_worker.
      rewrite step_head_go by assumption.
      rewrite (step_reading _ _ _ _ _ E1), (step_storing _ _ _ _ _ E2).
      rewrite (step_pulse_on _ _ _ _ E3), (step_pulse_off _ _ _ _ E4).
      reflexivity.
    + exists 3%nat. rewrite !exec_worker.
      rewrite step_head_go by assumption.
      rewrite (step_reading _ _ _ _ _ E1), (step_storing_raises _ _ _ _ _ _ E2).
      reflexivity.
Qed.

(** The worker alone runs [run_forward_test]. *)
Lemma worker_alone_is_run_forward_test s :
  exists n r s',
    run_forward_test py_float s = (Ok r, s')
    /\ exec py_float (replicate n Worker) (mkConfig Starting s)
       = mkConfig (Finished r) s'.
Proof.
  rewrite run_forward_test_run, run_forward_test_try_run.
  destruct (total_setup s) as ([] & s0 & E0). rewrite E0.
  destruct (worker_runs_for_steps (range (plus_step (controller s0))) s0)
    as (n & En).
  destruct (for_steps py_float (range (plus_step (controller s0))) s0)
    as [[[]|e] s1].
  - exists (1 + (n + 1))%nat.
    assert (X : exec py_float (replicate (1 + (n + 1)) Worker)
                  (mkConfig Starting s)
                = worker_step py_float (mkConfig AfterLoop s1)).
    { cbn [Nat.add]. rewrite exec_worker, (step_starting _ _ E0).
      rewrite replicate_add, exec_app, En. reflexivity. }
    rewrite X, step_after_loop.
    destruct (analysis s1) as [[[]|e] s2]; eexists _, _; split; reflexivity.
  - exists (1 + n)%nat. eexists _, _. split; [reflexivity|].
    cbn [Nat.add]. rewrite exec_worker, (step_starting _ _ E0). exact En.
Qed.

Lemma send_command_ignores_stop cmd : ignores_stop (send_command cmd).
Proof.
  intros [c d run ev]. destruct c.
  unfold stopped, gui_step. run_M.
  unfold ser_ready, pressure_norm, set_stop_igra, set_ser, set_pressurePOSLE.
  cbn.
  repeat split_match; reflexivity.
Qed.

Lemma read_7019_2_ignores_stop : ignores_stop (read_7019_2 py_float).
Proof.
  intros [c d run ev]. destruct c.
  unfold stopped, gui_step. run_M.
  unfold ser_ready, pressure_norm, set_stop_igra, set_ser, set_pressurePOSLE.
  cbn.
  repeat split_match; reflexivity.
Qed.

Lemma store_sample_ignores_stop k pr : ignores_stop (store_sample k pr).
Proof.
  intros [c d run ev]. destruct pr as [p|]; [|reflexivity].
  rewrite !store_sample_run. destruct c. cbn -[Nat.ltb].
  destruct (k <? length plus_dim_press0)%nat; reflexivity.
Qed.

Lemma pulse_on_ignores_stop : ignores_stop pulse_on.
Proof.
  intros s. unfold pulse_on, get_ctl, sleep, send_705X_XX.
  rewrite !run_bind.
  replace (adrDO (controller (stopped s))) with (adrDO (controller s))
    by (destruct s as [[] ? ? ?]; reflexivity).
  replace (plusPUMP (controller (stopped s))) with (plusPUMP (controller s))
    by (destruct s as [[] ? ? ?]; reflexivity).
  rewrite send_command_ignores_stop.
  destruct (send_command _ s) as [[b|e] s1]; reflexivity.
Qed.

Lemma pulse_off_ignores_stop : ignores_stop pulse_off.
Proof.
  intros s. unfold pulse_off, get_ctl, sleep, send_705X_XX.
  rewrite !run_bind.
  replace (adrDO (controller (stopped s))) with (adrDO (controller s))
    by (destruct s as [[] ? ? ?]; reflexivity).
  replace (plusPUMP (controller (stopped s))) with (plusPUMP (controller s))
    by (destruct s as [[] ? ? ?]; reflexivity).
  rewrite send_command_ignores_stop.
  destruct (send_command _ s) as [[b|e] s1]; reflexivity.
Qed.

Lemma advance_ignores_stop {A} (m : M A) (next : A -> worker) s :
  ignores_stop m ->
  advance m next (stopped s)
  = mkConfig (thread (advance m next s)) (stopped (st (advance m next s))).
Proof.
  intros H. unfold advance. rewrite H.
  destruct (m s) as [[a|e] s1]; reflexivity.
Qed.

Lemma worker_step_ignores_stop cf k :
  iteration (thread cf) = Some k ->
  worker_step py_float (step py_float (Gui RequestStop) cf)
  = step py_float (Gui RequestStop) (worker_step py_float cf).
Proof.
  destruct cf as [w s]. intros H.
  destruct w as [|[|k'|k' pr|k'|k'] rest| |]; try discriminate H;
    unfold step, worker_step; cbn [thread st];
    apply advance_ignores_stop.
  - apply read_7019_2_ignores_stop.
  - apply store_sample_ignores_stop.
  - apply pulse_on_ignores_stop.
  - apply pulse_off_ignores_stop.
Qed.

(** The rest of an iteration runs the same whether or not the stop flag
    was set before it. *)
Lemma rest_of_iteration_ignores_stop k n :
  forall cf,
    (forall m, (m < n)%nat ->
       iteration (thread (exec py_float (replicate m Worker) cf)) = Some k) ->
    exec py_float (replicate n Worker) (step py_float (Gui RequestStop) cf)
    = step py_float (Gui RequestStop) (exec py_float (replicate n Worker) cf).
Proof.
  induction n as [|n IH]; intros cf H; [reflexivity|].
  rewrite !exec_worker.
  rewrite (worker_step_ignores_stop cf k) by (apply (H 0%nat); lia).
  apply IH. intros m Hm. rewrite <- exec_worker. apply H. lia.
Qed.

Lemma transport_only_run_data s s' :
  transport_only s s' -> same_run_data s s'.
Proof.
  intros ((h & p & E) & _). unfold same_run_data. rewrite E.
  destruct (controller s); split; reflexivity.
Qed.

Lemma total_keeps_run_data {A} (m : M A) s :
  total m -> keeps transport_only m ->
  exists a s1, m s = (Ok a, s1) /\ same_run_data s s1.
Proof.
  intros T K. destruct (T s) as (a & s1 & E).
  exists a, s1. split; [exact E|]. eapply transport_only_run_data, K, E.
Qed.

Lemma gui_step_run_data g s :
  stop_igra (controller s) = true ->
  stop_igra (controller (gui_step py_float g s)) = true
  /\ plus_dim_press (controller (gui_step py_float g s))
     = plus_dim_press (controller s).
Proof.
  intros H. destruct g as [|m a c v|]; cbn [gui_step].
  - destruct s as [[] ? ? ?]. split; reflexivity.
  - destruct (total_keeps_run_data (send_705X_XX m a c v) s
                (total_send_705X_XX m a c v) (keeps_send_705X_XX m a c v))
      as (? & s1 & E & S1 & S2).
    rewrite E. cbn [snd]. split; congruence.
  - destruct (total_keeps_run_data (read_7019_2 py_float) s
                (total_read_7019_2 py_float) (keeps_read_7019_2 py_float))
      as (? & s1 & E & S1 & S2).
    rewrite E. cbn [snd]. split; congruence.
Qed.

Lemma analysis_run_data s r s1 :
  analysis s = (r, s1) -> same_run_data s s1.
Proof.
  unfold analysis, get_ctl, lift, modify_ctl, emit. rewrite !run_bind.
  unfold same_run_data. destruct s as [[] ? ? ?].
  destruct (PyNum.py_max _) as [x|e]; intros H; inversion H; subst;
    split; reflexivity.
Qed.

Lemma store_sample_run_data k pr s r s1 :
  store_sample k pr s = (r, s1) ->
  stop_igra (controller s1) = stop_igra (controller s)
  /\ (forall j, j <> k ->
        plus_dim_press (controller s1) !! j = plus_dim_press (controller s) !! j)
  /\ (pr = None -> plus_dim_press (controller s1) = plus_dim_press (controller s)).
Proof.
  destruct pr as [p|].
  - rewrite store_sample_run.
    destruct (k <? length (plus_dim_press (controller s)))%nat;
      intros H; inversion H; subst; clear H.
    + cbn [controller].
      split; [destruct (controller s); reflexivity|].
      split; [|discriminate].
      intros j Hj.
      transitivity (<[k := p]> (plus_dim_press (controller s)) !! j);
        [destruct (controller s); reflexivity|].
      apply list_lookup_insert_ne. congruence.
    + split; [reflexivity|]. split; [reflexivity|discriminate].
  - intros H. inversion H; subst. split; [reflexivity|]. split; reflexivity.
Qed.

Lemma settled_step k l0 a cf :
  settled k l0 cf ->
  settled k l0 (step py_float a cf)
  /\ (steps_left (thread (step py_float a cf))
      <= steps_left (thread cf) - (if is_worker a then 1 else 0))%nat.
Proof.
  unfold settled. intros (Hstop & Hl & Hit & Hst). destruct a as [|g].
  2:{ destruct (gui_step_run_data g (st cf) Hstop) as [G1 G2].
      cbn [step is_worker thread st]. split; [|lia].
      split; [exact G1|]. split; [|split; assumption].
      intros j Hj. rewrite G2. auto. }
  cbn [step is_worker]. destruct cf as [w s]. cbn [thread st] in *.
  assert (Hk : forall k', iteration w = Some k' -> k' = k)
    by (intros k' Hk'; destruct Hit; congruence).
  clear Hit.
  destruct w as [|[|k'|k' pr|k'|k'] rest| |r]; [contradiction|..];
    try (rewrite (Hk k' eq_refl) in *; clear Hk).
  - assert (E : worker_step py_float (mkConfig (Looping Head rest) s)
                = mkConfig AfterLoop s)
      by (destruct rest; [apply step_head_done | now apply step_head_stop]).
    rewrite E. cbn. split; [|lia]. repeat split; auto.
  - destruct (total_keeps_run_data (read_7019_2 py_float) s
                (total_read_7019_2 py_float) (keeps_read_7019_2 py_float))
      as (pr & s1 & E & S1 & S2).
    rewrite (step_reading _ _ _ _ _ E). cbn. split; [|lia].
    split; [congruence|]. split; [|split; [auto|discriminate]].
    intros j Hj. rewrite S2. auto.
  - destruct (store_sample k pr s) as [[[]|e] s1] eqn:E;
      destruct (store_sample_run_data _ _ _ _ _ E) as (S1 & S2 & _).
    + rewrite (step_storing _ _ _ _ _ E). cbn. split; [|lia].
      split; [congruence|]. split; [|split; [auto|discriminate]].
      intros j Hj. rewrite S2 by assumption. auto.
    + rewrite (step_storing_raises _ _ _ _ _ _ E), abort_is_finished.
      cbn. split; [|lia].
      split; [congruence|]. split; [|split; [auto|discriminate]].
      intros j Hj. rewrite S2 by assumption. auto.
  - destruct (total_keeps_run_data pulse_on s total_pulse_on keeps_pulse_on)
      as ([] & s1 & E & S1 & S2).
    rewrite (step_pulse_on _ _ _ _ E). cbn. split; [|lia].
    split; [congruence|]. split; [|split; [auto|discriminate]].
    intros j Hj. rewrite S2. auto.
  - destruct (total_keeps_run_data pulse_off s total_pulse_off keeps_pulse_off)
      as ([] & s1 & E & S1 & S2).
    rewrite (step_pulse_off _ _ _ _ E). cbn. split; [|lia].
    split; [congruence|]. split; [|split; [auto|discriminate]].
    intros j Hj. rewrite S2. auto.
  - rewrite step_after_loop.
    destruct (analysis s) as [[[]|e] s1] eqn:E;
      destruct (analysis_run_data _ _ _ E) as [S1 S2];
      rewrite ?abort_is_finished;
      cbn; (split; [|lia]);
      (split; [congruence|]); (split; [|split; [auto|discriminate]]);
      intros j Hj; rewrite S2; auto.
  - cbn. split; [|lia]. repeat split; auto.
Qed.

Lemma settled_exec k l0 sched :
  forall cf,
    settled k l0 cf ->
    settled k l0 (exec py_float sched cf)
    /\ (steps_left (thread (exec py_float sched cf))
        <= steps_left (thread cf) - worker_actions sched)%nat.
Proof.
  induction sched as [|a sched IH]; intros cf H.
  - rewrite exec_nil. split; [exact H|]. cbn. lia.
  - rewrite exec_cons.
    destruct (settled_step k l0 a cf H) as [H1 L1].
    destruct (IH _ H1) as [H2 L2]. split; [exact H2|].
    unfold worker_actions in *. cbn [List.filter].
    destruct (is_worker a); cbn [length]; lia.
Qed.

Lemma frozen_step l0 a cf :
  frozen l0 cf -> frozen l0 (step py_float a cf).
Proof.
  unfold frozen. intros (Hstop & Hl & Hp). destruct a as [|g].
  2:{ destruct (gui_step_run_data g (st cf) Hstop) as [G1 G2].
      cbn [step thread st]. repeat split; congruence. }
  cbn [step]. destruct cf as [w s]. cbn [thread st] in *.
  destruct w as [|[|k'|k' [p|]|k'|k'] rest| |r]; try discriminate Hp.
  - destruct (total_keeps_run_data setup s total_setup keeps_setup)
      as ([] & s1 & E & S1 & S2).
    rewrite (step_starting _ _ E). repeat split; cbn; congruence.
  - assert (E : worker_step py_float (mkConfig (Looping Head rest) s)
                = mkConfig AfterLoop s)
      by (destruct rest; [apply step_head_done | now apply step_head_stop]).
    rewrite E. repeat split; assumption.
  - rewrite (step_storing _ _ _ _ _ (store_sample_None k' s)).
    repeat split; assumption.
  - destruct (total_keeps_run_data pulse_on s total_pulse_on keeps_pulse_on)
      as ([] & s1 & E & S1 & S2).
    rewrite (step_pulse_on _ _ _ _ E). repeat split; cbn; congruence.
  - destruct (total_keeps_run_data pulse_off s total_pulse_off keeps_pulse_off)
      as ([] & s1 & E & S1 & S2).
    rewrite (step_pulse_off _ _ _ _ E). repeat split; cbn; congruence.
  - rewrite step_after_loop.
    destruct (analysis s) as [[[]|e] s1] eqn:E;
      destruct (analysis_run_data _ _ _ E) as [S1 S2];
      rewrite ?abort_is_finished;
      repeat split; cbn; congruence.
  - repeat split; assumption.
Qed.

Lemma frozen_exec l0 sched :
  forall cf, frozen l0 cf -> frozen l0 (exec py_float sched cf).
Proof.
  induction sched as [|a sched IH]; intros cf H; [exact H|].
  rewrite exec_cons. apply IH, frozen_step, H.
Qed.

Lemma request_stop_run_data s :
  stop_igra (controller (gui_step py_float RequestStop s)) = true
  /\ plus_dim_press (controller (gui_step py_float RequestStop s))
     = plus_dim_press (controller s).
Proof. destruct s as [[] ? ? ?]. split; reflexivity. Qed.

Lemma steps_left_zero w : steps_left w = 0%nat -> exists r, w = Finished r.
Proof.
  destruct w as [|[] ?| |r]; try discriminate. intros _. now exists r.
Qed.

End MachineLemmas.

(** C5 as stated fails: a request that arrives in iteration [k] before
    the read has returned does not keep slot [k] from being written.
    Here the stop flag is set while the worker is about to read in step
    0; the read and the store still run, and slot 0 goes from 0.0 to
    1.5. *)
Lemma stop_request_does_not_freeze_slot_k :
  iteration (thread Example.reading_step_0) = Some 0%nat
  /\ plus_dim_press
       (controller (st (step Example.decimal (Gui RequestStop)
                          Example.reading_step_0))) !! 0%nat
     = Some 0%Q
  /\ plus_dim_press
       (controller (st (exec Example.decimal [Gui RequestStop; Worker; Worker]
                          Example.reading_step_0))) !! 0%nat
     = Some (3 # 2)%Q.
Proof. repeat split; vm_compute; reflexivity. Qed.

(** C5, as the code has it. Let the stop flag be set while the worker
    is inside iteration [k], and let the two threads then run in any
    order. As long as the worker is inside iteration [k] its steps are
    the ones it would have taken without the request (a pulse under way
    is completed); it never enters another iteration; after at most
    six of its own steps it has finished
    (the rest of iteration [k], the stop check, the analysis with the
    [except] and [finally] clauses); and from the request on every slot
    other than [k] keeps its value. Slot [k] keeps it too when the
    request came after the store of iteration [k]. *)
Theorem stop_request_ends_run_at_next_loop_head py_float cf k sched :
  iteration (thread cf) = Some k ->
  let requested := step py_float (Gui RequestStop) cf in
  let cf' := exec py_float sched requested in
  (forall n,
     (forall m, (m < n)%nat ->
        iteration (thread (exec py_float (replicate m Worker) cf)) = Some k) ->
     exec py_float (replicate n Worker) requested
     = step py_float (Gui RequestStop) (exec py_float (replicate n Worker) cf))
  /\ (iteration (thread cf') = Some k \/ iteration (thread cf') = None)
  /\ ((6 <= worker_actions sched)%nat -> exists r, thread cf' = Finished r)
  /\ (forall j, j <> k ->
        plus_dim_press (controller (st cf')) !! j
        = plus_dim_press (controller (st cf)) !! j)
  /\ (past_store (thread cf) = true ->
      plus_dim_press (controller (st cf'))
      = plus_dim_press (controller (st cf))).
Proof.
  intros Hk requested cf'.
  split; [intros n; apply rest_of_iteration_ignores_stop|].
  destruct (request_stop_run_data py_float (st cf)) as [G1 G2].
  assert (S : settled k (plus_dim_press (controller (st cf))) requested).
  { split; [exact G1|]. split; [|split].
    - intros j _. subst requested. cbn [step st]. now rewrite G2.
    - left. exact Hk.
    - subst requested. cbn [step thread]. intros E. rewrite E in Hk.
      discriminate Hk. }
  destruct (settled_exec py_float _ _ sched _ S) as [(_ & Hl & Hit & _) Hn].
  fold cf' in Hl, Hit, Hn.
  split; [exact Hit|]. split; [|split; [exact Hl|]].
  - intros H6. apply steps_left_zero.
    assert (steps_left (thread requested) <= 6)%nat
      by (subst requested; cbn [step thread];
          destruct (thread cf) as [|[] ?| |]; cbn; lia).
    lia.
  - intros Hp.
    assert (F : frozen (plus_dim_press (controller (st cf))) requested).
    { split; [exact G1|]. split; [|exact Hp].
      subst requested. cbn [step st]. exact G2. }
    apply (frozen_exec py_float _ sched) in F. fold cf' in F.
    destruct F as (_ & F & _). exact F.
Qed.

Lemma stop_request_ends_run_at_next_loop_head_witness :
  exists r,
    thread (exec Example.decimal
              [Worker; Gui (GuiSend 7050 1 1 0); Worker; Worker; Gui Poll;
               Worker; Worker; Worker]
              (step Example.decimal (Gui RequestStop) Example.reading_step_0))
    = Finished r.
Proof.
  refine (proj1 (proj2 (proj2
    (stop_request_ends_run_at_next_loop_head Example.decimal
       Example.reading_step_0 0%nat
       [Worker; Gui (GuiSend 7050 1 1 0); Worker; Worker; Gui Poll;
        Worker; Worker; Worker] eq_refl))) _).
  vm_compute. lia.
Defined.

(** * Further properties of the code *)

(** ** The transport *)

(** X1. [send_command] returns [True] exactly when the port is usable
    (an open handle, or the port opens now) and the device accepts the
    write. Then the wire gains the command and nothing else; otherwise
    the wire is as before. Afterwards the controller holds an open
    handle iff the port was usable, and a write was attempted iff it
    was. *)
Theorem send_command_outcome (command : string) (s : State) :
  let r := send_command command s in
  fst r = Ok (gets_through s)
  /\ wire (dev (snd r))
     = (if gets_through s then (wire (dev s) ++ [command])%list
        else wire (dev s))
  /\ ser_ready (controller (snd r)) = usable s
  /\ n_writes (dev (snd r))
     = (if usable s then S (n_writes (dev s)) else n_writes (dev s)).
Proof.
  destruct s as [c d run ev]. destruct c.
  unfold gets_through, usable. run_M. unfold ser_ready, set_ser. cbn.
  repeat split_match; repeat split; try reflexivity; try discriminate;
    assumption.
Qed.

(** X2. [read_7019_2] puts its command, and only that, on the wire when
    the port is usable and the write is accepted, and takes one line
    from the device in exactly that case: a read whose command did not
    get through consumes no response and returns [None]. *)
Theorem read_7019_2_exchange py_float (s : State) :
  let r := read_7019_2 py_float s in
  wire (dev (snd r))
  = (if gets_through s then (wire (dev s) ++ [cmd_7017 (controller s)])%list
     else wire (dev s))
  /\ n_lines (dev (snd r))
     = (if gets_through s then S (n_lines (dev s)) else n_lines (dev s))
  /\ ser_ready (controller (snd r)) = usable s
  /\ (gets_through s = false -> fst r = Ok None).
Proof.
  destruct s as [c d run ev]. destruct c.
  unfold gets_through, usable, cmd_7017. run_M.
  unfold ser_ready, pressure_norm, set_ser, set_pressurePOSLE. cbn.
  repeat split_match; repeat split; try reflexivity; try discriminate;
    assumption.
Qed.

(** X3. [disconnect] closes the handle without touching the device: the
    controller is then not connected, a second [disconnect] changes
    nothing, and the next [send_command] first tries to open the port
    again. *)
Theorem disconnect_then_reconnect (command : string) (s : State) :
  let s1 := snd (disconnect s) in
  fst (disconnect s) = Ok tt
  /\ ser_ready (controller s1) = false
  /\ dev s1 = dev s
  /\ disconnect s1 = (Ok tt, s1)
  /\ n_opens (dev (snd (send_command command s1))) = S (n_opens (dev s))
  /\ fst (send_command command s1)
     = Ok (opens (dev s) (n_opens (dev s))
           && writes (dev s) (n_writes (dev s))).
Proof.
  destruct s as [c d run ev]. destruct c. destruct ser0 as [[id p b y t q o []]|];
    unfold disconnect; run_M; unfold ser_ready, set_ser; cbn;
    repeat split_match; repeat split; reflexivity.
Qed.

(** ** The write frame, read back *)

Section FrameFields.

Import PyStr.

Lemma substring_prefix (s t : string) :
  substring 0 (String.length s) (s ++ t) = s.
Proof.
  induction s as [|c s IH]; simpl.
  - destruct t; reflexivity.
  - now rewrite IH.
Qed.

Lemma substring_skip (s t : string) n :
  substring (String.length s) n (s ++ t) = substring 0 n t.
Proof. induction s as [|c s IH]; simpl; [reflexivity | exact IH]. Qed.

Lemma hex_value_zeros k s : hex_value (zeros k ++ s) = hex_value s.
Proof. induction k as [|k IH]; simpl; [reflexivity | exact IH]. Qed.

(** An in-range field has its exact width and denotes its number. *)
Lemma format_0X_field (w : nat) n :
  (1 <= w)%nat -> 0 <= n < 16 ^ Z.of_nat w ->
  String.length (format_0X w n) = w /\ hex_value (format_0X w n) = n.
Proof.
  intros Hw [Hn Hlt]. split.
  - apply (format_0X_length w n Hw Hn). exact Hlt.
  - unfold format_0X. destruct (n <? 0) eqn:E; [apply Z.ltb_lt in E; lia|].
    simpl. rewrite hex_value_zeros, Z.abs_eq by lia. now apply to_hex_value.
Qed.

End FrameFields.

(** The hex digits at positions 0-3, 4-5, 6-7 and 8-9 of an in-range
    frame denote module id, address, channel and value. *)
Lemma frame_fields_of_cmd (module_id address channel value : Z) :
  0 <= module_id < 65536 -> 0 <= address < 256 ->
  0 <= channel < 256 -> 0 <= value < 256 ->
  frame_fields (cmd_705X_XX module_id address channel value)
  = (module_id, address, channel, value).
Proof.
  intros Hm Ha Hc Hv.
  destruct (format_0X_field 4 module_id ltac:(lia) Hm) as [Lm Vm].
  destruct (format_0X_field 2 address ltac:(lia) Ha) as [La Va].
  destruct (format_0X_field 2 channel ltac:(lia) Hc) as [Lc Vc].
  destruct (format_0X_field 2 value ltac:(lia) Hv) as [Lv Vv].
  unfold frame_fields, cmd_705X_XX.
  set (fm := PyStr.format_0X 4 module_id) in *.
  set (fa := PyStr.format_0X 2 address) in *.
  set (fc := PyStr.format_0X 2 channel) in *.
  set (fv := PyStr.format_0X 2 value) in *.
  assert (E0 : substring 0 4 (fm ++ fa ++ fc ++ fv ++ PyStr.CR) = fm)
    by (rewrite <- Lm at 1; apply substring_prefix).
  assert (E1 : substring 4 2 (fm ++ fa ++ fc ++ fv ++ PyStr.CR) = fa).
  { rewrite <- Lm at 1. rewrite substring_skip.
    rewrite <- La at 1. apply substring_prefix. }
  assert (E2 : substring 6 2 (fm ++ fa ++ fc ++ fv ++ PyStr.CR) = fc).
  { rewrite <- (append_assoc fm fa).
    replace 6%nat with (String.length (fm ++ fa))
      by (rewrite length_append; lia).
    rewrite substring_skip. rewrite <- Lc at 1. apply substring_prefix. }
  assert (E3 : substring 8 2 (fm ++ fa ++ fc ++ fv ++ PyStr.CR) = fv).
  { rewrite <- (append_assoc fa fc), <- (append_assoc fm (fa ++ fc)).
    replace 8%nat with (String.length (fm ++ fa ++ fc))
      by (rewrite !length_append; lia).
    rewrite substring_skip. rewrite <- Lv at 1. apply substring_prefix. }
  rewrite E0, E1, E2, E3. congruence.
Qed.

(** X4. For in-range fields the write frame can be read back: the hex
    digits at their fixed positions denote module id, address, channel
    and value. So two in-range commands with the same frame are the
    same command. *)
Theorem cmd_705X_XX_read_back (m a c v : Z) :
  0 <= m < 65536 -> 0 <= a < 256 -> 0 <= c < 256 -> 0 <= v < 256 ->
  frame_fields (cmd_705X_XX m a c v) = (m, a, c, v)
  /\ forall m' a' c' v',
       0 <= m' < 65536 -> 0 <= a' < 256 -> 0 <= c' < 256 -> 0 <= v' < 256 ->
       cmd_705X_XX m a c v = cmd_705X_XX m' a' c' v' ->
       (m, a, c, v) = (m', a', c', v').
Proof.
  intros Hm Ha Hc Hv. split; [now apply frame_fields_of_cmd|].
  intros m' a' c' v' Hm' Ha' Hc' Hv' E.
  apply (f_equal frame_fields) in E.
  now rewrite !frame_fields_of_cmd in E by assumption.
Qed.

Lemma cmd_705X_XX_read_back_witness :
  frame_fields (cmd_705X_XX 7050 1 6 1) = (7050, 1, 6, 1).
Proof.
  exact (proj1 (cmd_705X_XX_read_back 7050 1 6 1
                  ltac:(lia) ltac:(lia) ltac:(lia) ltac:(lia))).
Defined.

(** ** The loop of the forward test *)

Section LoopSamples.

Variable py_float : string -> option Q.

(** One iteration, split at its four calls. *)
Lemma for_steps_cons k rest s :
  stop_igra (controller s) = false ->
  exists pr s1,
    read_7019_2 py_float s = (Ok pr, s1)
    /\ plus_dim_press (controller s1) = plus_dim_press (controller s)
    /\ ((exists e, store_sample k pr s1 = (Raise e, s1)
                   /\ for_steps py_float (k :: rest) s = (Raise e, s1)
                   /\ loop_reads py_float (k :: rest) s = [pr])
        \/ exists s2 s3 s4,
             store_sample k pr s1 = (Ok tt, s2)
             /\ pulse_on s2 = (Ok tt, s3)
             /\ pulse_off s3 = (Ok tt, s4)
             /\ plus_dim_press (controller s4) = plus_dim_press (controller s2)
             /\ for_steps py_float (k :: rest) s = for_steps py_float rest s4
             /\ loop_reads py_float (k :: rest) s
                = pr :: loop_reads py_float rest s4).
Proof.
  intros Hstop.
  destruct (total_keeps_run_data (read_7019_2 py_float) s
              (total_read_7019_2 py_float) (keeps_read_7019_2 py_float))
    as (pr & s1 & E1 & _ & S1).
  exists pr, s1. split; [exact E1|]. split; [exact S1|].
  cbn [for_steps loop_reads]. unfold get_ctl.
  rewrite !run_bind, Hstop, !run_bind, E1, !run_bind.
  destruct (store_sample k pr s1) as [[[]|e] s2] eqn:E2.
  - right.
    destruct (total_keeps_run_data pulse_on s2 total_pulse_on keeps_pulse_on)
      as ([] & s3 & E3 & _ & S3).
    destruct (total_keeps_run_data pulse_off s3 total_pulse_off keeps_pulse_off)
      as ([] & s4 & E4 & _ & S4).
    exists s2, s3, s4.
    rewrite ?run_bind, E3. cbn beta iota. rewrite ?run_bind, E4.
    repeat split; congruence.
  - left. exists e.
    assert (s2 = s1).
    { destruct pr as [p|]; [|discriminate].
      rewrite store_sample_run in E2.
      destruct (_ <? _)%nat; congruence. }
    subst s2. repeat split.
Qed.

(** The loop writes no slot but those of its steps, and never resizes
    the buffer. *)
Lemma for_steps_touches_its_slots steps :
  forall s r s',
    for_steps py_float steps s = (r, s') ->
    length (plus_dim_press (controller s'))
    = length (plus_dim_press (controller s))
    /\ forall j, ~ In j steps ->
         plus_dim_press (controller s') !! j
         = plus_dim_press (controller s) !! j.
Proof.
  induction steps as [|k rest IH]; intros s r s' E.
  - inversion E; subst. split; [reflexivity | intros; reflexivity].
  - destruct (stop_igra (controller s)) eqn:Hstop.
    { cbn [for_steps] in E. unfold get_ctl in E.
      rewrite run_bind, Hstop in E. inversion E; subst.
      split; [reflexivity | intros; reflexivity]. }
    destruct (for_steps_cons k rest s Hstop)
      as (pr & s1 & E1 & S1 & [(e & E2 & Ef & _)|
                               (s2 & s3 & s4 & E2 & E3 & E4 & S4 & Ef & _)]).
    + rewrite Ef in E. inversion E; subst. rewrite S1.
      split; [reflexivity | intros; reflexivity].
    + rewrite Ef in E. destruct (IH _ _ _ E) as [L H].
      destruct (store_sample_run_data _ _ _ _ _ E2) as (_ & S2 & _).
      assert (L2 : length (plus_dim_press (controller s2))
                   = length (plus_dim_press (controller s1))).
      { destruct pr as [p|]; [|inversion E2; subst; reflexivity].
        apply store_sample_at_step in E2 as (_ & -> & _).
        apply length_insert. }
      split; [congruence|].
      intros j Hj. rewrite H by (intros ?; apply Hj; now right).
      rewrite S4, S2 by (intros ->; apply Hj; now left). now rewrite S1.
Qed.

Lemma for_steps_keeps_reads steps :
  forall s s',
    NoDup steps ->
    for_steps py_float steps s = (Ok tt, s') ->
    forall i k,
      steps !! i = Some k ->
      match loop_reads py_float steps s !! i with
      | Some (Some p) => plus_dim_press (controller s') !! k = Some p
      | _ => plus_dim_press (controller s') !! k
             = plus_dim_press (controller s) !! k
      end.
Proof.
  induction steps as [|k rest IH]; intros s s' ND E i k' Hi; [discriminate|].
  apply NoDup_cons in ND as [Hk ND].
  rewrite list_elem_of_In in Hk.
  destruct (stop_igra (controller s)) eqn:Hstop.
  { cbn [for_steps loop_reads] in *. unfold get_ctl in E.
    rewrite run_bind, Hstop in E. rewrite Hstop.
    inversion E; subst. reflexivity. }
  destruct (for_steps_cons k rest s Hstop)
    as (pr & s1 & E1 & S1 & [(e & E2 & Ef & _)|
                             (s2 & s3 & s4 & E2 & E3 & E4 & S4 & Ef & Er)]);
    [congruence|].
  rewrite Ef in E. rewrite Er.
  destruct (for_steps_touches_its_slots rest _ _ _ E) as [_ Hrest].
  destruct (store_sample_run_data _ _ _ _ _ E2) as (_ & S2 & S2n).
  destruct i as [|i]; cbn [lookup list_lookup] in *.
  - inversion Hi; subst k'. rewrite (Hrest k Hk), S4.
    destruct pr as [p|].
    + now apply store_sample_at_step in E2 as (_ & _ & ->).
    + rewrite S2n by reflexivity. now rewrite S1.
  - specialize (IH _ _ ND E i k' Hi).
    assert (k' <> k).
    { intros ->. apply Hk. eapply list_elem_of_In, list_elem_of_lookup_2, Hi. }
    assert (X : plus_dim_press (controller s4) !! k'
                = plus_dim_press (controller s) !! k')
      by (rewrite S4, S2 by assumption; now rewrite S1).
    destruct (loop_reads py_float rest s4 !! i) as [[p|]|]; congruence.
Qed.

End LoopSamples.

(** X7. When the loop of the forward test ends without an exception,
    the buffer has its old length, every slot whose step's read returned
    a value holds that value, and every other slot (a step whose read
    failed or that was not reached, or an index that is no step) holds
    what it held before. *)
Theorem for_steps_stores_reads py_float (steps : list nat) (s s' : State) :
  NoDup steps ->
  for_steps py_float steps s = (Ok tt, s') ->
  length (plus_dim_press (controller s'))
  = length (plus_dim_press (controller s))
  /\ (forall i k,
        steps !! i = Some k ->
        match loop_reads py_float steps s !! i with
        | Some (Some p) => plus_dim_press (controller s') !! k = Some p
        | _ => plus_dim_press (controller s') !! k
               = plus_dim_press (controller s) !! k
        end)
  /\ (forall j, ~ In j steps ->
        plus_dim_press (controller s') !! j
        = plus_dim_press (controller s) !! j).
Proof.
  intros ND E.
  destruct (for_steps_touches_its_slots py_float steps _ _ _ E) as [L H].
  split; [exact L|]. split; [|exact H].
  now apply for_steps_keeps_reads.
Qed.

Lemma for_steps_stores_reads_witness :
  let s := snd (setup (Example.started (set_plus_step 3 init_controller)
                         Example.two_of_three)) in
  let s' := snd (for_steps Example.decimal (range 3) s) in
  for_steps Example.decimal (range 3) s = (Ok tt, s')
  /\ length (plus_dim_press (controller s'))
     = length (plus_dim_press (controller s))
  /\ (forall i k,
        range 3 !! i = Some k ->
        match loop_reads Example.decimal (range 3) s !! i with
        | Some (Some p) => plus_dim_press (controller s') !! k = Some p
        | _ => plus_dim_press (controller s') !! k
               = plus_dim_press (controller s) !! k
        end)
  /\ (forall j, ~ In j (range 3) ->
        plus_dim_press (controller s') !! j
        = plus_dim_press (controller s) !! j).
Proof.
  intros s s'.
  assert (E : for_steps Example.decimal (range 3) s = (Ok tt, s'))
    by (vm_compute; reflexivity).
  split; [exact E|].
  exact (for_steps_stores_reads Example.decimal (range 3) s s'
           (NoDup_seq 0 3) E).
Defined.

(** ** Whole runs *)

Section WholeRuns.

Variable py_float : string -> option Q.

Lemma no_read_refl s : no_read s s.
Proof. reflexivity. Qed.

Lemma no_read_trans s1 s2 s3 : no_read s1 s2 -> no_read s2 s3 -> no_read s1 s3.
Proof. unfold no_read. congruence. Qed.

Lemma no_read_emit e : keeps no_read (emit e).
Proof. intros s r s' H. inversion H. reflexivity. Qed.

Lemma no_read_send_command cmd : keeps no_read (send_command cmd).
Proof.
  intros [c d run ev] r s'. destruct c. run_M. unfold ser_ready. cbn.
  repeat split_match; intros H; inversion H; reflexivity.
Qed.

Ltac no_read_step :=
  first
    [ apply (keeps_bind _ no_read_trans); [| intros ?]
    | apply no_read_emit
    | apply no_read_send_command
    | apply (keeps_get_ctl _ no_read_refl)
    | apply (keeps_sleep _ no_read_refl)
    | apply (keeps_ret _ no_read_refl) ].

Lemma no_read_setup : keeps no_read setup.
Proof. unfold setup, send_705X_XX. repeat no_read_step. Qed.

Lemma no_read_on_stop : keeps no_read on_stop.
Proof.
  unfold on_stop, send_705X_XX. repeat no_read_step.
  intros s r s' H. inversion H. reflexivity.
Qed.

(** What [analysis] does, by the slice it is given. *)
Lemma analysis_run s :
  analysis s
  = match PyNum.py_max (PyNum.slice_to (plus_dim_press (controller s))
                                        (plus_counter (controller s))) with
    | Ok m =>
        (Ok tt,
         mkState (set_fixed_open m (controller s)) (dev s) (is_test_running s)
                 (events s
                  ++ [CallAfter (CallLogMessage
                        (MsgSummary m (fixed_close (controller s))))]))
    | Raise e => (Raise e, s)
    end.
Proof.
  unfold analysis, get_ctl, lift, modify_ctl, emit. rewrite !run_bind.
  destruct (PyNum.py_max _); reflexivity.
Qed.

(** With the stop flag up the loop does nothing. *)
Lemma for_steps_stopped steps s :
  stop_igra (controller s) = true ->
  for_steps py_float steps s = (Ok tt, s)
  /\ loop_reads py_float steps s = [].
Proof.
  intros H. destruct steps as [|k rest]; [split; reflexivity|].
  cbn [for_steps loop_reads]. unfold get_ctl. rewrite run_bind, H.
  split; reflexivity.
Qed.

(** The [finally] clause always runs. *)
Lemma run_forward_test_clears_running s :
  is_test_running (snd (run_forward_test py_float s)) = false.
Proof.
  rewrite run_forward_test_run.
  destruct (run_forward_test_try py_float s) as [[[]|e] s1]; reflexivity.
Qed.

End WholeRuns.

(** X8. Whatever the device does, [run_forward_test] returns without an
    exception, leaves [is_test_running] false and queues [on_stop] last.
    It never changes the stop flag, the counters, [fixed_close] or the
    length of the sample buffer, and it changes [fixed_open] only when
    its [try] body ran to the end. *)
Theorem run_forward_test_footprint py_float (s : State) :
  let r := run_forward_test py_float s in
  (exists caught, fst r = Ok caught)
  /\ is_test_running (snd r) = false
  /\ last (events (snd r)) = Some (CallAfter CallOnStop)
  /\ stop_igra (controller (snd r)) = stop_igra (controller s)
  /\ plus_counter (controller (snd r)) = plus_counter (controller s)
  /\ minus_counter (controller (snd r)) = minus_counter (controller s)
  /\ fixed_close (controller (snd r)) = fixed_close (controller s)
  /\ length (plus_dim_press (controller (snd r)))
     = length (plus_dim_press (controller s))
  /\ (fst r <> Ok None ->
      fixed_open (controller (snd r)) = fixed_open (controller s)).
Proof.
  intros r. subst r.
  rewrite run_forward_test_run, run_forward_test_try_run.
  destruct (total_setup s) as ([] & s0 & E0). rewrite E0.
  pose proof (keeps_setup s _ _ E0) as ((h0 & p0 & C0) & _).
  destruct (for_steps py_float (range (plus_step (controller s0))) s0)
    as [[[]|e] s1] eqn:E1;
    pose proof (keeps_for_steps py_float _ _ _ _ E1) as ((h1 & p1 & l1 & C1) & _);
    destruct (for_steps_touches_its_slots py_float _ _ _ _ E1) as [L1 _];
    assert (L0 : length (plus_dim_press (controller s0))
                 = length (plus_dim_press (controller s)))
      by (rewrite C0; destruct (controller s); reflexivity).
  - rewrite analysis_run.
    destruct (PyNum.py_max _) as [m|e]; cbn [fst snd finished logged_error
      controller is_test_running events];
      (split; [eexists; reflexivity|]); (split; [reflexivity|]);
      (split; [apply last_snoc|]).
    + assert (L2 : length (plus_dim_press (set_fixed_open m (controller s1)))
                   = length (plus_dim_press (controller s1)))
        by (destruct (controller s1); reflexivity).
      rewrite L2, L1, L0.
      replace (controller s1) with
        (set_plus_dim_press l1 (set_ser h1 (set_pressurePOSLE p1
           (set_ser h0 (set_pressurePOSLE p0 (controller s))))))
        by (rewrite C1, C0; reflexivity).
      destruct (controller s). cbn. repeat split. congruence.
    + rewrite L1, L0, C1, C0. destruct (controller s). cbn. repeat split.
  - cbn [fst snd finished logged_error controller is_test_running events].
    split; [eexists; reflexivity|]. split; [reflexivity|].
    split; [apply last_snoc|].
    rewrite L1, L0, C1, C0. destruct (controller s). cbn. repeat split.
Qed.

(** X9. A run that finds the stop flag up does not sample: it takes no
    line from the device and leaves the samples alone, its six baseline
    writes apart. The flag stays up until [on_forward_test] clears it,
    so a run started after [on_stop] without it samples nothing. *)
Theorem stopped_run_does_not_sample py_float (s : State) :
  stop_igra (controller s) = true ->
  let r := run_forward_test py_float s in
  run_reads py_float s = []
  /\ n_lines (dev (snd r)) = n_lines (dev s)
  /\ plus_dim_press (controller (snd r)) = plus_dim_press (controller s)
  /\ stop_igra (controller (snd r)) = true.
Proof.
  intros Hstop r. subst r. unfold run_reads.
  rewrite run_forward_test_run, run_forward_test_try_run.
  destruct (total_setup s) as ([] & s0 & E0). rewrite E0. cbn [snd].
  pose proof (no_read_setup s _ _ E0) as N0.
  destruct (transport_only_run_data _ _ (keeps_setup s _ _ E0)) as [T0 P0].
  assert (H0 : stop_igra (controller s0) = true) by congruence.
  destruct (for_steps_stopped py_float (range (plus_step (controller s0))) s0 H0)
    as [-> ->].
  cbn [snd]. split; [reflexivity|].
  rewrite analysis_run.
  destruct (PyNum.py_max _) as [m|e];
    cbn [fst snd finished logged_error controller dev];
    (split; [exact N0|]);
    destruct (controller s0); cbn in *; split; congruence.
Qed.

Lemma stopped_run_does_not_sample_witness :
  run_reads Example.decimal
    (snd (on_stop (Example.start init_controller Example.answering)))
  = [].
Proof.
  assert (H : stop_igra (controller
                (snd (on_stop (Example.start init_controller
                                 Example.answering)))) = true)
    by (vm_compute; reflexivity).
  exact (proj1 (stopped_run_does_not_sample Example.decimal _ H)).
Defined.

(** X10. [on_forward_test] refuses to start a second run: while
    [is_test_running] is set it returns without changing anything. When
    it does start a run it clears the stop flag and both counters, a
    repeated call is refused, and once [run_forward_test] has returned
    the next call is accepted again. *)
Theorem on_forward_test_guard py_float (s : State) :
  (is_test_running s = true -> on_forward_test s = (Ok false, s))
  /\ (is_test_running s = false ->
      let s1 := snd (on_forward_test s) in
      fst (on_forward_test s) = Ok true
      /\ stop_igra (controller s1) = false
      /\ plus_counter (controller s1) = 0
      /\ minus_counter (controller s1) = 0
      /\ plus_dim_press (controller s1) = plus_dim_press (controller s)
      /\ on_forward_test s1 = (Ok false, s1)
      /\ fst (on_forward_test (snd (run_forward_test py_float s1))) = Ok true).
Proof.
  split; intros H.
  - unfold on_forward_test, get_running. now rewrite run_bind, H.
  - cbv zeta.
    assert (E : on_forward_test s
                = (Ok true,
                   mkState (set_minus_counter 0 (set_plus_counter 0
                              (set_stop_igra false (controller s))))
                           (dev s) true
                           (events s ++ [LogMessage MsgTestStart])))
      by (unfold on_forward_test, get_running; now rewrite run_bind, H).
    rewrite E. cbn [fst snd controller].
    repeat split; try (destruct (controller s); reflexivity).
    unfold on_forward_test, get_running.
    now rewrite run_bind, run_forward_test_clears_running.
Qed.

(** ** A port in good order *)

Section Healthy.

Variable py_float : string -> option Q.

Lemma healthy_sent command s : healthy s -> healthy (sent command s).
Proof.
  intros [R W]. split; [exact R|]. intros k Hk. apply W. cbn in Hk. lia.
Qed.

Lemma healthy_send_command command s :
  healthy s -> send_command command s = (Ok true, sent command s).
Proof.
  intros [R W]. specialize (W _ (le_n _)).
  destruct s as [c d run ev]. cbn in R, W. unfold sent. run_M.
  rewrite R. cbn. now rewrite W.
Qed.

Lemma healthy_read_7019_2 s :
  healthy s ->
  exists pr s',
    read_7019_2 py_float s = (Ok pr, s')
    /\ healthy s'
    /\ wire (dev s') = (wire (dev s) ++ [cmd_7017 (controller s)])%list
    /\ transport_only s s'.
Proof.
  intros H.
  destruct (total_read_7019_2 py_float s) as (pr & s' & E).
  exists pr, s'. split; [exact E|].
  pose proof (keeps_read_7019_2 py_float _ _ _ E) as T.
  destruct H as [R W]. pose proof (W _ (le_n _)) as W0.
  assert (X : let s1 := snd (read_7019_2 py_float s) in
              ser_ready (controller s1) = true
              /\ n_writes (dev s1) = S (n_writes (dev s))
              /\ wire (dev s1)
                 = (wire (dev s) ++ [cmd_7017 (controller s)])%list).
  { clear E T. destruct s as [c d run ev]. cbn in R, W0. destruct c.
    unfold ser_ready in R. cbn in R.
    match type of R with
    | context [match ?x with _ => _ end] => destruct x as [h|]; [|discriminate R]
    end.
    unfold cmd_7017. run_M. unfold ser_ready. cbn.
    rewrite R. cbn. rewrite W0. cbn.
    unfold pressure_norm, set_pressurePOSLE. cbn.
    repeat split_match; repeat split; try reflexivity; try discriminate;
      assumption. }
  rewrite E in X. cbn [snd] in X.
  destruct X as (R' & N' & W').
  split; [|split; [exact W' | exact T]].
  split; [exact R'|]. intros k Hk.
  destruct T as (_ & _ & _ & -> & _). apply W. lia.
Qed.

Lemma on_stop_is_flag_then_writes s : on_stop s = on_stop_writes (stopped s).
Proof. reflexivity. Qed.

Lemma keeps_on_stop_writes : keeps transport_only on_stop_writes.
Proof. unfold on_stop_writes. repeat frame_step; apply keeps_send_705X_XX. Qed.

Lemma total_on_stop_writes : total on_stop_writes.
Proof.
  unfold on_stop_writes.
  repeat first [ apply total_bind; [| intros ?]
               | apply total_send_705X_XX | apply total_emit
               | apply total_get_ctl ].
Qed.

Lemma iteration_frames_same s s' :
  loop_only s s' ->
  iteration_frames (controller s') = iteration_frames (controller s).
Proof.
  intros ((h & p & l & ->) & _). destruct (controller s); reflexivity.
Qed.

Lemma healthy_store_sample k pr s r s' :
  store_sample k pr s = (r, s') ->
  healthy s ->
  healthy s' /\ dev s' = dev s
  /\ iteration_frames (controller s') = iteration_frames (controller s).
Proof.
  intros E H. destruct pr as [p|].
  - rewrite store_sample_run in E.
    destruct (_ <? _)%nat; inversion E; subst; clear E;
      [|split; [exact H | split; reflexivity]].
    destruct H as [R W]. unfold healthy, ser_ready in *. cbn.
    destruct (controller s); cbn in *. repeat split; assumption.
  - inversion E; subst. split; [exact H | split; reflexivity].
Qed.

Lemma healthy_pulse_on s :
  healthy s ->
  pulse_on s
  = (Ok tt, sent (cmd_705X_XX 7050 (adrDO (controller s))
                    (plusPUMP (controller s)) 1) s).
Proof.
  intros H. unfold pulse_on, get_ctl, sleep, send_705X_XX.
  now rewrite !run_bind, (healthy_send_command _ _ H).
Qed.

Lemma healthy_pulse_off s :
  healthy s ->
  pulse_off s
  = (Ok tt, sent (cmd_705X_XX 7050 (adrDO (controller s))
                    (plusPUMP (controller s)) 0) s).
Proof.
  intros H. unfold pulse_off, get_ctl, sleep, send_705X_XX.
  now rewrite !run_bind, (healthy_send_command _ _ H).
Qed.

Lemma healthy_for_steps steps :
  forall s r s',
    healthy s ->
    for_steps py_float steps s = (r, s') ->
    let n := length (loop_reads py_float steps s) in
    let raised := match r with Ok _ => false | Raise _ => true end in
    healthy s'
    /\ wire (dev s')
       = (wire (dev s) ++ loop_frames (controller s) n raised)%list
    /\ (raised = true -> (1 <= n)%nat).
Proof.
  induction steps as [|k rest IH]; intros s r s' H E; cbv zeta.
  - inversion E; subst. split; [exact H|]. cbn.
    split; [now rewrite app_nil_r | discriminate].
  - destruct (stop_igra (controller s)) eqn:Hstop.
    { cbn [for_steps loop_reads] in *. unfold get_ctl in E.
      rewrite run_bind, Hstop in E. rewrite Hstop. inversion E; subst.
      split; [exact H|]. cbn. split; [now rewrite app_nil_r | discriminate]. }
    destruct (healthy_read_7019_2 s H) as (pr' & s1' & E1' & H1 & W1 & T1).
    assert (F1 : iteration_frames (controller s1')
                 = iteration_frames (controller s))
      by (apply iteration_frames_same, transport_in_loop, T1).
    destruct (for_steps_cons py_float k rest s Hstop)
      as (pr & s1 & E1 & S1 & [(e & E2 & Ef & Er)|
                               (s2 & s3 & s4 & E2 & E3 & E4 & S4 & Ef & Er)]);
      rewrite E1 in E1'; inversion E1'; subst pr' s1'; clear E1';
      rewrite Ef in E; rewrite Er.
    { inversion E; subst. split; [exact H1|]. cbn [length loop_frames pred].
      split; [|intros _; apply le_n]. now rewrite W1. }
    destruct (healthy_store_sample _ _ _ _ _ E2 H1) as (H2 & D2 & F2).
    rewrite (healthy_pulse_on _ H2) in E3. inversion E3 as [E3']. clear E3.
    assert (H3 : healthy s3) by (rewrite <- E3'; now apply healthy_sent).
    rewrite (healthy_pulse_off _ H3) in E4. inversion E4 as [E4']. clear E4.
    assert (H4 : healthy s4) by (rewrite <- E4'; now apply healthy_sent).
    assert (C3 : controller s3 = controller s2) by (now rewrite <- E3').
    assert (C4 : controller s4 = controller s2)
      by (rewrite <- E4'; exact C3).
    pose proof (eq_trans F2 F1) as F12.
    assert (F : iteration_frames (controller s)
                = [cmd_7017 (controller s);
                   cmd_705X_XX 7050 (adrDO (controller s2))
                     (plusPUMP (controller s2)) 1;
                   cmd_705X_XX 7050 (adrDO (controller s2))
                     (plusPUMP (controller s2)) 0]).
    { pose proof (f_equal (fun l => nth 1 l EmptyString) F12) as B.
      pose proof (f_equal (fun l => nth 2 l EmptyString) F12) as C.
      cbv beta in B, C. unfold iteration_frames in *. cbn [nth] in B, C.
      now rewrite B, C. }
    assert (R7 : cmd_7017 (controller s4) = cmd_7017 (controller s)).
    { rewrite C4. exact (f_equal (fun l => nth 0 l EmptyString) F12). }
    assert (W4 : wire (dev s4)
                 = (wire (dev s) ++ iteration_frames (controller s))%list).
    { rewrite <- E4'. cbn [sent dev wire]. rewrite C3.
      rewrite <- E3'. cbn [sent dev wire controller].
      rewrite D2, W1, F, <- !app_assoc. reflexivity. }
    rewrite E4' in *.
    destruct (IH _ _ _ H4 E) as (H' & W' & N'). split; [exact H'|].
    rewrite W', W4. unfold loop_frames. rewrite C4, F12, <- C4, R7.
    cbn [length].
    destruct r as [[]|e].
    + split; [|discriminate]. cbn [replicate concat].
      now rewrite <- !app_assoc.
    + specialize (N' eq_refl). split; [|intros _; lia].
      destruct (length (loop_reads py_float rest s4)) as [|n'] eqn:L; [lia|].
      cbn [pred replicate concat]. now rewrite <- !app_assoc.
Qed.

Lemma healthy_setup s :
  healthy s ->
  exists s0,
    setup s = (Ok tt, s0)
    /\ healthy s0
    /\ controller s0 = controller s
    /\ wire (dev s0) = (wire (dev s) ++ setup_frames (controller s))%list.
Proof.
  intros H. unfold setup, get_ctl, send_705X_XX, sleep, emit.
  rewrite run_bind. cbv beta iota.
  repeat (rewrite run_bind, healthy_send_command;
          [cbv beta iota | repeat apply healthy_sent; exact H]).
  eexists. split; [reflexivity|]. cbn.
  split; [|split; [reflexivity | now rewrite <- !app_assoc]].
  destruct H as [R W]. split; [exact R|]. cbn. intros k Hk. apply W. lia.
Qed.

Lemma run_emit_seq {A} e (k : M A) s : (emit e;; k) s = k (snd (emit e s)).
Proof. reflexivity. Qed.

Lemma healthy_emit e s : healthy s -> healthy (snd (emit e s)).
Proof. intros H. exact H. Qed.

Lemma sent_emit e s : dev (snd (emit e s)) = dev s.
Proof. reflexivity. Qed.

Lemma healthy_on_stop_writes s :
  healthy s ->
  healthy (snd (on_stop_writes s))
  /\ wire (dev (snd (on_stop_writes s)))
     = (wire (dev s) ++ on_stop_frames (controller s))%list.
Proof.
  intros H. unfold on_stop_writes, get_ctl, send_705X_XX.
  rewrite run_bind. cbv beta iota.
  repeat (rewrite run_bind, healthy_send_command;
          [cbv beta iota | repeat apply healthy_sent; exact H]).
  rewrite run_emit_seq. split.
  - do 2 apply healthy_emit. repeat apply healthy_sent. exact H.
  - rewrite !sent_emit. cbn [dev wire sent controller on_stop_frames].
    now rewrite <- !app_assoc.
Qed.

(** [on_stop] after the flag: six calls that cannot raise, then the
    reset of the buttons is queued and the log line written. *)
Lemma on_stop_writes_run s :
  exists s6,
    on_stop_writes s
    = (Ok tt, mkState (controller s6) (dev s6) (is_test_running s6)
                (events s6 ++ [CallAfter CallResetButtons;
                               LogMessage MsgAllStopped]))
    /\ transport_only s s6 /\ no_read s s6.
Proof.
  unfold on_stop_writes, get_ctl. rewrite run_bind. cbv beta iota.
  repeat match goal with
  | |- context [(send_705X_XX ?m ?a ?c ?v ≫= ?k) ?s0] =>
      let s1 := fresh "s" in
      let E := fresh "E" in
      destruct (total_send_705X_XX m a c v s0) as (? & s1 & E);
      pose proof (keeps_send_705X_XX m a c v _ _ _ E);
      pose proof (no_read_send_command _ _ _ _ E);
      rewrite (run_bind (send_705X_XX m a c v) k s0), E; cbv beta iota
  end.
  eexists. split.
  - unfold emit. rewrite run_bind. cbv beta iota.
    cbn [controller dev is_test_running events].
    rewrite <- app_assoc. reflexivity.
  - split.
    + repeat (eapply transport_only_trans; [eassumption|]).
      apply transport_only_refl.
    + unfold no_read in *. congruence.
Qed.

End Healthy.

(** X11. [on_stop] never raises, whatever the port does. It raises the
    stop flag and leaves the samples, the counters, the recorded
    pressures and [is_test_running] as they are; it takes no line from
    the device; and it always ends by queueing [reset_buttons] and
    writing its log line, also when none of its six writes got
    through. *)
Theorem on_stop_effect (s : State) :
  let r := on_stop s in
  fst r = Ok tt
  /\ stop_igra (controller (snd r)) = true
  /\ plus_dim_press (controller (snd r)) = plus_dim_press (controller s)
  /\ plus_counter (controller (snd r)) = plus_counter (controller s)
  /\ fixed_open (controller (snd r)) = fixed_open (controller s)
  /\ fixed_close (controller (snd r)) = fixed_close (controller s)
  /\ is_test_running (snd r) = is_test_running s
  /\ n_lines (dev (snd r)) = n_lines (dev s)
  /\ exists evs,
       events (snd r)
       = (events s ++ evs ++ [CallAfter CallResetButtons;
                              LogMessage MsgAllStopped])%list.
Proof.
  intros r. subst r. rewrite on_stop_is_flag_then_writes.
  destruct (on_stop_writes_run (stopped s)) as (s6 & -> & T & N).
  destruct T as ((h & p & C) & Rn & _ & _ & _ & (evs & V)).
  cbn [fst snd controller dev is_test_running events].
  rewrite C, Rn, V, N. unfold stopped, modify_ctl. cbn [snd controller
    dev is_test_running events].
  destruct (controller s). cbn. repeat split.
  exists evs. now rewrite <- app_assoc.
Qed.

(** X12. On a port in good order [on_stop] puts exactly its six frames
    on the wire, in the order of the source: the four valves and the
    pump start output are written 0, and the last frame writes 1 to the
    minus-frequency output. The port is in good order afterwards. *)
Theorem on_stop_on_healthy_port (s : State) :
  healthy s ->
  healthy (snd (on_stop s))
  /\ wire (dev (snd (on_stop s)))
     = (wire (dev s) ++ on_stop_frames (controller s))%list.
Proof.
  intros H. rewrite on_stop_is_flag_then_writes.
  assert (Hs : healthy (stopped s)).
  { destruct H as [R W]. split; [|exact W].
    unfold stopped, modify_ctl, ser_ready in *. cbn.
    destruct (controller s); exact R. }
  assert (C : on_stop_frames (controller (stopped s))
              = on_stop_frames (controller s))
    by (unfold stopped, modify_ctl; cbn; destruct (controller s); reflexivity).
  rewrite <- C. exact (healthy_on_stop_writes _ Hs).
Qed.

Lemma on_stop_on_healthy_port_witness :
  healthy Example.connected
  /\ wire (dev (snd (on_stop Example.connected)))
     = (wire (dev Example.connected)
        ++ on_stop_frames (controller Example.connected))%list.
Proof.
  assert (H : healthy Example.connected)
    by (split; [vm_compute; reflexivity | intros k _; reflexivity]).
  split; [exact H | exact (proj2 (on_stop_on_healthy_port _ H))].
Defined.

(** ** Timings that are not negative *)

Section Timings.

Variable py_float : string -> option Q.

Lemma sleep_returns (n : Z) :
  0 <= n -> Timed.sleep (inject_Z n / 1000) = sleep (inject_Z n / 1000).
Proof.
  intros H. unfold Timed.sleep, sleep.
  assert (L : (0 <= inject_Z n / 1000)%Q).
  { apply Qle_shift_div_l; [reflexivity|].
    rewrite Qmult_0_l. change 0%Q with (inject_Z 0).
    now rewrite <- Zle_Qle. }
  apply Qle_bool_iff in L. now rewrite L.
Qed.

Lemma pulse_on_returns s :
  timings_ok (controller s) -> Timed.pulse_on s = pulse_on s.
Proof.
  intros [H _]. unfold Timed.pulse_on, pulse_on.
  rewrite !run_get_ctl. now rewrite sleep_returns.
Qed.

Lemma pulse_off_returns s :
  timings_ok (controller s) -> Timed.pulse_off s = pulse_off s.
Proof.
  intros [_ H]. unfold Timed.pulse_off, pulse_off.
  rewrite !run_get_ctl. now rewrite sleep_returns.
Qed.

Lemma timings_kept s s' :
  loop_only s s' -> timings_ok (controller s) -> timings_ok (controller s').
Proof.
  intros ((h & p & l & ->) & _). unfold timings_ok.
  destruct (controller s); exact id.
Qed.

Lemma for_steps_returns steps :
  forall s,
    timings_ok (controller s) ->
    Timed.for_steps py_float steps s = for_steps py_float steps s.
Proof.
  induction steps as [|k rest IH]; intros s T; [reflexivity|].
  cbn [Timed.for_steps for_steps]. rewrite !run_get_ctl.
  destruct (stop_igra (controller s)); [reflexivity|].
  rewrite !run_bind.
  destruct (read_7019_2 py_float s) as [[pr|e] s1] eqn:E1; [|reflexivity].
  assert (T1 : timings_ok (controller s1))
    by (eapply timings_kept, T; eapply transport_in_loop, keeps_read_7019_2, E1).
  rewrite !run_bind.
  destruct (store_sample k pr s1) as [[[]|e] s2] eqn:E2; [|reflexivity].
  assert (T2 : timings_ok (controller s2))
    by (eapply timings_kept, T1; eapply keeps_store_sample, E2).
  rewrite !run_bind, (pulse_on_returns _ T2).
  destruct (pulse_on s2) as [[[]|e] s3] eqn:E3; [|reflexivity].
  assert (T3 : timings_ok (controller s3))
    by (eapply timings_kept, T2; eapply transport_in_loop, keeps_pulse_on, E3).
  rewrite !run_bind, (pulse_off_returns _ T3).
  destruct (pulse_off s3) as [[[]|e] s4] eqn:E4; [|reflexivity].
  apply IH.
  eapply timings_kept, T3; eapply transport_in_loop, keeps_pulse_off, E4.
Qed.

(** With timings that are not negative no [time.sleep] of the run
    raises, and the run is the one written with [sleep]. *)
Lemma run_forward_test_returns s :
  timings_ok (controller s) ->
  Timed.run_forward_test py_float s = run_forward_test py_float s.
Proof.
  intros T.
  assert (E : Timed.run_forward_test_try py_float s
              = run_forward_test_try py_float s).
  { unfold Timed.run_forward_test_try, run_forward_test_try.
    rewrite !run_bind.
    destruct (setup s) as [[[]|e] s0] eqn:E0; [|reflexivity].
    rewrite !run_get_ctl, !run_bind.
    rewrite for_steps_returns; [reflexivity|].
    eapply timings_kept, T. eapply transport_in_loop, keeps_setup, E0. }
  unfold Timed.run_forward_test, run_forward_test, try_except.
  rewrite !run_bind. now rewrite E.
Qed.

End Timings.

(** X13. On a port in good order, and with timings that are not negative,
    a whole forward-test run writes the six baseline frames and then,
    for every iteration it enters, the read command followed by the two
    frames of the frequency pulse. A run that ends on [IndexError] has
    sent the read command of the overflowing step and not its pulse.
    Nothing else goes out, and the port is in good order afterwards. *)
Theorem healthy_run_wire py_float (s : State) :
  healthy s ->
  timings_ok (controller s) ->
  let r := Timed.run_forward_test py_float s in
  let n := length (run_reads py_float s) in
  healthy (snd r)
  /\ wire (dev (snd r))
     = (wire (dev s) ++ setup_frames (controller s)
        ++ loop_frames (controller s) n
             match fst r with
             | Ok (Some IndexError) => true
             | _ => false
             end)%list.
Proof.
  intros H T r n. subst r n. unfold run_reads.
  rewrite (run_forward_test_returns py_float s T).
  rewrite run_forward_test_run, run_forward_test_try_run.
  destruct (healthy_setup s H) as (s0 & E0 & H0 & C0 & W0).
  rewrite E0. cbn [snd]. rewrite C0.
  destruct (for_steps py_float (range (plus_step (controller s))) s0)
    as [r1 s1] eqn:E1.
  destruct (healthy_for_steps py_float _ _ _ _ H0 E1) as (H1 & W1 & _).
  rewrite C0, W0, <- app_assoc in W1.
  destruct r1 as [[]|e].
  - rewrite analysis_run.
    destruct (PyNum.py_max _) as [m|e] eqn:Em;
      cbn [fst snd finished logged_error dev controller].
    + split; [|exact W1].
      destruct H1 as [R1 Wr1]. split; [|exact Wr1].
      unfold ser_ready in *. cbn [controller].
      destruct (controller s1); exact R1.
    + assert (e = ValueError).
      { unfold PyNum.py_max in Em.
        destruct (PyNum.slice_to _ _); now inversion Em. }
      subst e. split; [exact H1 | exact W1].
  - pose proof (for_steps_raises py_float _ _ _ _ E1). subst e.
    cbn [fst snd finished logged_error dev controller].
    split; [exact H1 | exact W1].
Qed.

Lemma healthy_run_wire_witness :
  let s := snd (on_forward_test Example.connected) in
  healthy s
  /\ timings_ok (controller s)
  /\ let r := Timed.run_forward_test Example.decimal s in
     let n := length (run_reads Example.decimal s) in
     healthy (snd r)
     /\ wire (dev (snd r))
        = (wire (dev s) ++ setup_frames (controller s)
           ++ loop_frames (controller s) n
                match fst r with
                | Ok (Some IndexError) => true
                | _ => false
                end)%list.
Proof.
  intros s.
  assert (H : healthy s)
    by (split; [vm_compute; reflexivity | intros k _; reflexivity]).
  assert (T : timings_ok (controller s)) by (split; discriminate).
  split; [exact H|]. split; [exact T|].
  exact (healthy_run_wire Example.decimal s H T).
Defined.

(** ** What the transport prints *)

Section Prints.

Variable py_float : string -> option Q.

Lemma prints_only_refl s : prints_only s s.
Proof. exists []. split; [now rewrite app_nil_r | constructor]. Qed.

Lemma prints_only_trans s1 s2 s3 :
  prints_only s1 s2 -> prints_only s2 s3 -> prints_only s1 s3.
Proof.
  intros (e1 & E1 & F1) (e2 & E2 & F2). exists (e1 ++ e2)%list.
  split; [rewrite E2, E1; now rewrite app_assoc | now apply Forall_app].
Qed.

Ltac prints_here :=
  unfold prints_only; cbn [events];
  first
    [ exists []; split; [symmetry; apply app_nil_r | constructor]
    | eexists [_]; split; [reflexivity | repeat constructor]
    | eexists [_; _]; split;
        [rewrite <- app_assoc; reflexivity | repeat constructor] ].

Lemma prints_only_send_command cmd : keeps prints_only (send_command cmd).
Proof.
  intros [c d run ev] r s'. destruct c. run_M. unfold ser_ready. cbn.
  repeat split_match; intros H; inversion H; prints_here.
Qed.

Lemma prints_only_read_7019_2 : keeps prints_only (read_7019_2 py_float).
Proof.
  intros [c d run ev] r s'. destruct c. run_M.
  unfold ser_ready, pressure_norm, set_ser, set_pressurePOSLE. cbn.
  repeat split_match; intros H; inversion H; prints_here.
Qed.

Lemma prints_only_pulse_on : keeps prints_only pulse_on.
Proof.
  unfold pulse_on, send_705X_XX.
  apply (keeps_bind _ prints_only_trans);
    [apply (keeps_get_ctl _ prints_only_refl) | intros c].
  apply (keeps_bind _ prints_only_trans);
    [apply prints_only_send_command | intros _].
  apply (keeps_sleep _ prints_only_refl).
Qed.

Lemma prints_only_pulse_off : keeps prints_only pulse_off.
Proof.
  unfold pulse_off, send_705X_XX.
  apply (keeps_bind _ prints_only_trans);
    [apply (keeps_get_ctl _ prints_only_refl) | intros c].
  apply (keeps_bind _ prints_only_trans);
    [apply prints_only_send_command | intros _].
  apply (keeps_sleep _ prints_only_refl).
Qed.

Lemma queued_app evs1 evs2 :
  queued (evs1 ++ evs2) = (queued evs1 ++ queued evs2)%list.
Proof.
  induction evs1 as [|[h e|c|m] evs1 IH]; cbn; [reflexivity | | |];
    now rewrite ?IH.
Qed.

Lemma queued_prints evs : Forall is_print evs -> queued evs = [].
Proof.
  induction 1 as [|[h e|c|m] evs H _ IH]; cbn in *;
    [reflexivity | exact IH | contradiction | contradiction].
Qed.

Lemma prints_no_call evs call :
  Forall is_print evs -> ~ In (CallAfter call) evs.
Proof.
  intros F I. rewrite Forall_forall in F.
  apply list_elem_of_In in I. exact (F _ I).
Qed.

(** The events a state gained since an earlier one. *)
Lemma drop_events s evs l :
  l = (events s ++ evs)%list -> drop (length (events s)) l = evs.
Proof. intros ->. now rewrite drop_app_length. Qed.

(** A store queues a graph update only for its own step, and only for
    a slot the buffer has. *)
Lemma store_sample_events k pr s s2 :
  store_sample k pr s = (Ok tt, s2) ->
  length (plus_dim_press (controller s2))
  = length (plus_dim_press (controller s))
  /\ exists evs,
       events s2 = (events s ++ evs)%list
       /\ forall k' p,
            In (CallAfter (CallUpdateGraph k' p)) evs ->
            k' = k /\ (k < length (plus_dim_press (controller s)))%nat.
Proof.
  intros E. destruct pr as [p|].
  - rewrite store_sample_run in E.
    destruct (k <? length (plus_dim_press (controller s)))%nat eqn:Hlt;
      inversion E; subst; clear E. cbn [controller events].
    apply Nat.ltb_lt in Hlt. split.
    + destruct (controller s); cbn in *. apply length_insert.
    + eexists. split; [reflexivity|].
      intros k' p' [I|[I|[]]]; inversion I; subst. now split.
  - inversion E; subst. split; [reflexivity|].
    exists []. split; [now rewrite app_nil_r | intros ? ? []].
Qed.

(** Every graph update the loop queues is for one of its steps and for
    a slot the buffer has. *)
Lemma for_steps_graph_calls steps :
  forall s r s',
    for_steps py_float steps s = (r, s') ->
    exists evs,
      events s' = (events s ++ evs)%list
      /\ forall k p,
           In (CallAfter (CallUpdateGraph k p)) evs ->
           In k steps
           /\ (k < length (plus_dim_press (controller s)))%nat.
Proof.
  induction steps as [|k rest IH]; intros s r s' E.
  - inversion E; subst. exists []. split; [now rewrite app_nil_r|].
    intros ? ? [].
  - destruct (stop_igra (controller s)) eqn:Hstop.
    { cbn [for_steps] in E. unfold get_ctl in E.
      rewrite run_bind, Hstop in E. inversion E; subst.
      exists []. split; [now rewrite app_nil_r|]. intros ? ? []. }
    destruct (for_steps_cons py_float k rest s Hstop)
      as (pr & s1 & E1 & S1 & [(e & E2 & Ef & _)|
                               (s2 & s3 & s4 & E2 & E3 & E4 & S4 & Ef & _)]);
      destruct (prints_only_read_7019_2 _ _ _ E1) as (ev1 & V1 & P1);
      rewrite Ef in E.
    { inversion E; subst. exists ev1. split; [exact V1|].
      intros k' p I. now apply prints_no_call in I. }
    destruct (store_sample_events _ _ _ _ E2) as (L2 & ev2 & V2 & G2).
    destruct (prints_only_pulse_on _ _ _ E3) as (ev3 & V3 & P3).
    destruct (prints_only_pulse_off _ _ _ E4) as (ev4 & V4 & P4).
    destruct (IH _ _ _ E) as (ev5 & V5 & G5).
    exists (ev1 ++ ev2 ++ ev3 ++ ev4 ++ ev5)%list. split.
    + rewrite V5, V4, V3, V2, V1, <- !app_assoc. reflexivity.
    + intros k' p I. rewrite !in_app_iff in I.
      destruct I as [I|[I|[I|[I|I]]]].
      * now apply prints_no_call in I.
      * destruct (G2 _ _ I) as [-> Hk]. split; [now left|].
        now rewrite <- S1.
      * now apply prints_no_call in I.
      * now apply prints_no_call in I.
      * destruct (G5 _ _ I) as [Hin Hk]. split; [now right|].
        now rewrite <- S1, <- L2, <- S4.
Qed.

End Prints.

(** X15. The graph updates a forward-test loop queues fit the buffer: each
    is for a step of the loop whose slot exists, so that [update_graph],
    run in the state the loop ends in, hands the plot as many ordinates
    as abscissae, one per step up to its own. *)
Theorem graph_updates_fit py_float (steps : list nat) (s s' : State)
    (r : result unit) (w : Widgets) (k : nat) (p : Q) :
  for_steps py_float steps s = (r, s') ->
  In (CallAfter (CallUpdateGraph k p))
     (drop (length (events s)) (events s')) ->
  In k steps
  /\ exists xs ys,
       update_graph k p w s' = (Ok (set_line_data (xs, ys) w), s')
       /\ length xs = S k
       /\ length ys = S k.
Proof.
  intros E I.
  destruct (for_steps_graph_calls py_float steps _ _ _ E) as (evs & V & G).
  rewrite (drop_events s evs _ V) in I.
  destruct (G _ _ I) as [Hin Hk]. split; [exact Hin|].
  destruct (for_steps_touches_its_slots py_float steps _ _ _ E) as [L _].
  eexists _, _. split; [reflexivity|].
  split; [rewrite length_seq; lia|].
  unfold PyNum.slice_to.
  destruct (Z.of_nat k + 1 <? 0) eqn:Hneg; [lia|].
  rewrite length_take, L. lia.
Qed.

Lemma graph_updates_fit_witness :
  let s := snd (setup (Example.started (set_plus_step 3 init_controller)
                         Example.two_of_three)) in
  let s' := snd (for_steps Example.decimal (range 3) s) in
  In 2%nat (range 3)
  /\ exists xs ys,
       update_graph 2 4%Q init_widgets s'
       = (Ok (set_line_data (xs, ys) init_widgets), s')
       /\ length xs = 3%nat
       /\ length ys = 3%nat.
Proof.
  intros s s'.
  assert (E : for_steps Example.decimal (range 3) s = (Ok tt, s'))
    by (vm_compute; reflexivity).
  assert (I : In (CallAfter (CallUpdateGraph 2 4%Q))
                 (drop (length (events s)) (events s')))
    by (vm_compute; tauto).
  exact (graph_updates_fit Example.decimal (range 3) s s' (Ok tt)
           init_widgets 2%nat 4%Q E I).
Defined.

(** ** The handlers of the panel *)

Section PanelRuns.

Variable py_float : string -> option Q.

Lemma send_705X_XX_wire m a c v s :
  fst (send_705X_XX m a c v s) = Ok (gets_through s)
  /\ wire (dev (snd (send_705X_XX m a c v s)))
     = (if gets_through s then (wire (dev s) ++ [cmd_705X_XX m a c v])%list
        else wire (dev s)).
Proof.
  unfold send_705X_XX. generalize (cmd_705X_XX m a c v). intros command.
  destruct s as [c0 d run ev]. destruct c0.
  unfold gets_through, usable. run_M. unfold ser_ready, set_ser. cbn.
  repeat split_match; repeat split; try reflexivity; try discriminate;
    assumption.
Qed.

Lemma healthy_send_705X_XX m a c v s :
  healthy s ->
  send_705X_XX m a c v s = (Ok true, sent (cmd_705X_XX m a c v) s).
Proof. apply healthy_send_command. Qed.

Lemma on_pump_toggle_run w s :
  on_pump_toggle w s
  = (Ok (if Colour_eqb (btn_pump w) green
         then log_message LinePumpStarted
                (set_btn_pump red LabelStopPump w)
         else log_message LinePumpStopped
                (set_btn_pump green LabelStartPump w)),
     snd (send_705X_XX 7050 (adrDO (controller s)) (startPUMP (controller s))
            (toggle_value (Colour_eqb (btn_pump w) green)) s)).
Proof.
  unfold on_pump_toggle, get_ctl. rewrite run_bind. cbv beta iota.
  destruct (Colour_eqb (btn_pump w) green); cbn [toggle_value];
    rewrite run_bind;
    match goal with
    | |- context [send_705X_XX ?m ?a ?c ?v ?s0] =>
        destruct (total_send_705X_XX m a c v s0) as (b & s1 & ->)
    end; reflexivity.
Qed.

Lemma toggle_valve_run btn valve_num name w s :
  toggle_valve btn valve_num name w s
  = (Ok (if Colour_eqb (GetBackgroundColour btn w) red
         then log_message (LineValveOpened name)
                (SetBackgroundColour btn green w)
         else log_message (LineValveClosed name)
                (SetBackgroundColour btn red w)),
     snd (send_705X_XX 7050 (adrDO (controller s)) valve_num
            (toggle_value (Colour_eqb (GetBackgroundColour btn w) red)) s)).
Proof.
  unfold toggle_valve, get_ctl. rewrite run_bind. cbv beta iota.
  destruct (Colour_eqb (GetBackgroundColour btn w) red); cbn [toggle_value];
    rewrite run_bind;
    match goal with
    | |- context [send_705X_XX ?m ?a ?c ?v ?s0] =>
        destruct (total_send_705X_XX m a c v s0) as (b & s1 & ->)
    end; reflexivity.
Qed.

Lemma on_to_forward_run w s :
  on_to_forward w s
  = toggle_valve BtnToForward (valve1 (controller s)) NameToForward w s.
Proof. reflexivity. Qed.

Lemma on_from_forward_run w s :
  on_from_forward w s
  = toggle_valve BtnFromForward (valve3 (controller s)) NameFromForward w s.
Proof. reflexivity. Qed.

Lemma healthy_setup_events s :
  healthy s ->
  events (snd (setup s))
  = (events s ++ [CallAfter CallOnPumpToggle; CallAfter CallOnToForward;
                  CallAfter CallOnFromForward])%list.
Proof.
  intros H. unfold setup, get_ctl, send_705X_XX, sleep.
  rewrite run_bind. cbv beta iota.
  repeat (rewrite run_bind, healthy_send_command;
          [cbv beta iota | repeat apply healthy_sent; exact H]).
  unfold emit. rewrite !run_bind. cbv beta iota.
  cbn [snd events sent]. now rewrite <- !app_assoc.
Qed.

(** The events of [on_stop]: what its writes print, then the queued
    reset and the log line. *)
Lemma on_stop_events s :
  exists evs,
    events (snd (on_stop s))
    = (events s ++ evs ++ [CallAfter CallResetButtons;
                           LogMessage MsgAllStopped])%list
    /\ Forall is_print evs.
Proof.
  rewrite on_stop_is_flag_then_writes.
  change (events s) with (events (stopped s)).
  generalize (stopped s). clear s. intros s.
  unfold on_stop_writes, get_ctl. rewrite run_bind. cbv beta iota.
  repeat match goal with
  | |- context [(send_705X_XX ?m ?a ?c ?v ≫= ?k) ?s1] =>
      let s2 := fresh "s" in
      let E := fresh "E" in
      destruct (total_send_705X_XX m a c v s1) as (? & s2 & E);
      pose proof (prints_only_send_command _ _ _ _ E);
      rewrite (run_bind (send_705X_XX m a c v) k s1), E; cbv beta iota
  end.
  match goal with
  | |- context [(emit _ ≫= _) ?sN] =>
      assert (P : prints_only s sN)
        by (repeat (eapply prints_only_trans; [eassumption|]);
            apply prints_only_refl)
  end.
  destruct P as (evs & V & F). exists evs. split; [|exact F].
  unfold emit. rewrite run_bind. cbv beta iota. cbn [snd events].
  rewrite V, <- !app_assoc. reflexivity.
Qed.

End PanelRuns.

(** X16. [on_pump_toggle] never raises and flips the pump button whatever
    the port does: a green button turns red, is relabelled and logged as
    started, any other turns green and is logged as stopped, and the
    panel it leaves is the same for every state of the port. The frame
    it writes carries 1 exactly for a green button, and reaches the wire
    only when the command gets through. *)
Theorem on_pump_toggle_outcome (w : Widgets) (s : State) :
  let off := Colour_eqb (btn_pump w) green in
  let r := on_pump_toggle w s in
  exists w',
    fst r = Ok w'
    /\ btn_pump w' = (if off then red else green)
    /\ btn_pump_label w' = (if off then LabelStopPump else LabelStartPump)
    /\ text_memo w'
       = (text_memo w ++ [if off then LinePumpStarted else LinePumpStopped])%list
    /\ wire (dev (snd r))
       = (if gets_through s
          then (wire (dev s)
                ++ [cmd_705X_XX 7050 (adrDO (controller s))
                      (startPUMP (controller s)) (toggle_value off)])%list
          else wire (dev s))
    /\ forall s2, fst (on_pump_toggle w s2) = Ok w'.
Proof.
  intros off r. subst r. rewrite on_pump_toggle_run. fold off.
  eexists. split; [reflexivity|]. cbn [fst snd].
  destruct (send_705X_XX_wire 7050 (adrDO (controller s))
              (startPUMP (controller s)) (toggle_value off) s) as [_ W].
  repeat split; try (destruct off; reflexivity); [exact W|].
  intros s2. now rewrite on_pump_toggle_run.
Qed.

(** X17. [toggle_valve] never raises and flips its button whatever the
    port does: a red button turns green and is logged as opened, any
    other turns red and is logged as closed; the other buttons keep
    their colour, and the panel it leaves is the same for every state
    of the port. The frame it writes carries 1 exactly for a red
    button, and reaches the wire only when the command gets through. *)
Theorem toggle_valve_outcome (btn : valve_button) (valve_num : Z)
    (name : valve_name) (w : Widgets) (s : State) :
  let closed := Colour_eqb (GetBackgroundColour btn w) red in
  let r := toggle_valve btn valve_num name w s in
  exists w',
    fst r = Ok w'
    /\ GetBackgroundColour btn w' = (if closed then green else red)
    /\ (forall b, b <> btn ->
          GetBackgroundColour b w' = GetBackgroundColour b w)
    /\ btn_pump w' = btn_pump w
    /\ text_memo w'
       = (text_memo w ++ [if closed then LineValveOpened name
                          else LineValveClosed name])%list
    /\ wire (dev (snd r))
       = (if gets_through s
          then (wire (dev s)
                ++ [cmd_705X_XX 7050 (adrDO (controller s)) valve_num
                      (toggle_value closed)])%list
          else wire (dev s))
    /\ forall s2, fst (toggle_valve btn valve_num name w s2) = Ok w'.
Proof.
  intros closed r. subst r. rewrite toggle_valve_run. fold closed.
  eexists. split; [reflexivity|]. cbn [fst snd].
  destruct (send_705X_XX_wire 7050 (adrDO (controller s)) valve_num
              (toggle_value closed) s) as [_ W].
  split; [destruct closed, btn; reflexivity|].
  split; [intros b Hb; destruct closed, btn, b; try reflexivity;
          now contradiction Hb|].
  split; [destruct closed, btn; reflexivity|].
  split; [destruct closed, btn; reflexivity|].
  split; [exact W|].
  intros s2. now rewrite toggle_valve_run.
Qed.

Ltac panel_cbn :=
  cbn [btn_pump btn_to_forward btn_from_forward btn_to_revers
       btn_from_revers log_message set_btn_pump SetBackgroundColour
       set_btn_to_forward set_btn_from_forward].

(** X18. On a port in good order the baseline writes of [run_forward_test]
    queue three calls, [on_pump_toggle], [on_to_forward] and
    [on_from_forward]. Run next, each writes the value its button's
    colour decides, not the value the test needs: the pump output gets 1
    only if the pump button is green, [valve1] and [valve3] get 1 only
    if their buttons are red. A button that showed "on" when the test
    started makes the test switch its output off. *)
Theorem forward_test_toggles_the_panel (w : Widgets) (s : State) :
  healthy s ->
  let c := controller s in
  let s0 := snd (setup s) in
  let pump_off := Colour_eqb (btn_pump w) green in
  let to_closed := Colour_eqb (btn_to_forward w) red in
  let from_closed := Colour_eqb (btn_from_forward w) red in
  let calls := queued (drop (length (events s)) (events s0)) in
  calls = [CallOnPumpToggle; CallOnToForward; CallOnFromForward]
  /\ exists w',
       fst (run_calls calls w s0) = Ok w'
       /\ wire (dev (snd (run_calls calls w s0)))
          = (wire (dev s) ++ setup_frames c
             ++ [cmd_705X_XX 7050 (adrDO c) (startPUMP c)
                   (toggle_value pump_off);
                 cmd_705X_XX 7050 (adrDO c) (valve1 c)
                   (toggle_value to_closed);
                 cmd_705X_XX 7050 (adrDO c) (valve3 c)
                   (toggle_value from_closed)])%list
       /\ btn_pump w' = (if pump_off then red else green)
       /\ btn_to_forward w' = (if to_closed then green else red)
       /\ btn_from_forward w' = (if from_closed then green else red)
       /\ btn_to_revers w' = btn_to_revers w
       /\ btn_from_revers w' = btn_from_revers w.
Proof.
  intros H c s0 pump_off to_closed from_closed calls.
  assert (Ec : calls = [CallOnPumpToggle; CallOnToForward; CallOnFromForward]).
  { subst calls s0.
    rewrite (drop_events s _ _ (healthy_setup_events s H)). reflexivity. }
  split; [exact Ec|]. rewrite Ec. clear Ec calls.
  destruct (healthy_setup s H) as (s1 & E0 & H0 & C0 & W0).
  subst s0. rewrite E0. cbn [snd].
  cbn [run_calls run_call]. rewrite run_bind, on_pump_toggle_run.
  cbv beta iota. rewrite healthy_send_705X_XX by exact H0. cbn [snd].
  rewrite run_bind, on_to_forward_run, toggle_valve_run.
  cbv beta iota.
  rewrite healthy_send_705X_XX by (apply healthy_sent; exact H0).
  cbn [snd]. rewrite run_bind, on_from_forward_run, toggle_valve_run.
  cbv beta iota.
  rewrite healthy_send_705X_XX by (do 2 apply healthy_sent; exact H0).
  cbn [snd]. rewrite run_ret.
  cbn [fst snd sent controller dev wire GetBackgroundColour].
  rewrite W0, C0. fold c. subst pump_off to_closed from_closed.
  eexists. split; [reflexivity|].
  destruct (Colour_eqb (btn_pump w) green); panel_cbn;
    destruct (Colour_eqb (btn_to_forward w) red); panel_cbn;
    destruct (Colour_eqb (btn_from_forward w) red); panel_cbn;
    rewrite <- ?app_assoc; repeat split; reflexivity.
Qed.

Lemma forward_test_toggles_the_panel_witness :
  let w := set_btn_pump red LabelStopPump init_widgets in
  let s := Example.connected in
  healthy s
  /\ exists w',
       fst (run_calls [CallOnPumpToggle; CallOnToForward; CallOnFromForward]
              w (snd (setup s))) = Ok w'
       /\ btn_pump w' = green.
Proof.
  intros w s.
  assert (H : healthy s)
    by (split; [vm_compute; reflexivity | intros k _; reflexivity]).
  split; [exact H|].
  destruct (forward_test_toggles_the_panel w s H) as (Ec & w' & E & _ & P & _).
  rewrite Ec in E. exists w'. split; [exact E | exact P].
Defined.

(** X19. [on_stop] queues exactly one call, [reset_buttons], whatever
    the port does. That call puts the pump button back to green with
    its start label and every valve button back to red, which is how
    [init_ui] creates them, and touches nothing else on the panel. *)
Theorem on_stop_resets_the_panel (w : Widgets) (s : State) :
  let s1 := snd (on_stop s) in
  let calls := queued (drop (length (events s)) (events s1)) in
  calls = [CallResetButtons]
  /\ run_calls calls w s1 = (Ok (reset_buttons w), s1)
  /\ btn_pump (reset_buttons w) = btn_pump init_widgets
  /\ btn_pump_label (reset_buttons w) = btn_pump_label init_widgets
  /\ (forall btn,
        GetBackgroundColour btn (reset_buttons w)
        = GetBackgroundColour btn init_widgets)
  /\ txt_pressure (reset_buttons w) = txt_pressure w
  /\ text_memo (reset_buttons w) = text_memo w
  /\ line_data (reset_buttons w) = line_data w
  /\ later (reset_buttons w) = later w.
Proof.
  intros s1 calls.
  assert (Ec : calls = [CallResetButtons]).
  { subst calls s1. destruct (on_stop_events s) as (evs & V & F).
    rewrite (drop_events s _ _ V), queued_app, (queued_prints _ F).
    reflexivity. }
  split; [exact Ec|]. rewrite Ec.
  split; [reflexivity|].
  repeat split.
Qed.

(** X20. The two pressure handlers never raise. After a read that
    returned a value the pressure field shows that value, which is
    [pressurePOSLE]; [on_read_pressure] logs it and [on_timer] does not.
    After a read that returned [None] the panel is as it was: the field
    keeps the last value and nothing is logged. *)
Theorem pressure_display py_float (w : Widgets) (s : State) :
  let r := read_7019_2 py_float s in
  exists pressure,
    fst r = Ok pressure
    /\ match pressure with
       | Some p =>
           on_timer py_float w s
           = (Ok (set_txt_pressure (Text2f p) w), snd r)
           /\ on_read_pressure py_float w s
              = (Ok (log_message (LineCurrentPressure p)
                       (set_txt_pressure (Text2f p) w)), snd r)
           /\ pressurePOSLE (controller (snd r)) = p
       | None =>
           on_timer py_float w s = (Ok w, snd r)
           /\ on_read_pressure py_float w s = (Ok w, snd r)
       end.
Proof.
  intros r. subst r.
  pose proof (read_7019_2_inv py_float s) as I. cbv zeta in I.
  unfold on_timer, on_read_pressure. rewrite !run_bind.
  destruct (read_7019_2 py_float s) as [[[p|]|e] s1];
    cbn [fst snd] in *; [| |contradiction].
  - exists (Some p). split; [reflexivity|].
    destruct I as (? & ? & ? & ? & I). repeat split. apply I.
  - exists None. repeat split.
Qed.

(** X21. [on_close] never raises. It stops the timer, closes the handle
    and destroys the frame, and that is all: it writes nothing to the
    device, so no output is switched off, and it neither sets the stop
    flag nor clears [is_test_running], so a running test is not told to
    stop. *)
Theorem on_close_effect (w : Widgets) (s : State) :
  let r := on_close w s in
  fst r = Ok (Destroy (set_timer_running false w))
  /\ ser_ready (controller (snd r)) = false
  /\ dev (snd r) = dev s
  /\ stop_igra (controller (snd r)) = stop_igra (controller s)
  /\ is_test_running (snd r) = is_test_running s
  /\ plus_dim_press (controller (snd r)) = plus_dim_press (controller s)
  /\ events (snd r) = events s.
Proof.
  destruct s as [c d run ev]. destruct c.
  destruct ser0 as [[id p b y t q o []]|];
    unfold on_close, disconnect; run_M; unfold ser_ready, set_ser; cbn;
    repeat split; reflexivity.
Qed.

(** X22. On a port in good order [on_plus_frequency] writes 1 to the
    plus output and schedules one call after [plus_minus_time]
    milliseconds; when that call runs it writes 0 to the same output.
    [on_minus_frequency] does the same on the minus output. Each pulse
    is two frames, and nothing else goes out. *)
Theorem frequency_pulse (w : Widgets) (s : State) :
  healthy s ->
  let c := controller s in
  let pulse (handler : Widgets -> M Widgets) (f : later_call) (line : memo_line)
            (channel : Z) :=
    exists s1,
      handler w s
      = (Ok (log_message line (CallLater (plus_minus_time c) f w)), s1)
      /\ wire (dev s1)
         = (wire (dev s) ++ [cmd_705X_XX 7050 (adrDO c) channel 1])%list
      /\ fst (run_later f s1) = Ok true
      /\ wire (dev (snd (run_later f s1)))
         = (wire (dev s)
            ++ [cmd_705X_XX 7050 (adrDO c) channel 1;
                cmd_705X_XX 7050 (adrDO c) channel 0])%list in
  pulse on_plus_frequency LaterPlusPumpOff LineFrequencyUp (plusPUMP c)
  /\ pulse on_minus_frequency LaterMinusPumpOff LineFrequencyDown
        (minusPUMP c).
Proof.
  intros H c pulse. subst pulse. cbv beta.
  split;
    [exists (sent (cmd_705X_XX 7050 (adrDO c) (plusPUMP c) 1) s)
    |exists (sent (cmd_705X_XX 7050 (adrDO c) (minusPUMP c) 1) s)];
    (split;
     [unfold on_plus_frequency, on_minus_frequency;
      rewrite run_get_ctl, run_bind, healthy_send_705X_XX by exact H;
      cbv beta iota; rewrite run_get_ctl, run_ret; reflexivity|]);
    (split; [reflexivity|]);
    unfold run_later; rewrite run_get_ctl;
    rewrite healthy_send_705X_XX by (apply healthy_sent; exact H);
    (split; [reflexivity|]);
    cbn [snd sent dev wire controller]; now rewrite <- app_assoc.
Qed.

Lemma frequency_pulse_witness :
  healthy Example.connected
  /\ exists s1,
       on_plus_frequency init_widgets Example.connected
       = (Ok (log_message LineFrequencyUp
                (CallLater 100 LaterPlusPumpOff init_widgets)), s1)
       /\ wire (dev (snd (run_later LaterPlusPumpOff s1)))
          = (wire (dev Example.connected)
             ++ [cmd_705X_XX 7050 1 6 1; cmd_705X_XX 7050 1 6 0])%list.
Proof.
  assert (H : healthy Example.connected)
    by (split; [vm_compute; reflexivity | intros k _; reflexivity]).
  split; [exact H|].
  destruct (frequency_pulse init_widgets Example.connected H)
    as [(s1 & E & _ & _ & W) _].
  exists s1. split; [exact E | exact W].
Defined.

(** X23. Building the frame never raises, whatever the port does: the
    panel is created, the first log line tells whether the port opened,
    and the timer runs. Nothing is written to the device. When the port
    did not open, the first timer tick tries to open it again. *)
Theorem startup_retries_connection py_float (d : Device) :
  let s := mkState init_controller d false [] in
  let opened := opens d (n_opens d) in
  let r := init_frame s in
  exists w,
    fst r = Ok w
    /\ timer_running w = true
    /\ text_memo w = [if opened then LineConnected else LineConnectFailed]
    /\ btn_pump w = green
    /\ (forall btn, GetBackgroundColour btn w = red)
    /\ ser_ready (controller (snd r)) = opened
    /\ n_opens (dev (snd r)) = S (n_opens d)
    /\ wire (dev (snd r)) = wire d
    /\ (opened = false ->
        n_opens (dev (snd (on_timer py_float w (snd r))))
        = S (S (n_opens d))).
Proof.
  intros s opened r. subst s opened r.
  unfold init_frame, init_ui, on_timer. run_M.
  destruct (opens d (n_opens d)) eqn:Ho; cbn; eexists;
    (split; [reflexivity|]); cbn;
    repeat split; try (intros []; reflexivity); try discriminate.
  intros _. run_M.
  unfold ser_ready, pressure_norm, set_ser, set_pressurePOSLE. cbn.
  repeat split_match; reflexivity.
Qed.
